(** * Timekeeper: the pay-period accounting engine of [script.js]

    A shallow embedding of the time helpers, the pay-period resolver, the
    worked-time calculator, the summary generator and its export, the
    localStorage-backed [Storage] object with its start-up, and the
    handlers of the page (login, punch-in, punch-out, deduction editor,
    add-employee, save-settings), followed by the properties established
    for them.

    Conventions.
    - JavaScript numbers that the program computes with are integers or
      [NaN]; they are modelled as [option Z], [None] being [NaN].  The
      embedding is exact as long as the integers stay within the safe
      integer range of IEEE doubles (up to 2^53 - 1), which minutes, days
      and calendar years do.  Beyond that range the two time helpers are
      given a second time in double precision ([InDoubles]).
    - Strings are sequences of 8-bit code units.
    - Hourly rates and money are genuine floating-point values; the
      operations on them are taken as an interface ([Float64]). *)

From Stdlib Require Import ZArith List Ascii String Bool Lia Permutation.
From Stdlib Require Import DecimalString DecimalZ DecimalN DecimalPos.
From Stdlib Require Import QArith Qround Qabs.
From Stdlib Require SpecFloat.
From stdpp Require Import base option list strings sorting gmap.

Local Open Scope string_scope.
Local Open Scope Z_scope.

#[local] Arguments String.append : simpl nomatch.

(** ** Part I: the program *)

(** *** The fragment of the JavaScript library that the program calls *)

(** [Array.prototype.sort] with a comparator that is a total order returns
    the sorted arrangement of the array; it is modelled by stdpp's
    [merge_sort].  Without a comparator, strings are ordered by their code
    units, which is stdpp's [String.le]. *)

Module JS.

(** [String(n)] for an integer [n]: its decimal numeral. *)
Definition ToString (n : Z) : string :=
    NilEmpty.string_of_int (Z.to_int n).

(** [Number(s)] on the numerals the program meets: a possibly empty run
      of decimal digits ([Number("")] is [0]) that writes a safe integer.
      Every other text is sent to [NaN]; signs, fractions, exponents,
      radix prefixes, [Infinity] and surrounding blanks, which [Number]
      also reads, are not part of this model, and the statements about
      [Number] are made on runs of digits only. *)
Definition Number (s : string) : option Z :=
    Z.of_uint <$> NilEmpty.uint_of_string s.

(** [s.padStart(n, '0')]: zeros are put in front until the length is [n]. *)
Fixpoint zeros (k : nat) : string :=
    match k with O => EmptyString | S k' => String "0" (zeros k') end.

Definition padStart0 (n : nat) (s : string) : string :=
    zeros (n - String.length s) +:+ s.

(** [s.split(c)] for a one-character separator [c]. *)
Fixpoint split (sep : ascii) (s : string) : list string :=
    match s with
    | EmptyString => [EmptyString]
    | String c s' =>
        if Ascii.eqb c sep then EmptyString :: split sep s'
        else match split sep s' with
             | [] => [String c EmptyString]
             | w :: ws => String c w :: ws
             end
    end.

(** Arithmetic and comparison on numbers; [NaN] propagates through the
      arithmetic and makes every comparison false. *)
Definition add (a b : option Z) : option Z := x ← a; y ← b; Some (x + y).
Definition sub (a b : option Z) : option Z := x ← a; y ← b; Some (x - y).
Definition mul (a b : option Z) : option Z := x ← a; y ← b; Some (x * y).
Definition lt (a b : option Z) : bool :=
    match a, b with Some x, Some y => x <? y | _, _ => false end.

(** White space, among the 8-bit code units: TAB, LF, VT, FF, CR, SP and
      NBSP. *)
Definition is_white (c : ascii) : bool :=
    let n := nat_of_ascii c in
    ((9 <=? n)%nat && (n <=? 13)%nat) || (n =? 32)%nat || (n =? 160)%nat.

Fixpoint trimStart (s : string) : string :=
    match s with
    | EmptyString => EmptyString
    | String c s' => if is_white c then trimStart s' else s
    end.

Fixpoint reverse_onto (s acc : string) : string :=
    match s with
    | EmptyString => acc
    | String c s' => reverse_onto s' (String c acc)
    end.

Definition reverse (s : string) : string := reverse_onto s EmptyString.

(** [s.trim()]. *)
Definition trim (s : string) : string :=
    reverse (trimStart (reverse (trimStart s))).

(** The value of a digit in the given radix (10 or 16). *)
Definition radix_digit (radix : Z) (c : ascii) : option Z :=
    let n := Z.of_nat (nat_of_ascii c) in
    let v := if (48 <=? n) && (n <=? 57) then Some (n - 48)
             else if (97 <=? n) && (n <=? 122) then Some (n - 87)
             else if (65 <=? n) && (n <=? 90) then Some (n - 55)
             else None in
    match v with
    | Some d => if d <? radix then Some d else None
    | None => None
    end.

(** The integer written by the longest prefix of [s] made of digits of
      the radix; [acc] is the value read so far, [None] before any digit. *)
Fixpoint digits_prefix (radix : Z) (s : string) (acc : option Z) : option Z :=
    match s with
    | EmptyString => acc
    | String c s' =>
        match radix_digit radix c with
        | Some d => digits_prefix radix s' (Some (default 0 acc * radix + d))
        | None => acc
        end
    end.

(** [parseInt(s)] without a radix argument: leading white space is
      skipped, a sign is read, a [0x] or [0X] prefix selects radix 16, and
      the longest prefix of digits gives the value; [NaN] when there is no
      digit. *)
Definition parseInt (s : string) : option Z :=
    let s0 := trimStart s in
    let '(sign, s1) :=
      match s0 with
      | String "-" r => (-1, r)
      | String "+" r => (1, r)
      | _ => (1, s0)
      end in
    let '(radix, s2) :=
      match s1 with
      | String "0" (String "x" r) => (16, r)
      | String "0" (String "X" r) => (16, r)
      | _ => (10, s1)
      end in
    Z.mul sign <$> digits_prefix radix s2 None.

End JS.

(** *** Plain objects used as maps

    A plain object is the list of its own properties in the order in which
    they were created.  [keys] is [Object.keys]: the property names that
    are array indices come first, by ascending numeric value, and the other
    names follow in creation order.  Names that the object would inherit
    from [Object.prototype] ([constructor], [toString], ...) are outside the
    model: [plain_key] excludes them. *)

Module JSObject.

Definition t (V : Type) : Type := list (string * V).

Section Ops.
Context {V : Type}.

Fixpoint get (o : t V) (k : string) : option V :=
      match o with
      | [] => None
      | (k', v) :: o' => if String.eqb k' k then Some v else get o' k
      end.

    (** [o[k] = v]: an existing property keeps its place. *)
Fixpoint set (o : t V) (k : string) (v : V) : t V :=
      match o with
      | [] => [(k, v)]
      | (k', v') :: o' =>
          if String.eqb k' k then (k, v) :: o' else (k', v') :: set o' k v
      end.
End Ops.

(** A canonical numeric string below 2^32 - 1. *)
Definition index_value (k : string) : Z :=
    default 0 (Z.of_uint <$> NilEmpty.uint_of_string k).

Definition is_array_index (k : string) : bool :=
    match NilEmpty.uint_of_string k with
    | Some d =>
        String.eqb (JS.ToString (Z.of_uint d)) k && (Z.of_uint d <? 4294967295)
    | None => false
    end.

Definition index_le (a b : string) : Prop := index_value a <= index_value b.

#[global] Instance index_le_dec (a b : string) : Decision (index_le a b).
Proof. unfold index_le. apply _. Defined.

Definition order_keys (ks : list string) : list string :=
    merge_sort index_le (filter (fun k => is_array_index k = true) ks)
    ++ filter (fun k => is_array_index k = false) ks.

Definition keys {V : Type} (o : t V) : list string := order_keys (map fst o).

Definition prototype_names : list string :=
    ["constructor"; "__defineGetter__"; "__defineSetter__"; "hasOwnProperty";
     "__lookupGetter__"; "__lookupSetter__"; "isPrototypeOf";
     "propertyIsEnumerable"; "toString"; "valueOf"; "__proto__";
     "toLocaleString"].

Definition plain_key (k : string) : bool :=
    negb (existsb (String.eqb k) prototype_names).

End JSObject.


(** *** Time helpers *)

(** [timeToMinutes]: the destructuring [[h, m]] takes the first two parts
    of the split; a missing part is [undefined], which makes the sum
    [NaN].  The parts are runs of digits whose numbers, with the sum, are
    safe integers. *)
Definition timeToMinutes (timeStr : string) : option Z :=
  match map JS.Number (JS.split ":" timeStr) with
  | h :: m :: _ => JS.add (JS.mul h (Some 60)) m
  | _ => None
  end.

(** [minutesToTime]: [Math.floor(mins / 60)] is the floored quotient and
    [mins % 60] the remainder that takes the sign of [mins].  [mins] is a
    safe integer (at most 2^53 - 1 in absolute value), on which the
    division in double precision followed by [Math.floor] is the floored
    quotient; [InDoubles.minutesToTime] is the function on every
    double. *)
Definition minutesToTime (mins : Z) : string :=
  let h := mins / 60 in
  let m := Z.rem mins 60 in
  JS.padStart0 2 (JS.ToString h) +:+ ":" +:+ JS.padStart0 2 (JS.ToString m).

(** [computeWorkedMinutes]; the third parameter has the default [0]. *)
Definition computeWorkedMinutes
    (actualIn actualOut : string) (deduction_arg : option Z) : option Z :=
  let deduction := default 0 deduction_arg in
  let ai := timeToMinutes actualIn in
  let ao := timeToMinutes actualOut in
  let minutes := JS.sub ao ai in
  let minutes := if JS.lt minutes (Some 0) then Some 0 else minutes in
  let minutes := JS.sub minutes (Some deduction) in
  let minutes := if JS.lt minutes (Some 0) then Some 0 else minutes in
  minutes.

(** A well-formed 24-hour time: two digits, a colon, two digits, the hour
    at most 23 and the minute at most 59. *)
Definition is_digit (c : ascii) : bool :=
  (48 <=? nat_of_ascii c)%nat && (nat_of_ascii c <=? 57)%nat.

Definition digit_value (c : ascii) : Z := Z.of_nat (nat_of_ascii c) - 48.

Definition well_formed_HHMM (s : string) : bool :=
  match s with
  | String h1 (String h2 (String c (String m1 (String m2 EmptyString)))) =>
      is_digit h1 && is_digit h2 && Ascii.eqb c ":" &&
      is_digit m1 && is_digit m2 &&
      (10 * digit_value h1 + digit_value h2 <=? 23) &&
      (10 * digit_value m1 + digit_value m2 <=? 59)
  | _ => false
  end.

(** The minute of the day that a well-formed time denotes. *)
Definition minute_of_day (s : string) : Z :=
  match s with
  | String h1 (String h2 (String _ (String m1 (String m2 _)))) =>
      (10 * digit_value h1 + digit_value h2) * 60
      + (10 * digit_value m1 + digit_value m2)
  | _ => 0
  end.

(** *** Numbers in double precision

    JavaScript numbers are IEEE 754 binary64 values.  On the safe integers
    the arithmetic of the time helpers is exact, and the definitions above
    are the functions.  Here the same two helpers are written on binary64
    values, with the operations of the Standard Library's specification of
    IEEE arithmetic ([SpecFloat], rounding to nearest, ties to even), to
    follow them beyond the safe integers. *)

Module Double.

Definition prec : Z := 53.
Definition emax : Z := 1024.

(** The double nearest to an integer: the value of an integer literal and
    of [Number] on a decimal numeral. *)
Definition of_Z (z : Z) : SpecFloat.spec_float :=
  SpecFloat.binary_normalize prec emax z 0 false.

Definition NaN : SpecFloat.spec_float := SpecFloat.S754_nan.

Definition add : SpecFloat.spec_float -> SpecFloat.spec_float -> SpecFloat.spec_float :=
  SpecFloat.SFadd prec emax.
Definition mul : SpecFloat.spec_float -> SpecFloat.spec_float -> SpecFloat.spec_float :=
  SpecFloat.SFmul prec emax.
Definition div : SpecFloat.spec_float -> SpecFloat.spec_float -> SpecFloat.spec_float :=
  SpecFloat.SFdiv prec emax.

(** The integer that a double is, when it is one. *)
Definition to_Z (x : SpecFloat.spec_float) : option Z :=
  match x with
  | SpecFloat.S754_zero _ => Some 0
  | SpecFloat.S754_finite s m e =>
      if 0 <=? e then Some ((if s then -1 else 1) * (Z.pos m * 2 ^ e))
      else if Z.pos m mod 2 ^ (- e) =? 0
           then Some ((if s then -1 else 1) * (Z.pos m / 2 ^ (- e)))
           else None
  | _ => None
  end.

(** [Math.floor(x)]. *)
Definition floor (x : SpecFloat.spec_float) : SpecFloat.spec_float :=
  match x with
  | SpecFloat.S754_finite s m e =>
      if 0 <=? e then x
      else if s then of_Z (- ((Z.pos m + 2 ^ (- e) - 1) / 2 ^ (- e)))
           else of_Z (Z.pos m / 2 ^ (- e))
  | _ => x
  end.

(** [x % d] for a positive integer [d]: the remainder of the truncated
    division, which is exact and takes the sign of [x]. *)
Definition rem (x : SpecFloat.spec_float) (d : Z) : SpecFloat.spec_float :=
  match x with
  | SpecFloat.S754_zero _ => x
  | SpecFloat.S754_finite s m e =>
      if 0 <=? e
      then SpecFloat.binary_normalize prec emax
             ((if s then -1 else 1) * Z.rem (Z.pos m * 2 ^ e) d) 0 s
      else SpecFloat.binary_normalize prec emax
             ((if s then -1 else 1) * Z.rem (Z.pos m) (d * 2 ^ (- e))) e s
  | _ => NaN
  end.

(** [String(x)] for a double that is an integer below 10^21 in absolute
    value, which prints as its decimal numeral, and for [NaN] and the
    infinities; the other doubles, which print with a fraction or an
    exponent, are outside this definition ([None]). *)
Definition ToString (x : SpecFloat.spec_float) : option string :=
  match x with
  | SpecFloat.S754_nan => Some "NaN"
  | SpecFloat.S754_infinity s => Some (if s then "-Infinity" else "Infinity")
  | _ =>
      match to_Z x with
      | Some z => if Z.abs z <? 10 ^ 21 then Some (JS.ToString z) else None
      | None => None
      end
  end.

(** [Number(s)] on a run of digits: the double nearest to the numeral. *)
Definition Number (s : string) : SpecFloat.spec_float :=
  match JS.Number s with
  | Some z => of_Z z
  | None => NaN
  end.

End Double.

Module InDoubles.

(** [timeToMinutes] on doubles. *)
Definition timeToMinutes (timeStr : string) : SpecFloat.spec_float :=
  match map Double.Number (JS.split ":" timeStr) with
  | h :: m :: _ => Double.add (Double.mul h (Double.of_Z 60)) m
  | _ => Double.NaN
  end.

(** [minutesToTime] on doubles; [None] when one of the two fields is
    outside [Double.ToString]. *)
Definition minutesToTime (mins : SpecFloat.spec_float) : option string :=
  let h := Double.floor (Double.div mins (Double.of_Z 60)) in
  let m := Double.rem mins 60 in
  hs ← Double.ToString h;
  ms ← Double.ToString m;
  Some (JS.padStart0 2 hs +:+ ":" +:+ JS.padStart0 2 ms).

End InDoubles.

(** *** Dates

    The time value of a [Date] object is a number of milliseconds since
    the epoch, in UTC, or [NaN] for an invalid date.  The definitions
    follow the "Date objects" clauses of ECMA-262.  The host's time zone
    is a fixed offset [LocalTZA], in milliseconds east of UTC, in force
    at every date: a host whose offset changes with the date (daylight
    saving) is not modelled, and the statements that compare dates built
    by [construct] are made for hosts with one offset. *)

Module JSDate.

Definition msPerDay : Z := 86400000.
Definition msPerHour : Z := 3600000.
Definition msPerMinute : Z := 60000.
Definition msPerSecond : Z := 1000.

Definition Day (t : Z) : Z := t / msPerDay.

Definition DaysInYear (y : Z) : Z :=
    if negb (y mod 4 =? 0) then 365
    else if negb (y mod 100 =? 0) then 366
    else if negb (y mod 400 =? 0) then 365
    else 366.

Definition DayFromYear (y : Z) : Z :=
    365 * (y - 1970) + (y - 1969) / 4 - (y - 1901) / 100 + (y - 1601) / 400.

(** [YearFromDay d]: the largest year whose first day is not after day
      [d].  The search starts from a year that is not before the answer
      (no year has fewer than 365 or more than 366 days) and walks down. *)
Fixpoint year_search (fuel : nat) (y : Z) (d : Z) : Z :=
    match fuel with
    | O => y
    | S fuel' => if DayFromYear y <=? d then y else year_search fuel' (y - 1) d
    end.

Definition YearFromDay (d : Z) : Z :=
    let start := if 0 <=? d then 1970 + d / 365 else 1970 + d / 366 in
    year_search (Z.to_nat (Z.abs d / 100000 + 2)) start d.

Definition YearFromTime (t : Z) : Z := YearFromDay (Day t).

Definition InLeapYear (t : Z) : Z :=
    if DaysInYear (YearFromTime t) =? 366 then 1 else 0.

Definition DayWithinYear (t : Z) : Z := Day t - DayFromYear (YearFromTime t).

(** The day of the year on which month [m] (0 to 11) starts. *)
Definition month_start (leap m : Z) : Z :=
    match m with
    | 0 => 0 | 1 => 31 | 2 => 59 + leap | 3 => 90 + leap
    | 4 => 120 + leap | 5 => 151 + leap | 6 => 181 + leap
    | 7 => 212 + leap | 8 => 243 + leap | 9 => 273 + leap
    | 10 => 304 + leap | _ => 334 + leap
    end.

Definition MonthFromTime (t : Z) : Z :=
    let d := DayWithinYear t in
    let leap := InLeapYear t in
    if d <? month_start leap 1 then 0
    else if d <? month_start leap 2 then 1
    else if d <? month_start leap 3 then 2
    else if d <? month_start leap 4 then 3
    else if d <? month_start leap 5 then 4
    else if d <? month_start leap 6 then 5
    else if d <? month_start leap 7 then 6
    else if d <? month_start leap 8 then 7
    else if d <? month_start leap 9 then 8
    else if d <? month_start leap 10 then 9
    else if d <? month_start leap 11 then 10
    else 11.

Definition DateFromTime (t : Z) : Z :=
    DayWithinYear t - month_start (InLeapYear t) (MonthFromTime t) + 1.

Definition HourFromTime (t : Z) : Z := (t / msPerHour) mod 24.
Definition MinFromTime (t : Z) : Z := (t / msPerMinute) mod 60.
Definition SecFromTime (t : Z) : Z := (t / msPerSecond) mod 60.
Definition msFromTime (t : Z) : Z := t mod msPerSecond.

Definition MakeTime (hour min sec ms : Z) : Z :=
    hour * msPerHour + min * msPerMinute + sec * msPerSecond + ms.

(** [MakeDay]: months outside 0..11 carry into the year, and the day of
      the month is an offset from the first of the month, so that day 0 is
      the last day of the month before. *)
Definition MakeDay (year month date : Z) : Z :=
    let ym := year + month / 12 in
    let mn := month mod 12 in
    let leap := if DaysInYear ym =? 366 then 1 else 0 in
    DayFromYear ym + month_start leap mn + date - 1.

Definition MakeDate (day time : Z) : Z := day * msPerDay + time.

Definition TimeClip (t : Z) : option Z :=
    if Z.abs t <=? 8640000000000000 then Some t else None.

Section Host.
Variable LocalTZA : Z.

Definition LocalTime (t : Z) : Z := t + LocalTZA.
Definition UTC (t : Z) : Z := t - LocalTZA.

    (** [new Date(year, month, date)]: the fields are read in local time;
        a year from 0 to 99 stands for 1900 + year. *)
Definition construct (year month date : option Z) : option Z :=
      y ← year; m ← month; dt ← date;
      let yr := if (0 <=? y) && (y <=? 99) then 1900 + y else y in
      TimeClip (UTC (MakeDate (MakeDay yr m dt) (MakeTime 0 0 0 0))).

Definition getFullYear (tv : option Z) : option Z :=
      t ← tv; Some (YearFromTime (LocalTime t)).
Definition getMonth (tv : option Z) : option Z :=
      t ← tv; Some (MonthFromTime (LocalTime t)).
Definition getDate (tv : option Z) : option Z :=
      t ← tv; Some (DateFromTime (LocalTime t)).

    (** [toTimeString().slice(0, 5)]: the local hour and minute. *)
Definition toTimeString_HHMM (tv : option Z) : string :=
      match tv with
      | None => "Inval"
      | Some t =>
          JS.padStart0 2 (JS.ToString (HourFromTime (LocalTime t)))
          +:+ ":" +:+ JS.padStart0 2 (JS.ToString (MinFromTime (LocalTime t)))
      end.
End Host.

(** [toISOString()], which formats the time value in UTC and throws a
      [RangeError] ([None]) on an invalid date.  Years outside 0..9999 are
      written with a sign and six digits. *)
Definition toISOString (tv : option Z) : option string :=
    t ← tv;
    let y := YearFromTime t in
    let year :=
      if (0 <=? y) && (y <=? 9999) then JS.padStart0 4 (JS.ToString y)
      else (if y <? 0 then "-" else "+") +:+ JS.padStart0 6 (JS.ToString (Z.abs y)) in
    Some (year
          +:+ "-" +:+ JS.padStart0 2 (JS.ToString (MonthFromTime t + 1))
          +:+ "-" +:+ JS.padStart0 2 (JS.ToString (DateFromTime t))
          +:+ "T" +:+ JS.padStart0 2 (JS.ToString (HourFromTime t))
          +:+ ":" +:+ JS.padStart0 2 (JS.ToString (MinFromTime t))
          +:+ ":" +:+ JS.padStart0 2 (JS.ToString (SecFromTime t))
          +:+ "." +:+ JS.padStart0 3 (JS.ToString (msFromTime t))
          +:+ "Z").

(** [toISOString().slice(0, 10)]. *)
Definition isoDate (tv : option Z) : option string :=
    String.substring 0 10 <$> toISOString tv.

End JSDate.

(** *** Pay-period resolver *)


Section PayPeriod.
Variable LocalTZA : Z.

(** [day >= startDays[i]], false when [day] is [NaN]. *)
Definition day_reaches (day : option Z) (startDay : Z) : bool :=
    match day with Some d => startDay <=? d | None => false end.

(** [Math.min(a, b)], [NaN] when an argument is [NaN] or [undefined]. *)
Definition Math_min (a b : option Z) : option Z :=
    x ← a; y ← b; Some (Z.min x y).

(** [getPayPeriodStart(dateObj, startDaysParam)].  [dateObj] is the time
      value of the [Date]; a missing second argument is [None].  The result
      is [None] when [toISOString] throws. *)
Definition getPayPeriodStart
      (dateObj : option Z) (startDaysParam : option (list Z)) : option string :=
    let startDays := merge_sort Z.le (default [1; 15] startDaysParam) in
    let day := JSDate.getDate LocalTZA dateObj in
    let month := JSDate.getMonth LocalTZA dateObj in
    let year := JSDate.getFullYear LocalTZA dateObj in
    let chosenDay :=
      fold_left (fun chosen sd => if day_reaches day sd then Some sd else chosen)
                startDays None in
    match chosenDay with
    | None =>
        let prevMonth :=
          m ← JS.add (JS.sub month (Some 1)) (Some 12); Some (Z.rem m 12) in
        let prevYear :=
          match month with
          | Some 0 => JS.sub year (Some 1)
          | _ => year
          end in
        let lastDay := last startDays in
        let daysInPrevMonth :=
          JSDate.getDate LocalTZA
            (JSDate.construct LocalTZA prevYear (JS.add prevMonth (Some 1)) (Some 0)) in
        let startDate :=
          JSDate.construct LocalTZA prevYear prevMonth (Math_min lastDay daysInPrevMonth) in
        JSDate.isoDate startDate
    | Some chosen =>
        let daysInMonth :=
          JSDate.getDate LocalTZA
            (JSDate.construct LocalTZA year (JS.add month (Some 1)) (Some 0)) in
        let actualDay := Math_min (Some chosen) daysInMonth in
        let startDate := JSDate.construct LocalTZA year month actualDay in
        JSDate.isoDate startDate
    end.
End PayPeriod.

(** *** Records of the application *)

(** The double-precision operations that the program applies to hours and
    money: conversion of an integer, division, multiplication, the test
    [x || 0] makes ([truthy] is false on zero and on [NaN]) and
    [x.toFixed(2)]. *)
Class Float64 : Type := {
  float : Type;
  of_int : Z -> float;
  fdiv : float -> float -> float;
  fmul : float -> float -> float;
  truthy : float -> bool;
  toFixed2 : float -> string
}.

(** An instance on which the definitions can be run: the rationals with
    exact arithmetic, [toFixed(2)] rounding to the nearest hundredth, ties
    away from zero.  It coincides with double precision on the values of
    the examples below, which are computed without rounding. *)
Definition Q_toFixed2 (q : Q) : string :=
  let a := Qabs q in
  let n := Qfloor (Qplus (Qmult a (inject_Z 100)) (Qmake 1 2)) in
  (if Qle_bool 0 q then "" else "-")
  +:+ JS.ToString (n / 100) +:+ "." +:+ JS.padStart0 2 (JS.ToString (n mod 100)).

Definition exact_arithmetic : Float64 := {|
  float := Q;
  of_int := inject_Z;
  fdiv := Qdiv;
  fmul := Qmult;
  truthy := fun q => negb (Qeq_bool q 0);
  toFixed2 := Q_toFixed2
|}.

Module Account.
Section Fields.
Context `{Float64}.
(** [hourlyRate] is absent on the administrator account that
    [initDefaults] creates. *)
Record t : Type := mk {
  username : string;
  password : string;
  role : string;
  hourlyRate : option float
}.
End Fields.
End Account.

Module PunchSession.
Record t : Type := mk { date : string; punchIn : string }.
End PunchSession.

Module WorkLog.
(** [minutesWorked] is a number, or [None] for the [null] that
    [JSON.stringify] writes for [NaN]; [deduction] is absent until an
    administrator saves one. *)
Record t : Type := mk {
  username : string;
  date : string;
  punchIn : string;
  punchOut : string;
  minutesWorked : option Z;
  payPeriodStart : string;
  deduction : option Z
}.
End WorkLog.

Module PaySettings.
Record t : Type := mk { startDays : list Z }.
End PaySettings.

Module SummaryRow.
Record t : Type := mk {
  period : string;
  user : string;
  totalHours : string;
  totalPay : string
}.
End SummaryRow.

(** [log.deduction ?? 0], as the tables display it. *)
Definition deduction_of (log : WorkLog.t) : Z := default 0 (WorkLog.deduction log).

(** *** Asynchronous routines

    A routine runs on a world, may change it, and either returns a value
    or throws.  The awaits of the program are sequential, so [bind] is
    sequencing; a throw keeps the changes made before it. *)

Inductive outcome (A : Type) : Type :=
| Returned (a : A)
| Thrown (e : string).
Arguments Returned {A} a.
Arguments Thrown {A} e.

Definition Async (W A : Type) : Type := W -> W * outcome A.

Definition ret {W A : Type} (a : A) : Async W A := fun w => (w, Returned a).

Definition throw {W A : Type} (e : string) : Async W A := fun w => (w, Thrown e).

Definition bind {W A B : Type} (m : Async W A) (k : A -> Async W B) : Async W B :=
  fun w =>
    match m w with
    | (w', Returned a) => k a w'
    | (w', Thrown e) => (w', Thrown e)
    end.

(** [try { m } catch (e) { h }]. *)
Definition try_catch {W A : Type} (m h : Async W A) : Async W A :=
  fun w =>
    match m w with
    | (w', Returned a) => (w', Returned a)
    | (w', Thrown _) => h w'
    end.

Definition of_outcome {W A : Type} (o : outcome A) : Async W A := fun w => (w, o).

Declare Scope async_scope.
Delimit Scope async_scope with async.
Notation "'let!' x := m 'in' k" := (bind m (fun x => k))
  (at level 10, x name, k at level 200) : async_scope.
Local Open Scope async_scope.

(** *** The storage layer, on localStorage

    [Storage.useFirestore] is [false] unless a Firebase configuration is
    supplied; the embedding follows the localStorage branch of every
    method.  Each key of localStorage holds a JSON text: it is absent
    ([Missing]), or not parseable ([Corrupt], on which [JSON.parse]
    throws a [SyntaxError]), or the text of a value. *)

Inductive item (A : Type) : Type :=
| Missing
| Corrupt
| Value (a : A).
Arguments Missing {A}.
Arguments Corrupt {A}.
Arguments Value {A} a.

(** [JSON.parse(localStorage.getItem(key) || fallback)]. *)
Definition parse_or {A : Type} (fallback : A) (i : item A) : outcome A :=
  match i with
  | Missing => Returned fallback
  | Corrupt => Thrown "SyntaxError"
  | Value a => Returned a
  end.

(** The two fields that the deduction editor passes to [updateLog]. *)
Module LogPatch.
Record t : Type := mk { minutesWorked : option Z; deduction : Z }.
End LogPatch.

(** [Object.assign({}, log, updatedFields)]. *)
Definition assign_patch (log : WorkLog.t) (updatedFields : LogPatch.t) : WorkLog.t :=
  WorkLog.mk (WorkLog.username log) (WorkLog.date log) (WorkLog.punchIn log)
             (WorkLog.punchOut log) (LogPatch.minutesWorked updatedFields)
             (WorkLog.payPeriodStart log) (Some (LogPatch.deduction updatedFields)).

(** The two ways in which [setCurrentPunch] is called: with the whole map
    as its only argument, or with a user name and a record or [null]. *)
Inductive punch_update : Type :=
| WholeMap (map : gmap string PunchSession.t)
| PerUser (username : string) (record : option PunchSession.t).

(** [map[username] = record] on the object that [JSON.parse] returned: the
    record becomes the own property of that name.  The one exception is
    the name [__proto__] on a map that has no own property of that name:
    the assignment then reaches the setter inherited from
    [Object.prototype], which replaces the prototype of the map and leaves
    its own properties, all that [JSON.stringify] writes, as they were.
    ([JSON.parse] defines a member named [__proto__] of the stored text as
    an own property, which an assignment then overwrites like any other;
    the program itself never writes one.) *)
Definition assign_session
    (currentPunchMap : gmap string PunchSession.t) (username : string)
    (record : PunchSession.t) : gmap string PunchSession.t :=
  match String.eqb username "__proto__", currentPunchMap !! username with
  | true, None => currentPunchMap
  | _, _ => <[username := record]> currentPunchMap
  end.

Module Storage.
Section Store.
Context `{Float64}.

Record t : Type := mk {
  accounts : item (list Account.t);
  logs : item (list WorkLog.t);
  paySettings : item PaySettings.t;
  currentPunch : item (gmap string PunchSession.t)
}.

Definition set_accounts (v : list Account.t) (st : t) : t :=
  mk (Value v) (logs st) (paySettings st) (currentPunch st).
Definition set_logs (v : list WorkLog.t) (st : t) : t :=
  mk (accounts st) (Value v) (paySettings st) (currentPunch st).
Definition set_paySettings (v : PaySettings.t) (st : t) : t :=
  mk (accounts st) (logs st) (Value v) (currentPunch st).
Definition set_currentPunch (v : gmap string PunchSession.t) (st : t) : t :=
  mk (accounts st) (logs st) (paySettings st) (Value v).

Definition read {A : Type} (field : t -> item A) (fallback : A) : Async t A :=
  fun st => (st, parse_or fallback (field st)).

Definition write (update : t -> t) : Async t unit :=
  fun st => (update st, Returned tt).

Definition default_settings : PaySettings.t := PaySettings.mk [1; 15].

Definition getAccounts : Async t (list Account.t) := read accounts [].

Definition setAccounts (accs : list Account.t) : Async t unit :=
  write (set_accounts accs).

(** [accounts.findIndex(a => a.username === account.username)], then
    replacement at that index or [push]. *)
Fixpoint upsert (account : Account.t) (accs : list Account.t) : list Account.t :=
  match accs with
  | [] => [account]
  | a :: accs' =>
      if String.eqb (Account.username a) (Account.username account)
      then account :: accs'
      else a :: upsert account accs'
  end.

Definition upsertAccount (account : Account.t) : Async t unit :=
  let! accs := read accounts [] in
  write (set_accounts (upsert account accs)).

Definition deleteAccount (username : string) : Async t unit :=
  let! accs := read accounts [] in
  let! _ := write (set_accounts
    (List.filter (fun a => negb (String.eqb (Account.username a) username)) accs)) in
  let! ls := read logs [] in
  write (set_logs
    (List.filter (fun log => negb (String.eqb (WorkLog.username log) username)) ls)).

Definition getLogs : Async t (list WorkLog.t) := read logs [].

Definition addLog (log : WorkLog.t) : Async t WorkLog.t :=
  let! ls := read logs [] in
  let! _ := write (set_logs (ls ++ [log])) in
  ret log.

(** [updateLog]: the index is used only when it lies within the array. *)
Definition updateLog (logId : Z) (updatedFields : LogPatch.t) : Async t unit :=
  let! ls := read logs [] in
  if (0 <=? logId) && (logId <? Z.of_nat (length ls)) then
    match ls !! Z.to_nat logId with
    | Some log =>
        write (set_logs (<[Z.to_nat logId := assign_patch log updatedFields]> ls))
    | None => ret tt
    end
  else ret tt.

Definition getPaySettings : Async t PaySettings.t := read paySettings default_settings.

Definition setPaySettings (settings : PaySettings.t) : Async t unit :=
  write (set_paySettings settings).

Definition getCurrentPunch : Async t (gmap string PunchSession.t) :=
  read currentPunch ∅.

Definition setCurrentPunch (arg : punch_update) : Async t unit :=
  match arg with
  | WholeMap map => write (set_currentPunch map)
  | PerUser username record =>
      let! map := read currentPunch ∅ in
      match record with
      | Some r => write (set_currentPunch (assign_session map username r))
      | None => write (set_currentPunch (delete username map))
      end
  end.

End Store.
End Storage.

(** *** Summary generation *)

Section Summary.
Context `{Float64}.

(** [formatHours]; [NaN] prints as such. *)
Definition formatHours (mins : option Z) : string :=
  match mins with
  | Some m => toFixed2 (fdiv (of_int m) (of_int 60))
  | None => "NaN"
  end.

(** One turn of the [logs.forEach] loop of [generateSummary].  [empMap] is
    the object stored under the period, updated in place.  A stored [null]
    adds zero. *)
Definition add_log
    (summaryMap : JSObject.t (JSObject.t Z)) (log : WorkLog.t) : JSObject.t (JSObject.t Z) :=
  let period := WorkLog.payPeriodStart log in
  let user := WorkLog.username log in
  let summaryMap :=
    match JSObject.get summaryMap period with
    | None => JSObject.set summaryMap period []
    | Some _ => summaryMap
    end in
  let empMap := default [] (JSObject.get summaryMap period) in
  let empMap :=
    match JSObject.get empMap user with
    | None | Some 0 => JSObject.set empMap user 0
    | Some _ => empMap
    end in
  let empMap :=
    JSObject.set empMap user
      (default 0 (JSObject.get empMap user) + default 0 (WorkLog.minutesWorked log)) in
  JSObject.set summaryMap period empMap.

Definition build_summaryMap (logs : list WorkLog.t) : JSObject.t (JSObject.t Z) :=
  fold_left add_log logs [].

(** [account?.hourlyRate || 0] for [accounts.find(a => a.username === user)]. *)
Definition rate_of (accounts : list Account.t) (user : string) : float :=
  match List.find (fun a => String.eqb (Account.username a) user) accounts with
  | Some account =>
      match Account.hourlyRate account with
      | Some r => if truthy r then r else of_int 0
      | None => of_int 0
      end
  | None => of_int 0
  end.

Definition summary_row
    (accounts : list Account.t) (period user : string) (totalMins : Z) : SummaryRow.t :=
  let rate := rate_of accounts user in
  let totalPay := toFixed2 (fmul (fdiv (of_int totalMins) (of_int 60)) rate) in
  SummaryRow.mk period user (formatHours (Some totalMins)) totalPay.

(** The second loop: periods in sorted order, users in [Object.keys] order. *)
Definition summary_rows
    (accounts : list Account.t) (summaryMap : JSObject.t (JSObject.t Z)) : list SummaryRow.t :=
  flat_map
    (fun period =>
       let empMap := default [] (JSObject.get summaryMap period) in
       map (fun user => summary_row accounts period user (default 0 (JSObject.get empMap user)))
           (JSObject.keys empMap))
    (merge_sort String.le (JSObject.keys summaryMap)).

Definition generateSummary : Async Storage.t (list SummaryRow.t) :=
  let! logs := Storage.getLogs in
  let! accounts := Storage.getAccounts in
  ret (summary_rows accounts (build_summaryMap logs)).

End Summary.

(** *** The page and its handlers *)

Module Page.
(** What the handlers write on the page: the alerts raised, the two
    message lines and the visibility of the punch buttons. *)
Record t : Type := mk {
  alerts : list string;
  punchMessage : string;
  payPeriodMessage : string;
  punchInBtn_hidden : bool;
  punchOutBtn_hidden : bool
}.
End Page.

Section Handlers.
Context `{Float64}.
Variable LocalTZA : Z.

Record World : Type := mkWorld { storage : Storage.t; page : Page.t }.

(** A storage call made from a handler. *)
Definition on_storage {A : Type} (m : Async Storage.t A) : Async World A :=
  fun w => let '(st, r) := m (storage w) in (mkWorld st (page w), r).

Definition on_page (f : Page.t -> Page.t) : Async World unit :=
  fun w => (mkWorld (storage w) (f (page w)), Returned tt).

Definition alert (msg : string) : Page.t -> Page.t :=
  fun pg => Page.mk (Page.alerts pg ++ [msg]) (Page.punchMessage pg)
                    (Page.payPeriodMessage pg) (Page.punchInBtn_hidden pg)
                    (Page.punchOutBtn_hidden pg).

Definition punched_out (msg : string) : Page.t -> Page.t :=
  fun pg => Page.mk (Page.alerts pg) msg (Page.payPeriodMessage pg) false true.

Definition set_payPeriodMessage (msg : string) : Page.t -> Page.t :=
  fun pg => Page.mk (Page.alerts pg) (Page.punchMessage pg) msg
                    (Page.punchInBtn_hidden pg) (Page.punchOutBtn_hidden pg).

(** A value computed by a call that may throw. *)
Definition or_throw {A : Type} (e : string) (o : option A) : Async World A :=
  match o with Some a => ret a | None => throw e end.

(** The click handler of the punch-out button, for the logged-in user
    [currentUser] at the instant [now] (the time value of [new Date()]).
    The table refreshes at its end only redraw the page and are left out. *)
Definition punchOut_click (currentUser : string) (now : Z) : Async World unit :=
  let timeOutStr := JSDate.toTimeString_HHMM LocalTZA (Some now) in
  let! today := or_throw "RangeError" (JSDate.isoDate (Some now)) in
  let! currentPunchMap := on_storage Storage.getCurrentPunch in
  match currentPunchMap !! currentUser with
  | Some punchRecord =>
      if String.eqb (PunchSession.date punchRecord) today then
        let timeInStr := PunchSession.punchIn punchRecord in
        let minutesWorked := computeWorkedMinutes timeInStr timeOutStr None in
        let! startDays :=
          try_catch
            (let! settings := on_storage Storage.getPaySettings in
             ret (PaySettings.startDays settings))
            (ret [1; 15]) in
        let! payPeriodStart :=
          or_throw "RangeError" (getPayPeriodStart LocalTZA (Some now) (Some startDays)) in
        let! _ := on_storage (Storage.addLog
          (WorkLog.mk currentUser today timeInStr timeOutStr minutesWorked
                      payPeriodStart None)) in
        let! _ := on_storage (Storage.setCurrentPunch
          (WholeMap (delete currentUser currentPunchMap))) in
        on_page (punched_out
          ("You punched out at " +:+ timeOutStr +:+ ". Total worked: "
           +:+ formatHours minutesWorked +:+ " hours."))
      else on_page (alert "No punch in record found for today.")
  | None => on_page (alert "No punch in record found for today.")
  end.

(** The entries of the pay-period field that [filter] keeps. *)
Definition valid_day (n : option Z) : option Z :=
  match n with
  | Some d => if (1 <=? d) && (d <=? 31) then Some d else None
  | None => None
  end.

Definition parse_days (input : string) : list Z :=
  omap (fun part => valid_day (JS.parseInt (JS.trim part)))
       (JS.split "," (JS.trim input)).

(** The numbers that the entries of the field parse to. *)
Definition parsed_entries (value : string) : list (option Z) :=
  map (fun part => JS.parseInt (JS.trim part)) (JS.split "," (JS.trim value)).

(** The click handler of the save button of the pay-period settings. *)
Definition savePayPeriod_click (value : string) : Async World unit :=
  let parts := parse_days value in
  if (length parts =? 0)%nat then
    on_page (set_payPeriodMessage "Please enter valid day numbers separated by commas.")
  else
    let parts := merge_sort Z.le parts in
    let! _ := on_storage (Storage.setPaySettings (PaySettings.mk parts)) in
    on_page (set_payPeriodMessage "Pay period settings saved.").

End Handlers.

(** The log that a punch-out writes. *)
Definition punch_log
    (LocalTZA : Z) (currentUser today : string) (now : Z)
    (session : PunchSession.t) (payPeriodStart : string) : WorkLog.t :=
  let timeOutStr := JSDate.toTimeString_HHMM LocalTZA (Some now) in
  WorkLog.mk currentUser today (PunchSession.punchIn session) timeOutStr
             (computeWorkedMinutes (PunchSession.punchIn session) timeOutStr None)
             payPeriodStart None.

(** *** The other handlers and the start-up of the storage *)

Module JSArray.
(** [texts.join(sep)]. *)
Fixpoint join (sep : string) (texts : list string) : string :=
  match texts with
  | [] => EmptyString
  | [t] => t
  | t :: rest => t +:+ sep +:+ join sep rest
  end.
End JSArray.

Module Startup.
Section Store.
Context `{Float64}.

(** [if (!localStorage.getItem(key)) localStorage.setItem(key, text)]: an
    absent key receives the text; a key that holds a text, parseable or
    not, keeps it. *)
Definition fill {A : Type} (value : A) (i : item A) : item A :=
  match i with
  | Missing => Value value
  | Corrupt => Corrupt
  | Value a => Value a
  end.

(** [Storage.init()] without a Firebase configuration. *)
Definition init : Async Storage.t unit :=
  Storage.write (fun st =>
    Storage.mk (fill [] (Storage.accounts st)) (fill [] (Storage.logs st))
               (fill Storage.default_settings (Storage.paySettings st))
               (fill ∅ (Storage.currentPunch st))).

Definition admin_account : Account.t := Account.mk "admin" "admin" "admin" None.

(** [Storage.initDefaults()], localStorage branch: the administrator is
    created when no account is stored, and the default settings are
    written when the settings key holds nothing. *)
Definition initDefaults : Async Storage.t unit :=
  let! accounts := Storage.read Storage.accounts [] in
  let! _ :=
    match accounts with
    | [] => Storage.write (Storage.set_accounts [admin_account])
    | _ :: _ => ret tt
    end in
  fun st =>
    match Storage.paySettings st with
    | Missing => (Storage.set_paySettings Storage.default_settings st, Returned tt)
    | Corrupt => (st, Thrown "SyntaxError")
    | Value _ => (st, Returned tt)
    end.

(** What the page runs when it is loaded: [await Storage.init();
    await Storage.initDefaults();]. *)
Definition run : Async Storage.t unit :=
  let! _ := init in initDefaults.

End Store.
End Startup.

Section OtherHandlers.
Context `{Float64}.
Variable LocalTZA : Z.

Definition punched_in (msg : string) : Page.t -> Page.t :=
  fun pg => Page.mk (Page.alerts pg) msg (Page.payPeriodMessage pg) true false.

Definition not_punched_in : Page.t -> Page.t :=
  fun pg => Page.mk (Page.alerts pg) "" (Page.payPeriodMessage pg) false true.

(** The click handler of the punch-in button (localStorage branch): the
    session of the user is written over whatever the map holds. *)
Definition punchIn_click (currentUser : string) (now : Z) : Async World unit :=
  let timeStr := JSDate.toTimeString_HHMM LocalTZA (Some now) in
  let! today := or_throw "RangeError" (JSDate.isoDate (Some now)) in
  let record := PunchSession.mk today timeStr in
  let! currentPunchMap := on_storage Storage.getCurrentPunch in
  let! _ := on_storage (Storage.setCurrentPunch
    (WholeMap (assign_session currentPunchMap currentUser record))) in
  on_page (punched_in ("You punched in at " +:+ timeStr +:+ ".")).

(** The asynchronous part of [loadEmployeeView]: which punch button is
    shown, and the message, from the stored session of the user. *)
Definition loadEmployeeView (username : string) (now : Z) : Async World unit :=
  let! currentPunchMap := on_storage Storage.getCurrentPunch in
  let! today := or_throw "RangeError" (JSDate.isoDate (Some now)) in
  match currentPunchMap !! username with
  | Some session =>
      if String.eqb (PunchSession.date session) today then
        on_page (punched_in
          ("You punched in at " +:+ PunchSession.punchIn session +:+ "."))
      else on_page not_punched_in
  | None => on_page not_punched_in
  end.

(** [isNaN(value) || value < 0 ? 0 : value] for [value = parseInt(text)]. *)
Definition coerce_deduction (text : string) : Z :=
  match JS.parseInt text with
  | Some value => if value <? 0 then 0 else value
  | None => 0
  end.

(** The click handler of a "Save" button of the logs table (localStorage
    branch).  [logs] is the array that the table was drawn from, [id] the
    [data-id] of the row and [text] the content of its deduction field. *)
Definition saveDeduction_click
    (logs : list WorkLog.t) (id text : string) : Async Storage.t unit :=
  let deduction := coerce_deduction text in
  match JS.parseInt id with
  | Some logIndex =>
      if 0 <=? logIndex then
        match logs !! Z.to_nat logIndex with
        | Some logRecord =>
            let minutes :=
              computeWorkedMinutes (WorkLog.punchIn logRecord)
                                   (WorkLog.punchOut logRecord) (Some deduction) in
            Storage.updateLog logIndex (LogPatch.mk minutes deduction)
        | None => ret tt
        end
      else ret tt
  | None => ret tt
  end.

(** The text that [loadAdminView] puts in the pay-period field. *)
Definition loadAdminView_days : Async Storage.t string :=
  try_catch
    (let! settings := Storage.getPaySettings in
     ret (JSArray.join "," (map JS.ToString (PaySettings.startDays settings))))
    (ret "1,15").

(** [(async () => { ... })()] that the caller does not await: a rejection
    inside it does not reach the caller. *)
Definition detached (m : Async World unit) : Async World unit :=
  try_catch m (ret tt).

(** What a click on the login button leads to. *)
Inductive login_outcome : Type :=
| Rejected (loginError : string)
| EmployeeView (account : Account.t)
| AdminView (account : Account.t) (payPeriodDays : string)
| NoView (account : Account.t).

Definition credentials_match (username password role : string) (acc : Account.t) : bool :=
  String.eqb (Account.username acc) username
  && String.eqb (Account.password acc) password
  && String.eqb (Account.role acc) role.

(** The click handler of the login button, at the instant [now]. *)
Definition login_click
    (usernameValue password role : string) (now : Z) : Async World login_outcome :=
  let username := JS.trim usernameValue in
  let! accounts := on_storage Storage.getAccounts in
  match List.find (credentials_match username password role) accounts with
  | None => ret (Rejected "Invalid credentials or role.")
  | Some account =>
      if String.eqb (Account.role account) "employee" then
        let! _ := detached (loadEmployeeView (Account.username account) now) in
        ret (EmployeeView account)
      else if String.eqb (Account.role account) "admin" then
        let! days := on_storage loadAdminView_days in
        ret (AdminView account days)
      else ret (NoView account)
  end.

(** [parseFloat] of the rate field: [None] is [NaN].  A rate that JSON
    cannot store (an infinity) is outside the model. *)
Variable parseFloat : string -> option float.


(** [exportSummary]: the text of the file offered for download, or an
    alert when the summary has no row. *)
Definition csv_line (r : SummaryRow.t) : string :=
  SummaryRow.period r +:+ "," +:+ SummaryRow.user r +:+ ","
  +:+ SummaryRow.totalHours r +:+ "," +:+ SummaryRow.totalPay r
  +:+ String "010" EmptyString.

Definition csv_header : string :=
  "Pay Period Start,Employee,Total Hours,Total Pay" +:+ String "010" EmptyString.

Definition exportSummary : Async World (option string) :=
  let! rows := on_storage generateSummary in
  match rows with
  | [] =>
      let! _ := on_page (alert "No summary data to export.") in
      ret None
  | _ :: _ => ret (Some (fold_left (fun csv r => csv +:+ csv_line r) rows csv_header))
  end.

End OtherHandlers.

(** *** The summary, as the specification speaks of it

    These definitions are not taken from the program: they group the logs
    by pay period and user, add up the minutes of each group and lay out
    the rows, so that [generateSummary] can be compared with them. *)

Module Grouping.

(** The distinct elements of a list, in the order of their first
    appearance. *)
Fixpoint first_appearances (l : list string) : list string :=
  match l with
  | [] => []
  | x :: l' => x :: List.filter (fun y => negb (String.eqb y x)) (first_appearances l')
  end.

Definition in_period (p : string) (log : WorkLog.t) : bool :=
  String.eqb (WorkLog.payPeriodStart log) p.

Definition in_group (p u : string) (log : WorkLog.t) : bool :=
  in_period p log && String.eqb (WorkLog.username log) u.

(** The minutes that a log contributes: its [minutesWorked], with no
    deduction taken off again. *)
Definition minutes (log : WorkLog.t) : Z := default 0 (WorkLog.minutesWorked log).

Definition sum (l : list Z) : Z := foldr Z.add 0 l.

(** The logs of a period and user, and the sum of their minutes. *)
Definition group (logs : list WorkLog.t) (p u : string) : list WorkLog.t :=
  List.filter (in_group p u) logs.

Definition total (logs : list WorkLog.t) (p u : string) : Z :=
  sum (map minutes (group logs p u)).

(** The total of a group, when the group has a log. *)
Definition group_total (logs : list WorkLog.t) (p u : string) : option Z :=
  match group logs p u with
  | [] => None
  | _ :: _ => Some (total logs p u)
  end.

(** The periods in ascending order, and the users of a period in the
    order of [Object.keys]: first appearance, array indices first. *)
Definition periods (logs : list WorkLog.t) : list string :=
  merge_sort String.le (first_appearances (map WorkLog.payPeriodStart logs)).

Definition users_by_appearance (logs : list WorkLog.t) (p : string) : list string :=
  first_appearances (map WorkLog.username (List.filter (in_period p) logs)).

Definition users (logs : list WorkLog.t) (p : string) : list string :=
  JSObject.order_keys (users_by_appearance logs p).

Section Rows.
Context `{Float64}.

Definition rows (accounts : list Account.t) (logs : list WorkLog.t) : list SummaryRow.t :=
  flat_map (fun p => map (fun u => summary_row accounts p u (total logs p u)) (users logs p))
           (periods logs).

End Rows.

(** The minutes recorded in a summary map for a period and user. *)
Definition minutes_at (summaryMap : JSObject.t (JSObject.t Z)) (p u : string) : option Z :=
  empMap ← JSObject.get summaryMap p; JSObject.get empMap u.

(** Names that are own properties only: neither the pay period nor the
    user name of a log is a name of [Object.prototype]. *)
Definition plain_names (logs : list WorkLog.t) : Prop :=
  Forall (fun log => JSObject.plain_key (WorkLog.payPeriodStart log) = true /\
                     JSObject.plain_key (WorkLog.username log) = true) logs.

End Grouping.

(** *** Sample data

    A storage in which alice punched in at 09:00 on 2024-01-10, with the
    default settings stored, and an instant of that day, 17:30 UTC. *)

Module Sample.

Definition alice_session : PunchSession.t := PunchSession.mk "2024-01-10" "09:00".

Definition store : @Storage.t exact_arithmetic :=
  Storage.mk Missing (Value []) (Value (PaySettings.mk [1; 15]))
             (Value {[ "alice" := alice_session ]}).

Definition blank_page : Page.t := Page.mk [] "" "" true false.

Definition world : @World exact_arithmetic := mkWorld store blank_page.

Definition evening : Z := 1704907800000.

(** The same storage with an unparseable text under the settings key. *)
Definition store_bad_settings : @Storage.t exact_arithmetic :=
  Storage.mk Missing (Value []) Corrupt (Value {[ "alice" := alice_session ]}).

(** A storage with one log, and a patch for the deduction editor. *)
Definition one_log : WorkLog.t :=
  WorkLog.mk "alice" "2024-01-09" "09:00" "17:00" (Some 480) "2024-01-01" None.

Definition store_one_log : @Storage.t exact_arithmetic :=
  Storage.mk Missing (Value [one_log]) Missing Missing.

Definition patch : LogPatch.t := LogPatch.mk (Some 450) 30.

(** Logs and accounts for the summary. *)
Definition log_of (user period : string) (minutes : Z) : WorkLog.t :=
  WorkLog.mk user "2024-01-09" "09:00" "17:00" (Some minutes) period None.

Definition employee (name : string) (rate : Z) : @Account.t exact_arithmetic :=
  Account.mk (H := exact_arithmetic) name "secret" "employee"
             (Some (inject_Z rate : @float exact_arithmetic)).

(** An administrator account that carries an hourly rate. *)
Definition paid_admin : @Account.t exact_arithmetic :=
  Account.mk (H := exact_arithmetic) "boss" "secret" "admin"
             (Some (inject_Z 20 : @float exact_arithmetic)).

Definition store_of (accounts : list (@Account.t exact_arithmetic))
    (logs : list WorkLog.t) : @Storage.t exact_arithmetic :=
  Storage.mk (Value accounts) (Value logs) Missing Missing.


End Sample.

(** *** The calendar, as the specification speaks of it

    These definitions are not taken from the program: they say what a
    calendar date, the length of a month and the start of a pay period
    are, so that the program can be compared with them. *)

Module Calendar.

Definition leap (y : Z) : Z :=
  if (y mod 4 =? 0) && (negb (y mod 100 =? 0) || (y mod 400 =? 0)) then 1 else 0.

(** The number of days of month [m] (0 is January) of year [y]. *)
Definition days_in_month (y m : Z) : Z :=
  match m with
  | 1 => 28 + leap y
  | 3 | 5 | 8 | 10 => 30
  | _ => 31
  end.

(** A date of the calendar: year, month from 0 to 11, day of the month. *)
Definition valid_date (y m d : Z) : Prop :=
  0 <= m <= 11 /\ 1 <= d <= days_in_month y m.

(** The text YYYY-MM-DD of a date. *)
Definition iso (y m d : Z) : string :=
  JS.padStart0 4 (JS.ToString y) +:+ "-" +:+ JS.padStart0 2 (JS.ToString (m + 1))
  +:+ "-" +:+ JS.padStart0 2 (JS.ToString d).

(** The greatest element of a list of integers, if the list is not empty. *)
Definition greatest (l : list Z) : option Z :=
  foldr (fun x acc => Some (match acc with Some a => Z.max x a | None => x end)) None l.

(** The month before month [m] of year [y]. *)
Definition previous_month (y m : Z) : Z * Z :=
  if m =? 0 then (y - 1, 11) else (y, m - 1).

(** The start of the pay period of the date [(y, m, d)]: the date of the
    same month whose day is the greatest start day not after [d], or, when
    every start day is after [d], the date of the month before whose day
    is the greatest start day; the day is clamped to the length of the
    month.  [None] when there is no start day at all. *)
Definition period_start (y m d : Z) (startDays : list Z) : option (Z * Z * Z) :=
  match greatest (List.filter (fun sd => sd <=? d) startDays) with
  | Some c => Some (y, m, Z.min c (days_in_month y m))
  | None =>
      let '(py, pm) := previous_month y m in
      c ← greatest startDays; Some (py, pm, Z.min c (days_in_month py pm))
  end.

End Calendar.

(** *** Notions used in the proofs *)

(** A text made of decimal digits only. *)
Definition all_digits (s : string) : Prop :=
  Forall (fun c => is_digit c = true) (list_ascii_of_string s).

(** One turn of the loop of [getPayPeriodStart] over the start days. *)
Definition choose (day : option Z) (chosen : option Z) (sd : Z) : option Z :=
  if day_reaches day sd then Some sd else chosen.

(** [chosen] is the greatest start day of [l] that the day of the month
    reaches, or [None] when the day reaches none. *)
Definition is_choice (day : option Z) (l : list Z) (chosen : option Z) : Prop :=
  match chosen with
  | Some c => c ∈ l /\ day_reaches day c = true /\
              forall x, x ∈ l -> day_reaches day x = true -> x <= c
  | None => forall x, x ∈ l -> day_reaches day x = false
  end.

(** [m] is the greatest element of [l], or [None] when [l] is empty. *)
Definition is_greatest (l : list Z) (m : option Z) : Prop :=
  match m with
  | Some c => c ∈ l /\ forall x, x ∈ l -> x <= c
  | None => l = []
  end.

(** What the summary map holds after the logs: the periods and, per
    period, the users, in the order of first appearance, and the total of
    each group. *)
Definition summary_inv (logs : list WorkLog.t) (m : JSObject.t (JSObject.t Z)) : Prop :=
  map fst m = Grouping.first_appearances (map WorkLog.payPeriodStart logs) /\
  (forall p e, JSObject.get m p = Some e -> map fst e = Grouping.users_by_appearance logs p) /\
  (forall p u, Grouping.minutes_at m p u = Grouping.group_total logs p u).

(** A text without white space, and a text without a comma. *)
Definition no_white (s : string) : Prop :=
  Forall (fun c => JS.is_white c = false) (list_ascii_of_string s).

Definition no_comma (s : string) : Prop :=
  Forall (fun c => Ascii.eqb c "," = false) (list_ascii_of_string s).

(** A text whose fields between colons are runs of at most 13 digits:
    on these [JS.Number] is JavaScript's [Number], and the numbers that
    [timeToMinutes] computes from them are safe integers. *)
Definition digit_fields (s : string) : Prop :=
  Forall (fun part => all_digits part /\ (String.length part <= 13)%nat)
         (JS.split ":" s).

(** The minute of the local day at an instant, as [toTimeString] shows it:
    the seconds are dropped. *)
Definition local_minute (LocalTZA now : Z) : Z :=
  JSDate.HourFromTime (JSDate.LocalTime LocalTZA now) * 60
  + JSDate.MinFromTime (JSDate.LocalTime LocalTZA now).

Section AccountNotions.
Context `{Float64}.

(** Whether an account with the given user name is stored, and the first
    such account. *)
Definition has_username (accounts : list Account.t) (username : string) : bool :=
  existsb (fun acc => String.eqb (Account.username acc) username) accounts.

Definition account_of (accounts : list Account.t) (username : string) : option Account.t :=
  List.find (fun acc => String.eqb (Account.username acc) username) accounts.

End AccountNotions.


(** ** Part II: properties *)

(** *** Numerals *)

Lemma is_digit_cases c :
  is_digit c = true ->
  In c ["0"; "1"; "2"; "3"; "4"; "5"; "6"; "7"; "8"; "9"]%char.
Proof.
  destruct c as [[] [] [] [] [] [] [] []]; vm_compute; intros H;
    solve [discriminate H | tauto].
Qed.

Ltac digit_cases H :=
  apply is_digit_cases in H; simpl in H;
  repeat (destruct H as [H | H]; [subst | ]); [.. | contradiction].

Lemma Number_two_digits a b :
  is_digit a = true -> is_digit b = true ->
  JS.Number (String a (String b "")) = Some (10 * digit_value a + digit_value b).
Proof. intros Ha Hb. digit_cases Ha; digit_cases Hb; reflexivity. Qed.

Lemma pad_two_digits a b :
  is_digit a = true -> is_digit b = true ->
  JS.padStart0 2 (JS.ToString (10 * digit_value a + digit_value b))
  = String a (String b "").
Proof. intros Ha Hb. digit_cases Ha; digit_cases Hb; reflexivity. Qed.

Lemma digit_value_range c : is_digit c = true -> 0 <= digit_value c <= 9.
Proof. intros H. digit_cases H; vm_compute; split; discriminate. Qed.

Lemma digit_not_colon c : is_digit c = true -> Ascii.eqb c ":" = false.
Proof. intros H. digit_cases H; reflexivity. Qed.

Lemma string_of_uint_digits d : all_digits (NilEmpty.string_of_uint d).
Proof.
  unfold all_digits. induction d; simpl; constructor; auto.
Qed.

Lemma ToString_nonneg n :
  0 <= n -> exists d, JS.ToString n = NilEmpty.string_of_uint d /\ Z.of_uint d = n.
Proof.
  intros Hn. unfold JS.ToString.
  pose proof (DecimalZ.of_to n) as Hof.
  destruct n as [|p|p]; [| |lia].
  - exists (Decimal.D0 Decimal.Nil). split; reflexivity.
  - exists (Pos.to_uint p). split; [reflexivity | exact Hof].
Qed.

Lemma ToString_digits n : 0 <= n -> all_digits (JS.ToString n).
Proof.
  intros Hn. destruct (ToString_nonneg n Hn) as (d & -> & _).
  apply string_of_uint_digits.
Qed.

Lemma Number_zeros_string_of_uint k d :
  JS.Number (JS.zeros k +:+ NilEmpty.string_of_uint d)
  = Some (Z.of_uint d).
Proof.
  unfold JS.Number. induction k as [|k IH]; simpl.
  - now rewrite NilEmpty.usu.
  - destruct (NilEmpty.uint_of_string _) as [u|] eqn:E; simpl in *; [|discriminate].
    now inversion IH.
Qed.

Lemma Number_padStart0_ToString k n :
  0 <= n -> JS.Number (JS.padStart0 k (JS.ToString n)) = Some n.
Proof.
  intros Hn. destruct (ToString_nonneg n Hn) as (d & -> & <-).
  apply Number_zeros_string_of_uint.
Qed.

Lemma all_digits_app s t : all_digits s -> all_digits t -> all_digits (s +:+ t).
Proof.
  unfold all_digits. induction s; simpl; auto.
  intros H1 H2. inversion H1; subst. constructor; auto.
Qed.

Lemma padStart0_digits k s : all_digits s -> all_digits (JS.padStart0 k s).
Proof.
  intros H. unfold JS.padStart0. apply all_digits_app; auto.
  induction (k - String.length s)%nat; simpl.
  - constructor.
  - constructor; auto.
Qed.

(** Splitting at the colon a text made of two runs of digits. *)
Lemma split_digits s : all_digits s -> JS.split ":" s = [s].
Proof.
  unfold all_digits. induction s as [|c s IH]; simpl; auto.
  intros H. inversion H; subst.
  rewrite digit_not_colon by assumption. now rewrite IH.
Qed.

Lemma split_two_fields s t :
  all_digits s -> all_digits t -> JS.split ":" (s +:+ String ":" t) = [s; t].
Proof.
  unfold all_digits. induction s as [|c s IH]; simpl; intros Hs Ht.
  - now rewrite split_digits.
  - inversion Hs; subst. rewrite digit_not_colon by assumption.
    now rewrite IH.
Qed.

(** *** Time helpers *)

Example timeToMinutes_0900 : timeToMinutes "09:00" = Some 540.
Proof. reflexivity. Qed.

Example minutesToTime_5 : minutesToTime 5 = "00:05".
Proof. reflexivity. Qed.

Lemma well_formed_HHMM_inv s :
  well_formed_HHMM s = true ->
  exists h1 h2 m1 m2,
    s = String h1 (String h2 (String ":" (String m1 (String m2 "")))) /\
    is_digit h1 = true /\ is_digit h2 = true /\
    is_digit m1 = true /\ is_digit m2 = true /\
    0 <= 10 * digit_value h1 + digit_value h2 <= 23 /\
    0 <= 10 * digit_value m1 + digit_value m2 <= 59.
Proof.
  destruct s as [|h1 [|h2 [|c [|m1 [|m2 [|]]]]]]; try discriminate.
  unfold well_formed_HHMM. rewrite !andb_true_iff, !Z.leb_le, Ascii.eqb_eq.
  intros [[[[[[H1 H2] ->] H3] H4] H5] H6].
  pose proof (digit_value_range _ H1). pose proof (digit_value_range _ H2).
  pose proof (digit_value_range _ H3). pose proof (digit_value_range _ H4).
  exists h1, h2, m1, m2. repeat split; auto; lia.
Qed.

Lemma timeToMinutes_well_formed s :
  well_formed_HHMM s = true ->
  timeToMinutes s = Some (minute_of_day s) /\ 0 <= minute_of_day s < 1440.
Proof.
  intros H.
  destruct (well_formed_HHMM_inv s H)
    as (h1 & h2 & m1 & m2 & -> & D1 & D2 & D3 & D4 & Hh & Hm).
  split; [|simpl; lia].
  unfold timeToMinutes.
  change (String h1 (String h2 (String ":" (String m1 (String m2 "")))))
    with (String h1 (String h2 "") +:+ String ":" (String m1 (String m2 ""))).
  rewrite split_two_fields by (repeat constructor; assumption).
  simpl map. now rewrite !Number_two_digits.
Qed.

Lemma minutesToTime_minute_of_day s :
  well_formed_HHMM s = true -> minutesToTime (minute_of_day s) = s.
Proof.
  intros H.
  destruct (well_formed_HHMM_inv s H)
    as (h1 & h2 & m1 & m2 & -> & D1 & D2 & D3 & D4 & Hh & Hm).
  unfold minutesToTime, minute_of_day.
  set (hh := 10 * digit_value h1 + digit_value h2) in *.
  set (mm := 10 * digit_value m1 + digit_value m2) in *.
  assert (Hq : (hh * 60 + mm) / 60 = hh)
    by (symmetry; apply (Z.div_unique _ 60 hh mm); lia).
  assert (Hr : Z.rem (hh * 60 + mm) 60 = mm).
  { rewrite Z.rem_mod_nonneg by lia.
    symmetry; apply (Z.mod_unique _ 60 hh mm); lia. }
  rewrite Hq, Hr. unfold hh, mm.
  now rewrite !pad_two_digits.
Qed.

Lemma timeToMinutes_minutesToTime m :
  0 <= m -> timeToMinutes (minutesToTime m) = Some m.
Proof.
  intros Hm. unfold minutesToTime, timeToMinutes.
  assert (Hq : 0 <= m / 60) by (apply Z.div_pos; lia).
  assert (Hr : 0 <= Z.rem m 60) by (apply Z.rem_nonneg; lia).
  change (":" +:+ ?t) with (String ":" t).
  rewrite split_two_fields
    by (apply padStart0_digits, ToString_digits; assumption).
  simpl map. rewrite !Number_padStart0_ToString by assumption.
  simpl. f_equal. rewrite Z.rem_mod_nonneg by lia.
  pose proof (Z.div_mod m 60). lia.
Qed.

(** *** Dates *)

(** The midnight that starts 2024-01-10 in UTC, as an instant. *)
Example midnight_2024_01_10 :
  JSDate.construct 0 (Some 2024) (Some 0) (Some 10) = Some 1704844800000.
Proof. reflexivity. Qed.

Example iso_2024_01_10 :
  JSDate.toISOString (Some 1704844800000) = Some "2024-01-10T00:00:00.000Z".
Proof. vm_compute. reflexivity. Qed.

Example gpps_utc_10 :
  getPayPeriodStart 0 (Some 1704844800000) (Some [1; 15]) = Some "2024-01-01".
Proof. vm_compute. reflexivity. Qed.

Example gpps_east_10 :
  getPayPeriodStart 3600000 (Some 1704844800000) (Some [1; 15]) = Some "2023-12-31".
Proof. vm_compute. reflexivity. Qed.

(** *** Dates: years, months and days of a time value *)

Ltac div_lia := Z.to_euclidean_division_equations; lia.

Ltac month_cases m Hm :=
  assert (m = 0 \/ m = 1 \/ m = 2 \/ m = 3 \/ m = 4 \/ m = 5 \/ m = 6 \/
          m = 7 \/ m = 8 \/ m = 9 \/ m = 10 \/ m = 11) as Hcases by lia;
  clear Hm;
  repeat (destruct Hcases as [Hcases | Hcases]; [subst m | ]); [.. | subst m].

Section DateFacts.
Import JSDate.

Lemma DayFromYear_next y : DayFromYear (y + 1) = DayFromYear y + DaysInYear y.
Proof.
  unfold DayFromYear, DaysInYear.
  destruct (Z.eqb_spec (y mod 4) 0), (Z.eqb_spec (y mod 100) 0),
    (Z.eqb_spec (y mod 400) 0); simpl; div_lia.
Qed.

Lemma DayFromYear_increasing y1 y2 :
  y1 < y2 -> DayFromYear y1 + 365 <= DayFromYear y2.
Proof. unfold DayFromYear. div_lia. Qed.

Lemma search_start_above d :
  d < DayFromYear ((if 0 <=? d then 1970 + d / 365 else 1970 + d / 366) + 1).
Proof. unfold DayFromYear. destruct (Z.leb_spec 0 d); div_lia. Qed.

Lemma search_end_below d :
  DayFromYear ((if 0 <=? d then 1970 + d / 365 else 1970 + d / 366)
               - (Z.abs d / 100000 + 2)) <= d.
Proof. unfold DayFromYear. destruct (Z.leb_spec 0 d); div_lia. Qed.

Lemma year_search_spec fuel y d :
  let found := year_search fuel y d in
  found <= y /\
  (DayFromYear found <= d \/ found = y - Z.of_nat fuel) /\
  (found < y -> d < DayFromYear (found + 1)).
Proof.
  revert y. induction fuel as [|fuel IH]; intros y; cbn [year_search].
  - cbv zeta. split; [lia|]. split; [right; lia|lia].
  - destruct (Z.leb_spec (DayFromYear y) d) as [Hle|Hgt].
    + cbv zeta. split; [lia|]. split; [left; assumption|lia].
    + specialize (IH (y - 1)). cbv zeta in *. destruct IH as (H1 & H2 & H3).
      split; [lia|]. split; [destruct H2; [left; assumption|right; lia]|].
      intros _. destruct (Z.eq_dec (year_search fuel (y - 1) d) (y - 1)) as [E|E].
      * rewrite E. replace (y - 1 + 1) with y by lia. assumption.
      * apply H3. lia.
Qed.

(** The search always finds the year of the day: the fuel suffices. *)
Lemma YearFromDay_spec d :
  DayFromYear (YearFromDay d) <= d < DayFromYear (YearFromDay d + 1).
Proof.
  unfold YearFromDay.
  set (start := if 0 <=? d then _ else _).
  set (fuel := Z.to_nat _).
  destruct (year_search_spec fuel start d) as (H1 & H2 & H3).
  assert (Hfuel : Z.of_nat fuel = Z.abs d / 100000 + 2).
  { unfold fuel. rewrite Z2Nat.id; [reflexivity|]. div_lia. }
  split.
  - destruct H2 as [H2|H2]; [assumption|]. rewrite H2, Hfuel. apply search_end_below.
  - destruct (Z.eq_dec (year_search fuel start d) start) as [E|E].
    + rewrite E. apply search_start_above.
    + apply H3. lia.
Qed.

Lemma YearFromDay_unique d y :
  DayFromYear y <= d < DayFromYear (y + 1) -> YearFromDay d = y.
Proof.
  intros H. pose proof (YearFromDay_spec d) as S.
  destruct (Z.lt_trichotomy (YearFromDay d) y) as [C|[C|C]]; [|assumption|].
  - destruct (Z.eq_dec (YearFromDay d + 1) y) as [E|E]; [rewrite E in S; lia|].
    pose proof (DayFromYear_increasing (YearFromDay d + 1) y ltac:(lia)). lia.
  - destruct (Z.eq_dec (y + 1) (YearFromDay d)) as [E|E]; [rewrite E in H; lia|].
    pose proof (DayFromYear_increasing (y + 1) (YearFromDay d) ltac:(lia)). lia.
Qed.

Lemma leap_DaysInYear y : DaysInYear y = 365 + Calendar.leap y.
Proof.
  unfold DaysInYear, Calendar.leap.
  destruct (y mod 4 =? 0), (y mod 100 =? 0), (y mod 400 =? 0); reflexivity.
Qed.

Lemma leap_cases y : Calendar.leap y = 0 \/ Calendar.leap y = 1.
Proof. unfold Calendar.leap. destruct (_ && _); auto. Qed.

Lemma leap_flag y : (if DaysInYear y =? 366 then 1 else 0) = Calendar.leap y.
Proof. rewrite leap_DaysInYear. destruct (leap_cases y) as [-> | ->]; reflexivity. Qed.

Lemma MakeDay_in_year y m d :
  0 <= m <= 11 ->
  MakeDay y m d = DayFromYear y + month_start (Calendar.leap y) m + d - 1.
Proof.
  intros Hm. unfold MakeDay.
  replace (m / 12) with 0 by div_lia. replace (m mod 12) with m by div_lia.
  rewrite Z.add_0_r. now rewrite leap_flag.
Qed.

(** The fields of a time value whose day is the day of a calendar date. *)
Lemma fields_of_date y m d t :
  Calendar.valid_date y m d ->
  Day t = MakeDay y m d ->
  YearFromTime t = y /\ MonthFromTime t = m /\ DateFromTime t = d.
Proof.
  intros [Hm Hd] Ht. rewrite MakeDay_in_year in Ht by assumption.
  pose proof (leap_cases y) as Hl.
  assert (Hy : YearFromTime t = y).
  { unfold YearFromTime. apply YearFromDay_unique.
    rewrite DayFromYear_next, leap_DaysInYear, Ht.
    unfold Calendar.days_in_month in Hd.
    month_cases m Hm; simpl in *; lia. }
  assert (Hw : DayWithinYear t = month_start (Calendar.leap y) m + d - 1).
  { unfold DayWithinYear. rewrite Hy, Ht. lia. }
  assert (Hf : InLeapYear t = Calendar.leap y).
  { unfold InLeapYear. rewrite Hy. apply leap_flag. }
  assert (Hmonth : MonthFromTime t = m).
  { unfold MonthFromTime. rewrite Hw, Hf.
    unfold Calendar.days_in_month in Hd.
    month_cases m Hm; simpl in *;
      repeat match goal with
             | |- context [?a <? ?b] => destruct (Z.ltb_spec a b); try lia
             end; reflexivity. }
  split; [assumption|]. split; [assumption|].
  unfold DateFromTime. rewrite Hmonth, Hw, Hf. lia.
Qed.

(** Every time value falls on a calendar date. *)
Lemma date_of_fields t :
  Calendar.valid_date (YearFromTime t) (MonthFromTime t) (DateFromTime t) /\
  Day t = MakeDay (YearFromTime t) (MonthFromTime t) (DateFromTime t).
Proof.
  pose proof (YearFromDay_spec (Day t)) as Hs.
  rewrite DayFromYear_next, leap_DaysInYear in Hs.
  fold (YearFromTime t) in Hs.
  pose proof (leap_cases (YearFromTime t)) as Hl.
  assert (Hf : InLeapYear t = Calendar.leap (YearFromTime t))
    by (unfold InLeapYear; apply leap_flag).
  assert (Hm : 0 <= MonthFromTime t <= 11).
  { unfold MonthFromTime.
    repeat match goal with
           | |- context [?a <? ?b] => destruct (a <? b)
           end; lia. }
  split.
  - split; [assumption|].
    unfold DateFromTime, Calendar.days_in_month.
    unfold MonthFromTime. rewrite Hf. unfold DayWithinYear.
    destruct Hl as [Hl | Hl]; rewrite Hl in *; simpl;
      repeat match goal with
             | |- context [?a <? ?b] => destruct (Z.ltb_spec a b)
             end; simpl; lia.
  - rewrite MakeDay_in_year by assumption.
    unfold DateFromTime. rewrite Hf. unfold DayWithinYear. lia.
Qed.

End DateFacts.

(** *** Sorting *)

Lemma merge_sort_Z_elem (l : list Z) (x : Z) : x ∈ merge_sort Z.le l <-> x ∈ l.
Proof. now rewrite merge_sort_Permutation. Qed.

Lemma merge_sort_Z_sorted (l : list Z) : StronglySorted Z.le (merge_sort Z.le l).
Proof. apply StronglySorted_merge_sort; apply _. Qed.

(** *** Pay-period resolver: the choice of the start day *)

Section Choice.
Variable day : option Z.

Lemma fold_choose_is_choice (l : list Z) :
  StronglySorted Z.le l -> is_choice day l (fold_left (choose day) l None).
Proof.
  induction l as [|x l IH] using rev_ind; intros Hs.
  - simpl. intros x Hx. inversion Hx.
  - rewrite fold_left_app. simpl.
    apply StronglySorted_app in Hs as (Hle & Hl & _).
    specialize (IH Hl). unfold choose at 1.
    destruct (day_reaches day x) eqn:Hx.
    + simpl. split; [set_solver|]. split; [assumption|].
      intros y Hy _. apply elem_of_app in Hy as [Hy|Hy].
      * apply Hle; [assumption|set_solver].
      * apply list_elem_of_singleton in Hy. subst. reflexivity.
    + destruct (fold_left (choose day) l None) as [c|]; simpl in *.
      * destruct IH as (Hc & Hd & Hmax). split; [set_solver|]. split; [assumption|].
        intros y Hy Hdy. apply elem_of_app in Hy as [Hy|Hy]; [auto|].
        apply list_elem_of_singleton in Hy. subst. congruence.
      * intros y Hy. apply elem_of_app in Hy as [Hy|Hy]; [auto|].
        apply list_elem_of_singleton in Hy. now subst.
Qed.

Lemma is_choice_unique (l1 l2 : list Z) (c1 c2 : option Z) :
  (forall x, x ∈ l1 <-> x ∈ l2) ->
  is_choice day l1 c1 -> is_choice day l2 c2 -> c1 = c2.
Proof.
  intros Hset H1 H2. destruct c1 as [c1|], c2 as [c2|]; simpl in *.
  - destruct H1 as (I1 & D1 & M1), H2 as (I2 & D2 & M2).
    f_equal. apply Z.le_antisymm.
    + apply M2; [now apply Hset|assumption].
    + apply M1; [now apply Hset|assumption].
  - destruct H1 as (I1 & D1 & _). rewrite (H2 c1) in D1; [discriminate|now apply Hset].
  - destruct H2 as (I2 & D2 & _). rewrite (H1 c2) in D2; [discriminate|now apply Hset].
  - reflexivity.
Qed.
End Choice.

Lemma last_is_greatest (l : list Z) :
  StronglySorted Z.le l -> is_greatest l (last l).
Proof.
  destruct l as [|x l _] using rev_ind; intros Hs; [reflexivity|].
  rewrite last_snoc. simpl.
  apply StronglySorted_app in Hs as (Hle & _ & _).
  split; [set_solver|]. intros y Hy.
  apply elem_of_app in Hy as [Hy|Hy].
  - apply Hle; [assumption|set_solver].
  - apply list_elem_of_singleton in Hy. subst. reflexivity.
Qed.

Lemma is_greatest_unique (l1 l2 : list Z) (m1 m2 : option Z) :
  (forall x, x ∈ l1 <-> x ∈ l2) ->
  is_greatest l1 m1 -> is_greatest l2 m2 -> m1 = m2.
Proof.
  intros Hset H1 H2. destruct m1 as [c1|], m2 as [c2|]; simpl in *.
  - destruct H1 as (I1 & M1), H2 as (I2 & M2). f_equal. apply Z.le_antisymm.
    + apply M2. now apply Hset.
    + apply M1. now apply Hset.
  - subst l2. destruct H1 as (I1 & _). apply Hset in I1. inversion I1.
  - subst l1. destruct H2 as (I2 & _). apply Hset in I2. inversion I2.
  - reflexivity.
Qed.

Lemma fold_choose_same_set (day : option Z) (l1 l2 : list Z) :
  (forall x, x ∈ l1 <-> x ∈ l2) ->
  fold_left (choose day) (merge_sort Z.le l1) None
  = fold_left (choose day) (merge_sort Z.le l2) None.
Proof.
  intros Hset.
  apply (is_choice_unique day (merge_sort Z.le l1) (merge_sort Z.le l2)).
  - intros x. now rewrite !merge_sort_Z_elem.
  - apply fold_choose_is_choice, merge_sort_Z_sorted.
  - apply fold_choose_is_choice, merge_sort_Z_sorted.
Qed.

Lemma last_sorted_same_set (l1 l2 : list Z) :
  (forall x, x ∈ l1 <-> x ∈ l2) ->
  last (merge_sort Z.le l1) = last (merge_sort Z.le l2).
Proof.
  intros Hset.
  apply (is_greatest_unique (merge_sort Z.le l1) (merge_sort Z.le l2)).
  - intros x. now rewrite !merge_sort_Z_elem.
  - apply last_is_greatest, merge_sort_Z_sorted.
  - apply last_is_greatest, merge_sort_Z_sorted.
Qed.

(** [getPayPeriodStart] in terms of the chosen day and the last start day. *)
Lemma getPayPeriodStart_unfold (tza : Z) (dateObj : option Z) (l : list Z) :
  getPayPeriodStart tza dateObj (Some l) =
  let day := JSDate.getDate tza dateObj in
  let month := JSDate.getMonth tza dateObj in
  let year := JSDate.getFullYear tza dateObj in
  match fold_left (choose day) (merge_sort Z.le l) None with
  | None =>
      let prevMonth := m ← JS.add (JS.sub month (Some 1)) (Some 12); Some (Z.rem m 12) in
      let prevYear := match month with Some 0 => JS.sub year (Some 1) | _ => year end in
      let daysInPrevMonth :=
        JSDate.getDate tza (JSDate.construct tza prevYear (JS.add prevMonth (Some 1)) (Some 0)) in
      JSDate.isoDate
        (JSDate.construct tza prevYear prevMonth
           (Math_min (last (merge_sort Z.le l)) daysInPrevMonth))
  | Some chosen =>
      let daysInMonth :=
        JSDate.getDate tza (JSDate.construct tza year (JS.add month (Some 1)) (Some 0)) in
      JSDate.isoDate (JSDate.construct tza year month (Math_min (Some chosen) daysInMonth))
  end.
Proof. reflexivity. Qed.

(** *** Pay-period resolver: the date that is built *)

Section ResolverFacts.
Import JSDate.

Lemma greatest_is_greatest (l : list Z) : is_greatest l (Calendar.greatest l).
Proof.
  induction l as [|x l IH]; [reflexivity|].
  simpl. destruct (Calendar.greatest l) as [a|]; simpl in *.
  - destruct IH as [Ha Hmax]. split.
    + destruct (Z.max_spec x a) as [[_ ->]|[_ ->]]; set_solver.
    + intros y Hy. apply elem_of_cons in Hy as [->|Hy]; [lia|].
      specialize (Hmax y Hy). lia.
  - subst l. split; [set_solver|]. intros y Hy.
    apply list_elem_of_singleton in Hy. subst. reflexivity.
Qed.

Lemma greatest_filter_is_choice (day : Z) (l : list Z) :
  is_choice (Some day) l (Calendar.greatest (List.filter (fun sd => sd <=? day) l)).
Proof.
  pose proof (greatest_is_greatest (List.filter (fun sd => sd <=? day) l)) as G.
  destruct (Calendar.greatest _) as [c|]; simpl in *.
  - destruct G as [Hc Hmax].
    apply list_elem_of_In, filter_In in Hc as [Hc Hle]. split; [now apply list_elem_of_In|].
    split; [assumption|]. intros x Hx Hxd. apply Hmax.
    apply list_elem_of_In, filter_In. split; [now apply list_elem_of_In|assumption].
  - intros x Hx. destruct (x <=? day) eqn:E; [|reflexivity].
    assert (Hin : In x (List.filter (fun sd => sd <=? day) l))
      by (apply filter_In; split; [now apply list_elem_of_In|assumption]).
    rewrite G in Hin. destruct Hin.
Qed.

Lemma fold_choose_greatest (day : Z) (l : list Z) :
  fold_left (choose (Some day)) (merge_sort Z.le l) None
  = Calendar.greatest (List.filter (fun sd => sd <=? day) l).
Proof.
  apply (is_choice_unique (Some day) (merge_sort Z.le l) l).
  - apply merge_sort_Z_elem.
  - apply fold_choose_is_choice, merge_sort_Z_sorted.
  - apply greatest_filter_is_choice.
Qed.

Lemma last_sorted_greatest (l : list Z) :
  last (merge_sort Z.le l) = Calendar.greatest l.
Proof.
  apply (is_greatest_unique (merge_sort Z.le l) l).
  - apply merge_sort_Z_elem.
  - apply last_is_greatest, merge_sort_Z_sorted.
  - apply greatest_is_greatest.
Qed.

Lemma month_start_bounds l m :
  0 <= l <= 1 -> 0 <= m <= 11 -> 0 <= month_start l m <= 335.
Proof. intros Hl Hm. month_cases m Hm; simpl; lia. Qed.

Lemma MakeDay_bounds y m d :
  99 <= y <= 10000 -> 0 <= m <= 12 -> 0 <= d <= 31 ->
  -700000 <= MakeDay y m d <= 3000000.
Proof.
  intros Hy Hm Hd. unfold MakeDay.
  assert (Hq : m / 12 = 0 \/ m / 12 = 1) by div_lia.
  assert (Hr : 0 <= m mod 12 <= 11) by div_lia.
  pose proof (month_start_bounds
                (if DaysInYear (y + m / 12) =? 366 then 1 else 0) (m mod 12)
                ltac:(destruct (_ =? _); lia) Hr).
  unfold DayFromYear. destruct Hq as [Hq | Hq]; rewrite Hq in *; div_lia.
Qed.

Lemma construct_value tza y m d :
  100 <= y <= 9999 -> 0 <= m <= 12 -> 0 <= d <= 31 ->
  Z.abs tza <= msPerDay ->
  construct tza (Some y) (Some m) (Some d) = Some (MakeDay y m d * msPerDay - tza).
Proof.
  intros Hy Hm Hd Htz. unfold construct. simpl.
  replace ((0 <=? y) && (y <=? 99)) with false by (symmetry; apply andb_false_iff; lia).
  pose proof (MakeDay_bounds y m d ltac:(lia) Hm Hd) as Hb.
  unfold UTC, MakeDate, MakeTime.
  replace (MakeDay y m d * msPerDay
           + (0 * msPerHour + 0 * msPerMinute + 0 * msPerSecond + 0) - tza)
    with (MakeDay y m d * msPerDay - tza) by lia.
  unfold TimeClip, msPerDay in *.
  destruct (Z.leb_spec (Z.abs (MakeDay y m d * 86400000 - tza)) 8640000000000000);
    [reflexivity|lia].
Qed.

Lemma Day_of_midnight d : Day (d * msPerDay) = d.
Proof. unfold Day, msPerDay. div_lia. Qed.

(** Day zero of the next month is the last day of the month. *)
Lemma MakeDay_day_zero y m :
  0 <= m <= 11 -> MakeDay y (m + 1) 0 = MakeDay y m (Calendar.days_in_month y m).
Proof.
  intros Hm. rewrite (MakeDay_in_year y m) by assumption.
  destruct (Z.eq_dec m 11) as [->|Hne].
  - unfold MakeDay. simpl. rewrite DayFromYear_next, leap_DaysInYear. lia.
  - rewrite MakeDay_in_year by lia. unfold Calendar.days_in_month.
    month_cases m Hm; simpl; lia.
Qed.

Lemma days_in_month_bounds y m : 28 <= Calendar.days_in_month y m <= 31.
Proof.
  unfold Calendar.days_in_month.
  destruct (leap_cases y) as [-> | ->];
    repeat match goal with |- context [match ?x with _ => _ end] => destruct x end; lia.
Qed.

(** [new Date(year, month + 1, 0).getDate()] is the length of the month. *)
Lemma getDate_day_zero tza y m :
  100 <= y <= 9999 -> 0 <= m <= 11 -> Z.abs tza <= msPerDay ->
  getDate tza (construct tza (Some y) (Some (m + 1)) (Some 0))
  = Some (Calendar.days_in_month y m).
Proof.
  intros Hy Hm Htz. rewrite construct_value by lia. simpl. f_equal.
  unfold LocalTime.
  replace (MakeDay y (m + 1) 0 * msPerDay - tza + tza)
    with (MakeDay y (m + 1) 0 * msPerDay) by lia.
  pose proof (days_in_month_bounds y m).
  apply (fields_of_date y m (Calendar.days_in_month y m)).
  - split; [assumption|lia].
  - rewrite Day_of_midnight. now apply MakeDay_day_zero.
Qed.

(** What [getPayPeriodStart] builds: the local midnight of the start of the
    period, as an instant. *)
Lemma getPayPeriodStart_instant (tza now : Z) (startDays : list Z) :
  let y := YearFromTime (now + tza) in
  let m := MonthFromTime (now + tza) in
  let day := DateFromTime (now + tza) in
  101 <= y <= 9999 ->
  Z.abs tza <= msPerDay ->
  startDays <> [] ->
  Forall (fun sd => 1 <= sd <= 31) startDays ->
  exists Y M K,
    Calendar.period_start y m day startDays = Some (Y, M, K) /\
    Calendar.valid_date Y M K /\ 100 <= Y <= 9999 /\
    getPayPeriodStart tza (Some now) (Some startDays)
    = isoDate (Some (MakeDay Y M K * msPerDay - tza)).
Proof.
  intros y m day Hy Htz Hne Hall.
  destruct (date_of_fields (now + tza)) as [[Hm Hday] _].
  fold y m day in Hm, Hday.
  rewrite Forall_forall in Hall.
  rewrite getPayPeriodStart_unfold. cbn [getDate getMonth getFullYear mbind option_bind].
  unfold LocalTime. fold y m day. cbv zeta.
  rewrite fold_choose_greatest, last_sorted_greatest.
  unfold Calendar.period_start.
  pose proof (greatest_filter_is_choice day startDays) as Hch.
  destruct (Calendar.greatest (List.filter _ startDays)) as [c|] eqn:Ec.
  - destruct Hch as (Hc & Hreach & _). simpl in Hreach. apply Z.leb_le in Hreach.
    specialize (Hall c Hc).
    pose proof (days_in_month_bounds y m) as Hdim.
    exists y, m, (Z.min c (Calendar.days_in_month y m)).
    split; [reflexivity|]. split; [split; [assumption|lia]|]. split; [lia|].
    cbn [JS.add mbind option_bind].
    rewrite getDate_day_zero by lia. cbn [Math_min mbind option_bind].
    now rewrite construct_value by lia.
  - pose proof (greatest_is_greatest startDays) as Hg.
    destruct (Calendar.greatest startDays) as [c|] eqn:Eg; [|contradiction].
    destruct Hg as [Hc _]. specialize (Hall c Hc).
    unfold Calendar.previous_month.
    destruct (Z.eqb_spec m 0) as [Hm0|Hm0].
    + rewrite Hm0. cbn [JS.add JS.sub mbind option_bind].
      change (Z.rem (0 - 1 + 12) 12) with 11.
      pose proof (days_in_month_bounds (y - 1) 11) as Hdim.
      exists (y - 1), 11, (Z.min c (Calendar.days_in_month (y - 1) 11)).
      split; [reflexivity|]. split; [split; lia|]. split; [lia|].
      rewrite (getDate_day_zero tza (y - 1) 11) by lia.
      cbn [Math_min mbind option_bind].
      now rewrite construct_value by lia.
    + assert (Hprev : Z.rem (m - 1 + 12) 12 = m - 1).
      { rewrite Z.rem_mod_nonneg by lia. div_lia. }
      cbn [JS.add JS.sub mbind option_bind]. rewrite Hprev.
      replace (match m with 0 => Some (y - 1) | _ => Some y end) with (Some y)
        by (destruct m; [lia|reflexivity|reflexivity]).
      pose proof (days_in_month_bounds y (m - 1)) as Hdim.
      exists y, (m - 1), (Z.min c (Calendar.days_in_month y (m - 1))).
      split; [reflexivity|]. split; [split; lia|]. split; [lia|].
      rewrite (getDate_day_zero tza y (m - 1)) by lia.
      cbn [Math_min mbind option_bind].
      now rewrite construct_value by lia.
Qed.

End ResolverFacts.

(** *** Pay-period resolver: the text that is returned *)

Section IsoFacts.
Import JSDate.

Lemma length_app (a b : string) :
  String.length (a +:+ b) = (String.length a + String.length b)%nat.
Proof. induction a; simpl; auto. Qed.

Lemma substring_prefix (a b : string) :
  String.substring 0 (String.length a) (a +:+ b) = a.
Proof.
  induction a as [|c a IH]; simpl.
  - now destruct b.
  - now rewrite IH.
Qed.

Lemma app_assoc_string (a b c : string) : (a +:+ b) +:+ c = a +:+ (b +:+ c).
Proof. induction a; simpl; [reflexivity|]. now f_equal. Qed.

(** A property checked on every integer from 0 to [hi]. *)
Lemma checked_up_to (P : Z -> bool) (hi : nat) :
  forallb P (map Z.of_nat (seq 0 (S hi))) = true ->
  forall n, 0 <= n <= Z.of_nat hi -> P n = true.
Proof.
  intros Hall n Hn. rewrite forallb_forall in Hall. apply Hall.
  apply in_map_iff. exists (Z.to_nat n). split; [lia|].
  apply in_seq. lia.
Qed.

Lemma pad2_length n :
  0 <= n <= 99 -> String.length (JS.padStart0 2 (JS.ToString n)) = 2%nat.
Proof.
  intros Hn. apply Nat.eqb_eq.
  apply (checked_up_to
           (fun n => (String.length (JS.padStart0 2 (JS.ToString n)) =? 2)%nat) 99);
    [vm_compute; reflexivity|exact Hn].
Qed.

Lemma pad4_length n :
  0 <= n <= 9999 -> String.length (JS.padStart0 4 (JS.ToString n)) = 4%nat.
Proof.
  intros Hn. apply Nat.eqb_eq.
  assert (Hn' : 0 <= n <= Z.of_nat (Z.to_nat 9999)) by lia.
  apply (checked_up_to
           (fun n => (String.length (JS.padStart0 4 (JS.ToString n)) =? 4)%nat)
           (Z.to_nat 9999));
    [vm_compute; reflexivity|exact Hn'].
Qed.

Lemma iso_length y m d :
  0 <= y <= 9999 -> Calendar.valid_date y m d ->
  String.length (Calendar.iso y m d) = 10%nat.
Proof.
  intros Hy [Hm Hd]. pose proof (days_in_month_bounds y m).
  unfold Calendar.iso. rewrite !length_app.
  rewrite pad4_length, !pad2_length by lia. reflexivity.
Qed.

(** The date part of [toISOString] for an instant of a calendar day. *)
Lemma isoDate_of_day y m d off :
  0 <= y <= 9999 -> Calendar.valid_date y m d ->
  0 <= off < msPerDay ->
  isoDate (Some (MakeDay y m d * msPerDay + off)) = Some (Calendar.iso y m d).
Proof.
  intros Hy Hv Hoff.
  destruct (fields_of_date y m d (MakeDay y m d * msPerDay + off) Hv)
    as (Ey & Em & Ed); [unfold Day, msPerDay in *; div_lia|].
  unfold isoDate, toISOString. cbn [mbind option_bind fmap option_fmap option_map].
  rewrite Ey, Em, Ed.
  replace ((0 <=? y) && (y <=? 9999)) with true by (symmetry; apply andb_true_iff; lia).
  f_equal.
  match goal with
  | |- String.substring 0 10 (?yy +:+ "-" +:+ ?mm +:+ "-" +:+ ?dd +:+ ?rest) = _ =>
      replace (yy +:+ "-" +:+ mm +:+ "-" +:+ dd +:+ rest)
        with (Calendar.iso y m d +:+ rest)
        by (unfold Calendar.iso; now rewrite !app_assoc_string)
  end.
  rewrite <- (iso_length y m d Hy Hv) at 1. apply substring_prefix.
Qed.

End IsoFacts.

(** X1.  In a host whose local time keeps one offset from UTC at all
    dates (no daylight saving and no other change of offset), that
    offset being zero or behind UTC by less than a day,
    [getPayPeriodStart] returns the text of the start of the period
    that contains the local date: the date of the same month whose day is
    the greatest start day not after the day of the month, or, when every
    start day is after it, the date of the month before whose day is the
    greatest start day, the day being clamped to the length of the
    month. *)
Lemma getPayPeriodStart_at_or_west_of_UTC (tza now : Z) (startDays : list Z) :
  let y := JSDate.YearFromTime (now + tza) in
  let m := JSDate.MonthFromTime (now + tza) in
  let day := JSDate.DateFromTime (now + tza) in
  101 <= y <= 9999 ->
  - JSDate.msPerDay < tza <= 0 ->
  startDays <> [] ->
  Forall (fun sd => 1 <= sd <= 31) startDays ->
  exists Y M K,
    Calendar.period_start y m day startDays = Some (Y, M, K) /\
    Calendar.valid_date Y M K /\
    getPayPeriodStart tza (Some now) (Some startDays) = Some (Calendar.iso Y M K).
Proof.
  intros y m day Hy Htz Hne Hall.
  destruct (getPayPeriodStart_instant tza now startDays) as (Y & M & K & Hp & Hv & HY & E);
    try assumption; [lia|].
  exists Y, M, K. split; [assumption|]. split; [assumption|].
  rewrite E. replace (JSDate.MakeDay Y M K * JSDate.msPerDay - tza)
    with (JSDate.MakeDay Y M K * JSDate.msPerDay + (- tza)) by lia.
  apply isoDate_of_day; [lia|assumption|lia].
Qed.

(** X2.  In a host whose local time keeps one offset from UTC at all
    dates (no daylight saving and no other change of offset), that
    offset being ahead of UTC by at most a day, the text returned is that
    of the day before the start of the period: the local midnight that
    the program builds falls on the previous day in UTC, in which
    [toISOString] prints. *)
Lemma getPayPeriodStart_east_of_UTC (tza now : Z) (startDays : list Z) :
  let y := JSDate.YearFromTime (now + tza) in
  let m := JSDate.MonthFromTime (now + tza) in
  let day := JSDate.DateFromTime (now + tza) in
  101 <= y <= 9999 ->
  0 < tza <= JSDate.msPerDay ->
  startDays <> [] ->
  Forall (fun sd => 1 <= sd <= 31) startDays ->
  exists Y M K Y' M' K',
    Calendar.period_start y m day startDays = Some (Y, M, K) /\
    Calendar.valid_date Y M K /\
    Calendar.valid_date Y' M' K' /\
    JSDate.MakeDay Y' M' K' = JSDate.MakeDay Y M K - 1 /\
    getPayPeriodStart tza (Some now) (Some startDays) = Some (Calendar.iso Y' M' K').
Proof.
  intros y m day Hy Htz Hne Hall.
  destruct (getPayPeriodStart_instant tza now startDays) as (Y & M & K & Hp & Hv & HY & E);
    try assumption; [lia|].
  set (D := JSDate.MakeDay Y M K) in *.
  destruct (date_of_fields ((D - 1) * JSDate.msPerDay)) as [Hv' Hd'].
  rewrite Day_of_midnight in Hd'.
  set (Y' := JSDate.YearFromTime ((D - 1) * JSDate.msPerDay)) in *.
  assert (HY' : 0 <= Y' <= 9999).
  { pose proof (YearFromDay_spec (D - 1)) as Hs.
    unfold Y', JSDate.YearFromTime. rewrite Day_of_midnight.
    destruct Hv as [HM HK].
    assert (HD : JSDate.DayFromYear Y <= D < JSDate.DayFromYear (Y + 1)).
    { unfold D. rewrite MakeDay_in_year by assumption.
      rewrite DayFromYear_next, leap_DaysInYear.
      pose proof (leap_cases Y).
      unfold Calendar.days_in_month in HK.
      month_cases M HM; simpl in *; lia. }
    rewrite DayFromYear_next, leap_DaysInYear in HD.
    pose proof (leap_cases Y) as HlY.
    split.
    - destruct (Z_lt_le_dec (JSDate.YearFromDay (D - 1)) 0) as [Hlt|]; [|assumption].
      pose proof (DayFromYear_increasing (JSDate.YearFromDay (D - 1) + 1) Y ltac:(lia)).
      lia.
    - destruct (Z_lt_le_dec 9999 (JSDate.YearFromDay (D - 1))) as [Hgt|]; [|assumption].
      pose proof (DayFromYear_increasing Y (JSDate.YearFromDay (D - 1)) ltac:(lia)).
      lia. }
  exists Y, M, K, Y', (JSDate.MonthFromTime ((D - 1) * JSDate.msPerDay)),
    (JSDate.DateFromTime ((D - 1) * JSDate.msPerDay)).
  split; [assumption|]. split; [assumption|].
  split; [exact Hv'|]. split; [symmetry; exact Hd'|].
  rewrite E.
  replace (D * JSDate.msPerDay - tza)
    with (JSDate.MakeDay Y' (JSDate.MonthFromTime ((D - 1) * JSDate.msPerDay))
                         (JSDate.DateFromTime ((D - 1) * JSDate.msPerDay))
          * JSDate.msPerDay + (JSDate.msPerDay - tza))
    by (rewrite <- Hd'; lia).
  apply isoDate_of_day; [assumption|exact Hv'|lia].
Qed.

Lemma isoDate_defined (t : Z) : exists text, JSDate.isoDate (Some t) = Some text.
Proof. unfold JSDate.isoDate, JSDate.toISOString. simpl. eexists. reflexivity. Qed.

(** With at least one start day, all from 1 to 31, [getPayPeriodStart]
    returns a text: no date that it builds is invalid. *)
Lemma getPayPeriodStart_returns (tza now : Z) (startDays : list Z) :
  101 <= JSDate.YearFromTime (now + tza) <= 9999 ->
  Z.abs tza <= JSDate.msPerDay ->
  startDays <> [] ->
  Forall (fun sd => 1 <= sd <= 31) startDays ->
  exists text, getPayPeriodStart tza (Some now) (Some startDays) = Some text.
Proof.
  intros Hy Htz Hne Hall.
  destruct (getPayPeriodStart_instant tza now startDays Hy Htz Hne Hall)
    as (Y & M & K & _ & _ & _ & E).
  rewrite E. apply isoDate_defined.
Qed.

(** *** The punch-out handler *)

Lemma parse_or_Returned {A : Type} (fallback v : A) (i : item A) :
  parse_or fallback i = Returned v ->
  (i = Missing /\ v = fallback) \/ i = Value v.
Proof. destruct i; simpl; intros E; inversion E; auto. Qed.

Lemma punchOut_click_no_session `{Float64}
    (LocalTZA : Z) (currentUser : string) (now : Z) (w : World)
    (sessions : gmap string PunchSession.t) (today : string) :
  parse_or ∅ (Storage.currentPunch (storage w)) = Returned sessions ->
  JSDate.isoDate (Some now) = Some today ->
  (forall session, sessions !! currentUser = Some session ->
                   PunchSession.date session <> today) ->
  punchOut_click LocalTZA currentUser now w
  = (mkWorld (storage w) (alert "No punch in record found for today." (page w)),
     Returned tt).
Proof.
  intros Hsessions Htoday Hnone. destruct w as [st pg].
  unfold punchOut_click, bind, or_throw, on_storage, Storage.getCurrentPunch,
    Storage.read, ret. rewrite Htoday. cbn [storage page] in *.
  rewrite Hsessions.
  destruct (sessions !! currentUser) as [session|] eqn:Es; [|reflexivity].
  destruct (String.eqb_spec (PunchSession.date session) today) as [E|E];
    [|reflexivity].
  exfalso. exact (Hnone session eq_refl E).
Qed.

Lemma punchOut_click_session `{Float64}
    (LocalTZA : Z) (currentUser : string) (now : Z) (w : World)
    (sessions : gmap string PunchSession.t) (today : string)
    (session : PunchSession.t) (stored : list WorkLog.t)
    (startDays : list Z) (payPeriodStart : string) :
  parse_or ∅ (Storage.currentPunch (storage w)) = Returned sessions ->
  JSDate.isoDate (Some now) = Some today ->
  sessions !! currentUser = Some session ->
  PunchSession.date session = today ->
  parse_or [] (Storage.logs (storage w)) = Returned stored ->
  match parse_or Storage.default_settings (Storage.paySettings (storage w)) with
  | Returned settings => PaySettings.startDays settings
  | Thrown _ => [1; 15]
  end = startDays ->
  getPayPeriodStart LocalTZA (Some now) (Some startDays) = Some payPeriodStart ->
  exists msg,
    punchOut_click LocalTZA currentUser now w
    = (mkWorld
         (Storage.mk (Storage.accounts (storage w))
            (Value (stored ++ [punch_log LocalTZA currentUser today now session
                                         payPeriodStart])%list)
            (Storage.paySettings (storage w))
            (Value (delete currentUser sessions)))
         (punched_out msg (page w)),
       Returned tt).
Proof.
  intros Hsessions Htoday Hs Hdate Hlogs Hsettings Hpps. subst today.
  destruct w as [[accs lgs pset cp] pg]. cbn [storage page] in *.
  cbn [Storage.currentPunch Storage.logs Storage.paySettings Storage.accounts] in *.
  eexists.
  unfold punchOut_click, bind, try_catch, or_throw, on_storage, on_page,
    Storage.getCurrentPunch, Storage.getPaySettings, Storage.addLog,
    Storage.setCurrentPunch, Storage.read, Storage.write, ret, throw.
  rewrite Htoday. cbn [storage page Storage.currentPunch].
  rewrite Hsessions, Hs, String.eqb_refl.
  cbn [storage page Storage.paySettings].
  destruct (parse_or Storage.default_settings pset) as [settings|e];
    cbn [storage page]; rewrite Hsettings, Hpps;
    unfold bind, Storage.read, Storage.write, ret;
    cbn [storage page Storage.logs]; rewrite Hlogs; reflexivity.
Qed.

(** *** The pay-period settings handler *)

Lemma parse_days_entries (value : string) :
  parse_days value = omap valid_day (parsed_entries value).
Proof.
  unfold parse_days, parsed_entries.
  induction (JS.split "," (JS.trim value)) as [|part parts IH]; [reflexivity|].
  simpl. destruct (valid_day _); [f_equal|]; exact IH.
Qed.

Lemma valid_day_Some (n : option Z) (d : Z) :
  valid_day n = Some d <-> n = Some d /\ 1 <= d <= 31.
Proof.
  unfold valid_day. destruct n as [x|]; [|split; [discriminate|intros [E _]; discriminate]].
  destruct (Z.leb_spec 1 x), (Z.leb_spec x 31); simpl; split;
    try (intros E; inversion E; subst; split; [reflexivity|lia]);
    try (intros [E Hr]; inversion E; subst; reflexivity || lia);
    try discriminate.
Qed.

Lemma elem_of_parse_days (value : string) (d : Z) :
  d ∈ parse_days value <-> Some d ∈ parsed_entries value /\ 1 <= d <= 31.
Proof.
  rewrite parse_days_entries, list_elem_of_omap. split.
  - intros (n & Hn & Hv). apply valid_day_Some in Hv as [-> Hr]. auto.
  - intros [Hin Hr]. exists (Some d). split; [assumption|].
    apply valid_day_Some. auto.
Qed.

(** *** The storage layer *)

Section StorageFacts.
Context `{Float64}.

Lemma read_unparseable {A : Type} (field : Storage.t -> item A) (fallback : A)
    (st : Storage.t) :
  field st = Corrupt -> Storage.read field fallback st = (st, Thrown "SyntaxError").
Proof. intros E. unfold Storage.read. now rewrite E. Qed.

Lemma addLog_effect (log : WorkLog.t) (st : Storage.t) (stored : list WorkLog.t) :
  parse_or [] (Storage.logs st) = Returned stored ->
  Storage.addLog log st = (Storage.set_logs (stored ++ [log])%list st, Returned log).
Proof.
  intros E. unfold Storage.addLog, bind, Storage.read, Storage.write, ret.
  now rewrite E.
Qed.

Lemma addLog_unparseable (log : WorkLog.t) (st : Storage.t) :
  Storage.logs st = Corrupt -> Storage.addLog log st = (st, Thrown "SyntaxError").
Proof.
  intros E. unfold Storage.addLog, bind, Storage.read. now rewrite E.
Qed.

Lemma updateLog_in_range (logId : Z) (patch : LogPatch.t) (st : Storage.t)
    (stored : list WorkLog.t) (log : WorkLog.t) :
  parse_or [] (Storage.logs st) = Returned stored ->
  0 <= logId ->
  stored !! Z.to_nat logId = Some log ->
  Storage.updateLog logId patch st
  = (Storage.set_logs (<[Z.to_nat logId := assign_patch log patch]> stored) st,
     Returned tt).
Proof.
  intros E Hlo Hlog.
  unfold Storage.updateLog, bind, Storage.read, Storage.write, ret. rewrite E.
  apply lookup_lt_Some in Hlog as Hlt.
  destruct (Z.leb_spec 0 logId); [|lia].
  destruct (Z.ltb_spec logId (Z.of_nat (length stored))); [|lia].
  simpl. now rewrite Hlog.
Qed.

(** [updateLog] with an index that matches no stored log returns normally
    and changes nothing. *)
Lemma updateLog_out_of_range (logId : Z) (patch : LogPatch.t) (st : Storage.t)
    (stored : list WorkLog.t) :
  parse_or [] (Storage.logs st) = Returned stored ->
  logId < 0 \/ Z.of_nat (length stored) <= logId ->
  Storage.updateLog logId patch st = (st, Returned tt).
Proof.
  intros E Hout.
  unfold Storage.updateLog, bind, Storage.read, Storage.write, ret. rewrite E.
  destruct (Z.leb_spec 0 logId); simpl; [|reflexivity].
  destruct (Z.ltb_spec logId (Z.of_nat (length stored))); [lia|reflexivity].
Qed.

Lemma updateLog_unparseable (logId : Z) (patch : LogPatch.t) (st : Storage.t) :
  Storage.logs st = Corrupt ->
  Storage.updateLog logId patch st = (st, Thrown "SyntaxError").
Proof.
  intros E. unfold Storage.updateLog, bind, Storage.read. now rewrite E.
Qed.

Lemma find_upsert (account : Account.t) (accs : list Account.t) :
  List.find (fun a => String.eqb (Account.username a) (Account.username account))
            (Storage.upsert account accs) = Some account.
Proof.
  induction accs as [|a accs IH]; simpl.
  - now rewrite String.eqb_refl.
  - destruct (String.eqb (Account.username a) (Account.username account)) eqn:E; simpl.
    + now rewrite String.eqb_refl.
    + now rewrite E.
Qed.

Lemma upsertAccount_effect (account : Account.t) (st : Storage.t)
    (stored : list Account.t) :
  parse_or [] (Storage.accounts st) = Returned stored ->
  Storage.upsertAccount account st
  = (Storage.set_accounts (Storage.upsert account stored) st, Returned tt).
Proof.
  intros E. unfold Storage.upsertAccount, bind, Storage.read, Storage.write.
  now rewrite E.
Qed.

Lemma deleteAccount_effect (username : string) (st : Storage.t)
    (accs : list Account.t) (stored : list WorkLog.t) :
  parse_or [] (Storage.accounts st) = Returned accs ->
  parse_or [] (Storage.logs st) = Returned stored ->
  Storage.deleteAccount username st
  = (Storage.set_logs
       (List.filter (fun log => negb (String.eqb (WorkLog.username log) username)) stored)
       (Storage.set_accounts
          (List.filter (fun a => negb (String.eqb (Account.username a) username)) accs)
          st),
     Returned tt).
Proof.
  intros Ea El. unfold Storage.deleteAccount, bind, Storage.read, Storage.write.
  rewrite Ea. cbn [Storage.logs Storage.set_accounts]. now rewrite El.
Qed.

Lemma setCurrentPunch_per_user (username : string) (record : option PunchSession.t)
    (st : Storage.t) (sessions : gmap string PunchSession.t) :
  parse_or ∅ (Storage.currentPunch st) = Returned sessions ->
  Storage.setCurrentPunch (PerUser username record) st
  = (Storage.set_currentPunch
       (match record with
        | Some r => assign_session sessions username r
        | None => delete username sessions
        end) st,
     Returned tt).
Proof.
  intros E. unfold Storage.setCurrentPunch, bind, Storage.read, Storage.write.
  rewrite E. now destruct record.
Qed.

(** Where an assignment of a session stores it, and where it does not. *)
Lemma assign_session_stores (sessions : gmap string PunchSession.t)
    (username : string) (record : PunchSession.t) :
  username <> "__proto__" \/ sessions !! username <> None ->
  assign_session sessions username record = <[username := record]> sessions.
Proof.
  unfold assign_session. intros [Hu|Hs].
  - destruct (String.eqb_spec username "__proto__"); [contradiction|reflexivity].
  - destruct (String.eqb username "__proto__"); [|reflexivity].
    destruct (sessions !! username); [reflexivity|contradiction].
Qed.

Lemma assign_session_prototype (sessions : gmap string PunchSession.t)
    (record : PunchSession.t) :
  sessions !! "__proto__" = None ->
  assign_session sessions "__proto__" record = sessions.
Proof. unfold assign_session. intros E. rewrite E. reflexivity. Qed.

End StorageFacts.

(** *** Plain objects *)

Section ObjectFacts.
Context {V : Type}.
Implicit Types (o : JSObject.t V) (k : string) (v : V).

Lemma get_None o k : JSObject.get o k = None <-> k ∉ map fst o.
Proof.
  induction o as [|[k' v'] o IH]; simpl.
  - split; [intros _; apply not_elem_of_nil|reflexivity].
  - destruct (String.eqb_spec k' k) as [->|Hne].
    + split; [discriminate|]. intros Hn. exfalso. apply Hn. left.
    + rewrite IH, not_elem_of_cons. split; [auto|intros [_ Hn]; exact Hn].
Qed.

Lemma get_Some_elem o k v : JSObject.get o k = Some v -> k ∈ map fst o.
Proof.
  intros E. destruct (decide (k ∈ map fst o)) as [Hin|Hn]; [assumption|].
  apply get_None in Hn. congruence.
Qed.

Lemma elem_get_Some o k : k ∈ map fst o -> exists v, JSObject.get o k = Some v.
Proof.
  intros Hin. destruct (JSObject.get o k) as [v|] eqn:E; [eauto|].
  apply get_None in E. contradiction.
Qed.

Lemma get_set_eq o k v : JSObject.get (JSObject.set o k v) k = Some v.
Proof.
  induction o as [|[k' v'] o IH]; simpl.
  - now rewrite String.eqb_refl.
  - destruct (String.eqb_spec k' k) as [->|Hne]; simpl.
    + now rewrite String.eqb_refl.
    + destruct (String.eqb_spec k' k); [contradiction|assumption].
Qed.

Lemma get_set_ne o k k' v : k <> k' -> JSObject.get (JSObject.set o k v) k' = JSObject.get o k'.
Proof.
  intros Hne. induction o as [|[k0 v0] o IH]; simpl.
  - destruct (String.eqb_spec k k'); [contradiction|reflexivity].
  - destruct (String.eqb_spec k0 k) as [->|Hne0]; simpl.
    + destruct (String.eqb_spec k k'); [contradiction|reflexivity].
    + now rewrite IH.
Qed.

(** Assigning to a property keeps the order of creation; a new property
    comes last. *)
Lemma keys_set o k v :
  map fst (JSObject.set o k v)
  = (map fst o ++ if decide (k ∈ map fst o) then [] else [k])%list.
Proof.
  induction o as [|[k' v'] o IH]; simpl.
  - destruct (decide (k ∈ [])) as [Hin|_]; [inversion Hin|reflexivity].
  - destruct (String.eqb_spec k' k) as [->|Hne]; simpl.
    + destruct (decide (k ∈ k :: map fst o)) as [_|Hn]; [|exfalso; apply Hn; left].
      now rewrite app_nil_r.
    + rewrite IH. f_equal.
      destruct (decide (k ∈ map fst o)) as [Hin|Hn];
        destruct (decide (k ∈ k' :: map fst o)) as [Hin'|Hn']; try reflexivity.
      * exfalso. apply Hn'. now right.
      * apply elem_of_cons in Hin' as [->|Hin']; contradiction.
Qed.

End ObjectFacts.

(** *** Summary generation: the map that the first loop builds *)

Section FirstAppearances.
Import Grouping.

Lemma first_appearances_elem (l : list string) (x : string) :
  x ∈ first_appearances l <-> x ∈ l.
Proof.
  induction l as [|a l IH]; simpl; [reflexivity|].
  rewrite !elem_of_cons, list_elem_of_In, filter_In, <- list_elem_of_In, IH.
  destruct (String.eqb_spec x a) as [->|Hne]; simpl; intuition congruence.
Qed.

Lemma filter_app_list {A : Type} (f : A -> bool) (l1 l2 : list A) :
  List.filter f (l1 ++ l2) = (List.filter f l1 ++ List.filter f l2)%list.
Proof. induction l1 as [|a l1 IH]; simpl; [reflexivity|]. destruct (f a); simpl; now rewrite IH. Qed.

Lemma first_appearances_snoc (l : list string) (x : string) :
  first_appearances (l ++ [x])
  = (first_appearances l ++ if decide (x ∈ l) then [] else [x])%list.
Proof.
  induction l as [|a l IH]; simpl.
  - destruct (decide (x ∈ [])) as [Hin|_]; [inversion Hin|reflexivity].
  - rewrite IH, filter_app_list. f_equal. f_equal.
    destruct (decide (x ∈ l)) as [Hin|Hn];
      destruct (decide (x ∈ a :: l)) as [Hin'|Hn']; simpl; try reflexivity.
    + exfalso. apply Hn'. now right.
    + apply elem_of_cons in Hin' as [->|Hin']; [|contradiction].
      now rewrite String.eqb_refl.
    + destruct (String.eqb_spec x a) as [->|Hne]; [|reflexivity].
      exfalso. apply Hn'. left.
Qed.

Lemma first_appearances_NoDup (l : list string) : NoDup (first_appearances l).
Proof.
  induction l as [|a l IH]; simpl; constructor.
  - rewrite list_elem_of_In, filter_In. intros [_ Hne].
    now rewrite String.eqb_refl in Hne.
  - apply NoDup_ListNoDup, List.NoDup_filter, NoDup_ListNoDup, IH.
Qed.

End FirstAppearances.

Section BuildFacts.
Import Grouping.

Lemma add_log_spec (m : JSObject.t (JSObject.t Z)) (log : WorkLog.t) :
  let p := WorkLog.payPeriodStart log in
  let u := WorkLog.username log in
  let e := default [] (JSObject.get m p) in
  exists e',
    JSObject.get (add_log m log) p = Some e' /\
    map fst (add_log m log)
    = (map fst m ++ if decide (p ∈ map fst m) then [] else [p])%list /\
    (forall p', p' <> p -> JSObject.get (add_log m log) p' = JSObject.get m p') /\
    map fst e' = (map fst e ++ if decide (u ∈ map fst e) then [] else [u])%list /\
    JSObject.get e' u = Some (default 0 (JSObject.get e u) + minutes log) /\
    (forall u', u' <> u -> JSObject.get e' u' = JSObject.get e u').
Proof.
  intros p u e. unfold add_log. fold p u.
  set (m1 := match JSObject.get m p with
             | Some _ => m
             | None => JSObject.set m p []
             end).
  assert (Hm1 : JSObject.get m1 p = Some e /\
                map fst m1 = (map fst m ++ if decide (p ∈ map fst m) then [] else [p])%list /\
                forall p', p' <> p -> JSObject.get m1 p' = JSObject.get m p').
  { unfold m1, e. destruct (JSObject.get m p) as [e0|] eqn:E.
    - split; [exact E|]. split; [|reflexivity].
      apply get_Some_elem in E. destruct (decide (p ∈ map fst m)); [|contradiction].
      now rewrite app_nil_r.
    - split; [apply get_set_eq|]. split; [apply keys_set|].
      intros p' Hne. apply get_set_ne. congruence. }
  destruct Hm1 as (G1 & K1 & O1). rewrite G1. cbn [default].
  set (e1 := match JSObject.get e u with
             | Some 0 => JSObject.set e u 0
             | Some _ => e
             | None => JSObject.set e u 0
             end).
  assert (He1 : default 0 (JSObject.get e1 u) = default 0 (JSObject.get e u) /\
                u ∈ map fst e1 /\
                map fst e1 = (map fst e ++ if decide (u ∈ map fst e) then [] else [u])%list /\
                forall u', u' <> u -> JSObject.get e1 u' = JSObject.get e u').
  { unfold e1. destruct (JSObject.get e u) as [[|q|q]|] eqn:E.
    - apply get_Some_elem in E as Hin. rewrite get_set_eq, keys_set.
      destruct (decide (u ∈ map fst e)); [|contradiction]. rewrite app_nil_r.
      repeat split; try assumption; try reflexivity.
      intros u' Hne. apply get_set_ne. congruence.
    - apply get_Some_elem in E as Hin. rewrite E.
      destruct (decide (u ∈ map fst e)); [|contradiction]. rewrite app_nil_r.
      repeat split; try assumption; reflexivity.
    - apply get_Some_elem in E as Hin. rewrite E.
      destruct (decide (u ∈ map fst e)); [|contradiction]. rewrite app_nil_r.
      repeat split; try assumption; reflexivity.
    - rewrite get_set_eq, keys_set. apply get_None in E.
      destruct (decide (u ∈ map fst e)); [contradiction|].
      repeat split; try reflexivity.
      + rewrite elem_of_app. right. left.
      + intros u' Hne. apply get_set_ne. congruence. }
  destruct He1 as (D1 & I1 & K2 & O2).
  exists (JSObject.set e1 u (default 0 (JSObject.get e1 u) + default 0 (WorkLog.minutesWorked log))).
  split; [apply get_set_eq|].
  split.
  { rewrite keys_set.
    assert (Hp : p ∈ map fst m1) by (apply (get_Some_elem m1 p e), G1).
    destruct (decide (p ∈ map fst m1)); [|contradiction].
    rewrite app_nil_r. exact K1. }
  split.
  { intros p' Hne. rewrite get_set_ne by congruence. now apply O1. }
  split.
  { rewrite keys_set. destruct (decide (u ∈ map fst e1)); [|contradiction].
    now rewrite app_nil_r. }
  split.
  { rewrite get_set_eq, D1. reflexivity. }
  intros u' Hne. rewrite get_set_ne by congruence. now apply O2.
Qed.

Lemma sum_app (l1 l2 : list Z) : sum (l1 ++ l2) = sum l1 + sum l2.
Proof. unfold sum. induction l1 as [|a l1 IH]; simpl; lia. Qed.

Lemma total_app (l1 l2 : list WorkLog.t) (p u : string) :
  total (l1 ++ l2) p u = total l1 p u + total l2 p u.
Proof. unfold total, group. now rewrite filter_app_list, map_app, sum_app. Qed.

Lemma group_total_default (logs : list WorkLog.t) (p u : string) :
  default 0 (group_total logs p u) = total logs p u.
Proof.
  unfold group_total, total. destruct (group logs p u); reflexivity.
Qed.

Lemma group_total_snoc (logs : list WorkLog.t) (log : WorkLog.t) (p u : string) :
  group_total (logs ++ [log]) p u
  = if in_group p u log then Some (total logs p u + minutes log)
    else group_total logs p u.
Proof.
  unfold group_total. rewrite total_app. unfold total at 2, group.
  rewrite filter_app_list. simpl. destruct (in_group p u log); simpl.
  - unfold sum. simpl. rewrite Z.add_0_r.
    destruct (List.filter (in_group p u) logs); reflexivity.
  - rewrite app_nil_r, Z.add_0_r. reflexivity.
Qed.

Lemma users_by_appearance_snoc (logs : list WorkLog.t) (log : WorkLog.t) (p : string) :
  users_by_appearance (logs ++ [log]) p
  = if in_period p log
    then (users_by_appearance logs p
          ++ if decide (WorkLog.username log
                        ∈ map WorkLog.username (List.filter (in_period p) logs))
             then [] else [WorkLog.username log])%list
    else users_by_appearance logs p.
Proof.
  unfold users_by_appearance. rewrite filter_app_list. simpl.
  destruct (in_period p log).
  - rewrite map_app. simpl. apply first_appearances_snoc.
  - now rewrite app_nil_r.
Qed.

Lemma no_period_no_log (logs : list WorkLog.t) (p : string) :
  p ∉ map WorkLog.payPeriodStart logs -> List.filter (in_period p) logs = [].
Proof.
  induction logs as [|log logs IH]; simpl; [reflexivity|].
  rewrite not_elem_of_cons. intros [Hne Hn]. unfold in_period at 1.
  destruct (String.eqb_spec (WorkLog.payPeriodStart log) p); [congruence|auto].
Qed.

Lemma build_summaryMap_snoc (logs : list WorkLog.t) (log : WorkLog.t) :
  build_summaryMap (logs ++ [log]) = add_log (build_summaryMap logs) log.
Proof. unfold build_summaryMap. now rewrite fold_left_app. Qed.

Lemma build_summaryMap_inv (logs : list WorkLog.t) :
  summary_inv logs (build_summaryMap logs).
Proof.
  induction logs as [|log logs IH] using rev_ind.
  - split; [reflexivity|]. split; [intros p e E; discriminate E|reflexivity].
  - destruct IH as (K & U & T). rewrite build_summaryMap_snoc.
    set (m := build_summaryMap logs) in *.
    destruct (add_log_spec m log) as (e' & G & K' & O & Ke & Ge & Oe).
    set (p0 := WorkLog.payPeriodStart log) in *.
    set (u0 := WorkLog.username log) in *.
    set (e := default [] (JSObject.get m p0)) in *.
    assert (He : map fst e = users_by_appearance logs p0).
    { unfold e. destruct (JSObject.get m p0) as [e0|] eqn:E; [now apply U|].
      simpl. apply get_None in E. rewrite K, first_appearances_elem in E.
      unfold users_by_appearance. now rewrite no_period_no_log. }
    assert (Hget : forall u, JSObject.get e u = minutes_at m p0 u).
    { intros u. unfold minutes_at, e. destruct (JSObject.get m p0); reflexivity. }
    split; [|split].
    + rewrite K', K, map_app. simpl. rewrite first_appearances_snoc.
      f_equal. fold p0.
      destruct (decide (p0 ∈ first_appearances (map WorkLog.payPeriodStart logs)))
        as [Hin|Hn];
        destruct (decide (p0 ∈ map WorkLog.payPeriodStart logs)) as [Hin'|Hn'];
        try reflexivity.
      * rewrite first_appearances_elem in Hin. contradiction.
      * rewrite <- first_appearances_elem in Hin'. contradiction.
    + intros p e1 E. rewrite users_by_appearance_snoc.
      change (in_period p log) with (String.eqb p0 p).
      destruct (String.eqb_spec p0 p) as [<-|Hne].
      * rewrite G in E. inversion E; subst e1. rewrite Ke, He. f_equal. fold u0.
        unfold users_by_appearance.
        destruct (decide (u0 ∈ first_appearances
                            (map WorkLog.username (List.filter (in_period p0) logs))))
          as [Hin|Hn];
          destruct (decide (u0 ∈ map WorkLog.username (List.filter (in_period p0) logs)))
          as [Hin'|Hn']; try reflexivity.
        -- rewrite first_appearances_elem in Hin. contradiction.
        -- rewrite <- first_appearances_elem in Hin'. contradiction.
      * rewrite O in E by congruence. now apply U.
    + intros p u. rewrite group_total_snoc.
      change (in_group p u log) with (String.eqb p0 p && String.eqb u0 u).
      destruct (String.eqb_spec p0 p) as [<-|Hne]; simpl.
      * unfold minutes_at at 1. rewrite G. simpl.
        destruct (String.eqb_spec u0 u) as [<-|Hneu].
        -- rewrite Ge, Hget, T, group_total_default. reflexivity.
        -- rewrite Oe by congruence. rewrite Hget. apply T.
      * unfold minutes_at at 1. rewrite O by congruence. apply T.
Qed.

End BuildFacts.

(** *** Summary generation: the rows that the second loop lays out *)

Section RowFacts.
Context `{Float64}.
Import Grouping.

Lemma filter_partition_Permutation (P : string -> bool) (l : list string) :
  (filter (fun k => P k = true) l ++ filter (fun k => P k = false) l) ≡ₚ l.
Proof.
  induction l as [|a l IH]; [reflexivity|].
  destruct (P a) eqn:E.
  - rewrite filter_cons_True by exact E.
    rewrite (filter_cons_False (fun k => P k = false)) by (simpl; congruence).
    simpl. now rewrite IH.
  - rewrite filter_cons_False by (simpl; congruence).
    rewrite (filter_cons_True (fun k => P k = false)) by exact E.
    rewrite <- Permutation_middle. now rewrite IH.
Qed.

Lemma order_keys_Permutation (ks : list string) : JSObject.order_keys ks ≡ₚ ks.
Proof.
  unfold JSObject.order_keys. rewrite merge_sort_Permutation.
  apply filter_partition_Permutation.
Qed.

Lemma order_keys_elem (ks : list string) (k : string) :
  k ∈ JSObject.order_keys ks <-> k ∈ ks.
Proof. now rewrite order_keys_Permutation. Qed.

(** Names of which none is an array index keep their order. *)
Lemma order_keys_no_index (ks : list string) :
  Forall (fun k => JSObject.is_array_index k = false) ks ->
  JSObject.order_keys ks = ks.
Proof.
  intros Hall. unfold JSObject.order_keys.
  assert (E1 : filter (fun k => JSObject.is_array_index k = true) ks = []).
  { induction Hall as [|k ks Hk _ IH]; [reflexivity|].
    simpl in Hk. rewrite filter_cons_False by (simpl; congruence). exact IH. }
  assert (E2 : filter (fun k => JSObject.is_array_index k = false) ks = ks).
  { clear E1. induction Hall as [|k ks Hk _ IH]; [reflexivity|].
    rewrite filter_cons_True by exact Hk. now rewrite IH. }
  rewrite E1, E2. reflexivity.
Qed.

Lemma sort_strings_Permutation (l1 l2 : list string) :
  l1 ≡ₚ l2 -> merge_sort String.le l1 = merge_sort String.le l2.
Proof.
  intros Hp. apply (Sorted_unique String.le).
  - apply Sorted_merge_sort; apply _.
  - apply Sorted_merge_sort; apply _.
  - now rewrite !merge_sort_Permutation.
Qed.

Lemma flat_map_ext_elem {A B : Type} (f g : A -> list B) (l : list A) :
  (forall a, a ∈ l -> f a = g a) -> flat_map f l = flat_map g l.
Proof.
  induction l as [|a l IH]; intros Hfg; [reflexivity|].
  simpl. rewrite Hfg by left. rewrite IH; [reflexivity|].
  intros b Hb. apply Hfg. now right.
Qed.

(** The rows of the program are the rows of the grouping. *)
Lemma summary_rows_build (accounts : list Account.t) (logs : list WorkLog.t) :
  summary_rows accounts (build_summaryMap logs) = rows accounts logs.
Proof.
  destruct (build_summaryMap_inv logs) as (K & U & T).
  unfold summary_rows, rows, periods, JSObject.keys. rewrite K.
  rewrite (sort_strings_Permutation _ _ (order_keys_Permutation _)).
  apply flat_map_ext_elem. intros p Hp. cbv zeta.
  rewrite merge_sort_Permutation, <- K in Hp.
  destruct (elem_get_Some _ _ Hp) as [e E]. rewrite E. cbn [default from_option].
  unfold id, users. rewrite (U p e E).
  apply map_ext. intros u.
  replace (JSObject.get e u) with (minutes_at (build_summaryMap logs) p u)
    by (unfold minutes_at; now rewrite E).
  now rewrite T, group_total_default.
Qed.

Lemma generateSummary_rows (st : Storage.t)
    (logs : list WorkLog.t) (accounts : list Account.t) :
  parse_or [] (Storage.logs st) = Returned logs ->
  parse_or [] (Storage.accounts st) = Returned accounts ->
  generateSummary st = (st, Returned (rows accounts logs)).
Proof.
  intros El Ea.
  unfold generateSummary, bind, Storage.getLogs, Storage.getAccounts, Storage.read, ret.
  rewrite El, Ea. now rewrite summary_rows_build.
Qed.

Lemma periods_elem (logs : list WorkLog.t) (p : string) :
  p ∈ periods logs <-> exists log, log ∈ logs /\ WorkLog.payPeriodStart log = p.
Proof.
  unfold periods. rewrite merge_sort_Permutation, first_appearances_elem.
  rewrite list_elem_of_fmap. split; intros (log & H1 & H2); exists log; auto.
Qed.

Lemma users_elem (logs : list WorkLog.t) (p u : string) :
  u ∈ users logs p <->
  exists log, log ∈ logs /\ WorkLog.payPeriodStart log = p /\ WorkLog.username log = u.
Proof.
  unfold users, users_by_appearance.
  rewrite order_keys_elem, first_appearances_elem, list_elem_of_fmap. split.
  - intros (log & -> & Hin). apply list_elem_of_In, filter_In in Hin as [Hin Hp].
    exists log. split; [now apply list_elem_of_In|]. split; [|reflexivity].
    unfold in_period in Hp. now apply String.eqb_eq in Hp.
  - intros (log & Hin & Hp & Hu). exists log. split; [auto|].
    apply list_elem_of_In, filter_In. split; [now apply list_elem_of_In|].
    unfold in_period. now apply String.eqb_eq.
Qed.

Lemma group_Permutation (l l' : list WorkLog.t) (p u : string) :
  l ≡ₚ l' -> group l p u ≡ₚ group l' p u.
Proof.
  unfold group. induction 1 as [|x l l' _ IH|x y l|l l' l'' _ IH1 _ IH2]; simpl.
  - reflexivity.
  - destruct (in_group p u x); [now rewrite IH|exact IH].
  - destruct (in_group p u x), (in_group p u y); try reflexivity. apply perm_swap.
  - now rewrite IH1.
Qed.

Lemma sum_Permutation (l l' : list Z) : l ≡ₚ l' -> sum l = sum l'.
Proof.
  unfold sum. induction 1 as [|x l l' _ IH|x y l|l l' l'' _ IH1 _ IH2]; simpl; lia.
Qed.

Lemma group_total_Permutation (l l' : list WorkLog.t) (p u : string) :
  l ≡ₚ l' -> group_total l p u = group_total l' p u.
Proof.
  intros Hp. pose proof (group_Permutation l l' p u Hp) as Hg.
  unfold group_total, total.
  rewrite (sum_Permutation _ _ (Permutation_map minutes Hg)).
  destruct (group l p u) as [|a g], (group l' p u) as [|a' g']; try reflexivity.
  - apply Permutation_nil_l in Hg. discriminate Hg.
  - apply Permutation_nil_r in Hg. discriminate Hg.
Qed.


Lemma group_total_Some (logs : list WorkLog.t) (p u : string) (t : Z) :
  group_total logs p u = Some t <->
  t = total logs p u /\
  exists log, log ∈ logs /\ WorkLog.payPeriodStart log = p /\ WorkLog.username log = u.
Proof.
  unfold group_total. split.
  - destruct (group logs p u) as [|log g] eqn:E; [discriminate|].
    intros [= <-]. split; [reflexivity|].
    assert (Hin : In log (group logs p u)) by (rewrite E; left; reflexivity).
    apply filter_In in Hin as [Hin Hg]. unfold in_group, in_period in Hg.
    apply andb_prop in Hg as [Hp Hu].
    apply String.eqb_eq in Hp, Hu.
    exists log. split; [now apply list_elem_of_In|auto].
  - intros (-> & log & Hin & Hp & Hu).
    assert (Hg : In log (group logs p u)).
    { apply filter_In. split; [now apply list_elem_of_In|].
      unfold in_group, in_period. apply andb_true_intro.
      split; now apply String.eqb_eq. }
    destruct (group logs p u); [destruct Hg|reflexivity].
Qed.

(** The rows are those of the groups that have a total. *)
Lemma rows_elem (accounts : list Account.t) (logs : list WorkLog.t) (row : SummaryRow.t) :
  row ∈ rows accounts logs <->
  exists p u t, group_total logs p u = Some t /\ row = summary_row accounts p u t.
Proof.
  unfold rows. rewrite list_elem_of_In, in_flat_map. split.
  - intros (p & Hp & Hrow). apply in_map_iff in Hrow as (u & <- & Hu).
    exists p, u, (total logs p u). split; [|reflexivity].
    apply group_total_Some. split; [reflexivity|].
    now apply users_elem, list_elem_of_In.
  - intros (p & u & t & Ht & ->). apply group_total_Some in Ht as (-> & log & Hin & Hp & Hu).
    exists p. split.
    + apply list_elem_of_In, periods_elem. eauto.
    + apply in_map_iff. exists u. split; [reflexivity|].
      apply list_elem_of_In, users_elem. eauto.
Qed.

Lemma NoDup_flat_map {A B : Type} (f : A -> list B) (l : list A) :
  NoDup l ->
  (forall a, a ∈ l -> NoDup (f a)) ->
  (forall a b x, a ∈ l -> b ∈ l -> a <> b -> x ∈ f a -> x ∉ f b) ->
  NoDup (flat_map f l).
Proof.
  induction 1 as [|a l Ha Hl IH]; intros Hin Hdis; simpl; [constructor|].
  apply NoDup_app. split; [apply Hin; left|]. split.
  - intros x Hx Hx'. apply list_elem_of_In, in_flat_map in Hx' as (b & Hb & Hxb).
    apply list_elem_of_In in Hb, Hxb.
    apply (Hdis a b x); [left|now right| |assumption|assumption].
    intros ->. contradiction.
  - apply IH.
    + intros b Hb. apply Hin. now right.
    + intros b c x Hb Hc. apply Hdis; now right.
Qed.

(** No row comes twice: a pay period and user have one row. *)
Lemma rows_NoDup (accounts : list Account.t) (logs : list WorkLog.t) :
  NoDup (rows accounts logs).
Proof.
  unfold rows. apply NoDup_flat_map.
  - unfold periods. rewrite merge_sort_Permutation. apply first_appearances_NoDup.
  - intros p _. apply (NoDup_fmap_2_strong _).
    + intros u u' _ _ E. now apply (f_equal SummaryRow.user) in E.
    + unfold users. rewrite order_keys_Permutation.
      apply first_appearances_NoDup.
  - intros p p' row _ _ Hne Hrow Hrow'.
    apply list_elem_of_In, in_map_iff in Hrow as (u & <- & _).
    apply list_elem_of_In, in_map_iff in Hrow' as (u' & E & _).
    apply (f_equal SummaryRow.period) in E. simpl in E. congruence.
Qed.

End RowFacts.

(** ** Part III: the statements of the specification *)



(** C6.  For every date and every two lists of start days with the same
    set of values (they differ only in the order or the repetition of
    their elements), [getPayPeriodStart] returns the same period start. *)
Theorem getPayPeriodStart_order_and_duplicates
    (LocalTZA : Z) (dateObj : option Z) (startDays1 startDays2 : list Z) :
  (forall d, d ∈ startDays1 <-> d ∈ startDays2) ->
  getPayPeriodStart LocalTZA dateObj (Some startDays1)
  = getPayPeriodStart LocalTZA dateObj (Some startDays2).
Proof.
  intros Hset. rewrite !getPayPeriodStart_unfold. cbv zeta.
  rewrite (fold_choose_same_set _ startDays1 startDays2 Hset).
  now rewrite (last_sorted_same_set startDays1 startDays2 Hset).
Qed.

Lemma getPayPeriodStart_order_and_duplicates_witness :
  getPayPeriodStart 0 (Some 1704844800000) (Some [15; 1; 15; 1])
  = getPayPeriodStart 0 (Some 1704844800000) (Some [1; 15]).
Proof.
  apply (getPayPeriodStart_order_and_duplicates 0 (Some 1704844800000) [15; 1; 15; 1] [1; 15]).
  intros d. rewrite !elem_of_cons. rewrite elem_of_nil. tauto.
Defined.

(** C9.  For every well-formed HH:MM text [s] (two zero-padded pairs of
    digits, the hour from 00 to 23 and the minute from 00 to 59),
    [minutesToTime(timeToMinutes(s))] is [s]. *)
Theorem minutesToTime_timeToMinutes (s : string) :
  well_formed_HHMM s = true ->
  exists m, timeToMinutes s = Some m /\ minutesToTime m = s.
Proof.
  intros Hs. exists (minute_of_day s). split.
  - apply timeToMinutes_well_formed, Hs.
  - apply minutesToTime_minute_of_day, Hs.
Qed.

Lemma minutesToTime_timeToMinutes_witness :
  exists m, timeToMinutes "23:59" = Some m /\ minutesToTime m = "23:59".
Proof. apply (minutesToTime_timeToMinutes "23:59"). reflexivity. Defined.

(** C10, as the program has it.  For every integer [m] from 0 to
    2^53 - 1, the safe integers, on which the arithmetic of doubles is
    exact, [timeToMinutes(minutesToTime(m))] is [m]; [minutesToTime] does
    not reduce modulo 24 hours, so from 1440 on the hour field is 24 or
    more (1500 gives "25:00"); and [minutesToTime] is injective on these
    integers. *)
Theorem timeToMinutes_minutesToTime_inverse (m n : Z) :
  0 <= m <= 9007199254740991 -> 0 <= n <= 9007199254740991 ->
  timeToMinutes (minutesToTime m) = Some m /\
  (1440 <= m ->
   exists hh mm, JS.split ":" (minutesToTime m) = [hh; mm] /\
                 JS.Number hh = Some (m / 60) /\ 24 <= m / 60) /\
  minutesToTime 1500 = "25:00" /\
  (minutesToTime m = minutesToTime n -> m = n).
Proof.
  intros [Hm _] [Hn _]. split; [now apply timeToMinutes_minutesToTime|].
  split; [|split; [reflexivity|]].
  - intros Hday.
    assert (Hq : 0 <= m / 60) by (apply Z.div_pos; lia).
    assert (Hr : 0 <= Z.rem m 60) by (apply Z.rem_nonneg; lia).
    exists (JS.padStart0 2 (JS.ToString (m / 60))),
           (JS.padStart0 2 (JS.ToString (Z.rem m 60))).
    split; [|split].
    + unfold minutesToTime. change (":" +:+ ?t) with (String ":" t).
      apply split_two_fields; apply padStart0_digits, ToString_digits; assumption.
    + now apply Number_padStart0_ToString.
    + apply Z.div_le_lower_bound; lia.
  - intros Heq.
    pose proof (timeToMinutes_minutesToTime m Hm) as E1.
    pose proof (timeToMinutes_minutesToTime n Hn) as E2.
    rewrite Heq in E1. congruence.
Qed.

Lemma timeToMinutes_minutesToTime_inverse_witness :
  timeToMinutes (minutesToTime 1500) = Some 1500 /\
  (1440 <= 1500 ->
   exists hh mm, JS.split ":" (minutesToTime 1500) = [hh; mm] /\
                 JS.Number hh = Some (1500 / 60) /\ 24 <= 1500 / 60) /\
  minutesToTime 1500 = "25:00" /\
  (minutesToTime 1500 = minutesToTime 60 -> 1500 = 60).
Proof. apply (timeToMinutes_minutesToTime_inverse 1500 60); lia. Defined.

(** On the minutes of a week the helpers written on doubles are the
    helpers above: a check by computation of every integer up to 10000. *)
Lemma helpers_in_doubles (m : Z) :
  0 <= m <= 10000 ->
  InDoubles.minutesToTime (Double.of_Z m) = Some (minutesToTime m) /\
  Double.to_Z (InDoubles.timeToMinutes (minutesToTime m)) = Some m.
Proof.
  intros Hm.
  pose proof (checked_up_to
    (fun n => bool_decide (InDoubles.minutesToTime (Double.of_Z n) = Some (minutesToTime n))
              && bool_decide (Double.to_Z (InDoubles.timeToMinutes (minutesToTime n)) = Some n))
    (Z.to_nat 10000)) as Hall.
  specialize (Hall ltac:(vm_compute; reflexivity) m ltac:(lia)).
  apply andb_true_iff in Hall as [H1 H2].
  apply bool_decide_eq_true in H1. apply bool_decide_eq_true in H2. split; assumption.
Qed.

(** C10 as the specification states it, for every integer [m >= 0],
    fails beyond the safe integers.  The integer 49082772571020184 is a
    double; [minutesToTime] gives it the text "818046209517003:04", the
    quotient by 60 being rounded to 818046209517003.125 before
    [Math.floor]; and [timeToMinutes] of that text is
    49082772571020176, because 818046209517003 * 60 and its sum with 4
    are both rounded to the nearest double. *)
Lemma minutesToTime_beyond_safe_integers :
  9007199254740991 < 49082772571020184 /\
  Double.to_Z (Double.of_Z 49082772571020184) = Some 49082772571020184 /\
  InDoubles.minutesToTime (Double.of_Z 49082772571020184) = Some "818046209517003:04" /\
  Double.to_Z (InDoubles.timeToMinutes "818046209517003:04") = Some 49082772571020176 /\
  InDoubles.timeToMinutes "818046209517003:04" <> Double.of_Z 49082772571020184.
Proof.
  split; [reflexivity|]. split; [vm_compute; reflexivity|].
  split; [vm_compute; reflexivity|]. split; [vm_compute; reflexivity|].
  vm_compute. discriminate.
Qed.

(** What a punch-out of a user at an instant does, with the storage
    readable.
    If the stored sessions hold no session of the user dated today, the
    handler raises the alert "No punch in record found for today.", creates
    no log and leaves the storage as it was.  Otherwise it appends exactly
    one log to the stored logs, with the user's name, today's date, the
    punch-in time of the session, the current time as punch-out time,
    [minutesWorked = computeWorkedMinutes(punchIn, punchOut)],
    [payPeriodStart = getPayPeriodStart(now, startDays of the current
    settings)] and no deduction (read as 0), and removes the user's
    session; accounts and settings are untouched. *)
Theorem punchOut_click_spec `{Float64}
    (LocalTZA : Z) (currentUser : string) (now : Z) (w : World)
    (sessions : gmap string PunchSession.t) (today : string) :
  parse_or ∅ (Storage.currentPunch (storage w)) = Returned sessions ->
  JSDate.isoDate (Some now) = Some today ->
  ((forall session, sessions !! currentUser = Some session ->
                    PunchSession.date session <> today) ->
   punchOut_click LocalTZA currentUser now w
   = (mkWorld (storage w) (alert "No punch in record found for today." (page w)),
      Returned tt)) /\
  (forall session stored settings,
     sessions !! currentUser = Some session ->
     PunchSession.date session = today ->
     parse_or [] (Storage.logs (storage w)) = Returned stored ->
     parse_or Storage.default_settings (Storage.paySettings (storage w)) = Returned settings ->
     PaySettings.startDays settings <> [] ->
     Forall (fun sd => 1 <= sd <= 31) (PaySettings.startDays settings) ->
     101 <= JSDate.YearFromTime (now + LocalTZA) <= 9999 ->
     Z.abs LocalTZA <= JSDate.msPerDay ->
     exists log w',
       punchOut_click LocalTZA currentUser now w = (w', Returned tt) /\
       Storage.logs (storage w') = Value (stored ++ [log])%list /\
       WorkLog.username log = currentUser /\
       WorkLog.date log = today /\
       WorkLog.punchIn log = PunchSession.punchIn session /\
       WorkLog.punchOut log = JSDate.toTimeString_HHMM LocalTZA (Some now) /\
       WorkLog.minutesWorked log
       = computeWorkedMinutes (WorkLog.punchIn log) (WorkLog.punchOut log) None /\
       Some (WorkLog.payPeriodStart log)
       = getPayPeriodStart LocalTZA (Some now) (Some (PaySettings.startDays settings)) /\
       deduction_of log = 0 /\
       Storage.currentPunch (storage w') = Value (delete currentUser sessions) /\
       delete currentUser sessions !! currentUser = None /\
       Storage.accounts (storage w') = Storage.accounts (storage w) /\
       Storage.paySettings (storage w') = Storage.paySettings (storage w)).
Proof.
  intros Hsessions Htoday. split.
  - now apply punchOut_click_no_session with (sessions := sessions).
  - intros session stored settings Hs Hdate Hlogs Hsettings Hne Hall Hy Htz.
    destruct (getPayPeriodStart_returns LocalTZA now _ Hy Htz Hne Hall) as [pps Hpps].
    destruct (punchOut_click_session LocalTZA currentUser now w sessions today
                session stored (PaySettings.startDays settings) pps)
      as [msg E]; try assumption; [now rewrite Hsettings|].
    exists (punch_log LocalTZA currentUser today now session pps). eexists.
    split; [exact E|]. cbn [storage Storage.logs Storage.currentPunch
                            Storage.accounts Storage.paySettings].
    repeat (split; [reflexivity|]).
    split; [symmetry; exact Hpps|].
    repeat (split; [reflexivity|]).
    split; [apply lookup_delete_eq|]. split; reflexivity.
Qed.

Lemma punchOut_click_spec_witness :
  punchOut_click (H := exact_arithmetic) 0 "bob" Sample.evening Sample.world
  = (mkWorld Sample.store (alert "No punch in record found for today." Sample.blank_page),
     Returned tt) /\
  exists log w',
    punchOut_click (H := exact_arithmetic) 0 "alice" Sample.evening Sample.world
    = (w', Returned tt) /\
    Storage.logs (storage w') = Value ([] ++ [log])%list /\
    WorkLog.username log = "alice" /\
    WorkLog.date log = "2024-01-10" /\
    WorkLog.punchIn log = "09:00" /\
    WorkLog.punchOut log = JSDate.toTimeString_HHMM 0 (Some Sample.evening) /\
    WorkLog.minutesWorked log
    = computeWorkedMinutes (WorkLog.punchIn log) (WorkLog.punchOut log) None /\
    Some (WorkLog.payPeriodStart log)
    = getPayPeriodStart 0 (Some Sample.evening) (Some [1; 15]) /\
    deduction_of log = 0 /\
    Storage.currentPunch (storage w') = Value (delete "alice" {[ "alice" := Sample.alice_session ]}) /\
    delete "alice" ({[ "alice" := Sample.alice_session ]} : gmap string PunchSession.t) !! "alice" = None /\
    Storage.accounts (storage w') = Missing /\
    Storage.paySettings (storage w') = Value (PaySettings.mk [1; 15]).
Proof.
  split.
  - apply (proj1 (punchOut_click_spec (H := exact_arithmetic) 0 "bob" Sample.evening
                    Sample.world {[ "alice" := Sample.alice_session ]} "2024-01-10"
                    eq_refl eq_refl)).
    intros session Hs. vm_compute in Hs. discriminate Hs.
  - apply (proj2 (punchOut_click_spec (H := exact_arithmetic) 0 "alice" Sample.evening
                    Sample.world {[ "alice" := Sample.alice_session ]} "2024-01-10"
                    eq_refl eq_refl)
             Sample.alice_session [] (PaySettings.mk [1; 15])).
    + reflexivity.
    + reflexivity.
    + reflexivity.
    + reflexivity.
    + discriminate.
    + repeat constructor; lia.
    + vm_compute. split; discriminate.
    + vm_compute. discriminate.
Defined.

(** C3 fails on the program: the log that a punch-out files is dated with
    the UTC date of the instant ([toISOString]), but its pay period is
    taken from [getPayPeriodStart(now, ...)], which reads the local date
    of the instant and prints the start that it builds in UTC.
    In a host five hours behind UTC, a user who punches in at 19:30 and
    out at 20:00 on 14 January 2024 (00:30 and 01:00 of 15 January in
    UTC) gets a log dated 2024-01-15 with the pay period 2024-01-01,
    although with the start days 1 and 15 the period of 2024-01-15 starts
    on 2024-01-15, which is also what [getPayPeriodStart] returns in that
    host for the date of the log.
    In a host one hour ahead of UTC, the punch-out of 2024-01-10 at 18:30
    files a log dated 2024-01-10 with the pay period 2023-12-31, although
    the period of 2024-01-10 starts on 2024-01-01. *)
Theorem punchOut_click_period_of_another_date :
  let behind := -18000000 in
  let ahead := 3600000 in
  (exists w1 w2,
     punchIn_click (H := exact_arithmetic) behind "bob" 1705278600000 Sample.world
     = (w1, Returned tt) /\
     punchOut_click behind "bob" 1705280400000 w1 = (w2, Returned tt) /\
     Storage.logs (storage w2)
     = Value [WorkLog.mk "bob" "2024-01-15" "19:30" "20:00" (Some 30) "2024-01-01" None]) /\
  getPayPeriodStart behind (JSDate.construct behind (Some 2024) (Some 0) (Some 15))
                    (Some [1; 15])
  = Some "2024-01-15" /\
  Calendar.period_start 2024 0 15 [1; 15] = Some (2024, 0, 15) /\
  Calendar.iso 2024 0 15 = "2024-01-15" /\
  (exists w2,
     punchOut_click (H := exact_arithmetic) ahead "alice" Sample.evening Sample.world
     = (w2, Returned tt) /\
     Storage.logs (storage w2)
     = Value [WorkLog.mk "alice" "2024-01-10" "09:00" "18:30" (Some 570) "2023-12-31" None]) /\
  Calendar.period_start 2024 0 10 [1; 15] = Some (2024, 0, 1) /\
  Calendar.iso 2024 0 1 = "2024-01-01".
Proof.
  intros behind ahead. split.
  { eexists _, _. split; [vm_compute; reflexivity|].
    split; [vm_compute; reflexivity|reflexivity]. }
  split; [vm_compute; reflexivity|]. split; [reflexivity|].
  split; [vm_compute; reflexivity|]. split.
  { eexists. split; [vm_compute; reflexivity|reflexivity]. }
  split; [reflexivity|vm_compute; reflexivity].
Qed.

(** C7, as the program has it.  When no entry of the field parses to an
    integer from 1 to 31, the save is rejected with the message "Please
    enter valid day numbers separated by commas." and the storage is left
    as it was.  As soon as one entry does, the handler saves exactly the
    entries that parse into 1..31, in ascending order, and reports
    "Pay period settings saved."; the entries that are not numeric or are
    out of range are dropped. *)
Theorem savePayPeriod_click_spec `{Float64} (value : string) (w : World) :
  ((forall d, Some d ∈ parsed_entries value -> ~ 1 <= d <= 31) ->
   savePayPeriod_click value w
   = (mkWorld (storage w)
        (set_payPeriodMessage "Please enter valid day numbers separated by commas."
                              (page w)),
      Returned tt)) /\
  ((exists d, Some d ∈ parsed_entries value /\ 1 <= d <= 31) ->
   exists saved,
     savePayPeriod_click value w
     = (mkWorld (Storage.set_paySettings (PaySettings.mk saved) (storage w))
          (set_payPeriodMessage "Pay period settings saved." (page w)),
        Returned tt) /\
     StronglySorted Z.le saved /\
     saved ≡ₚ omap valid_day (parsed_entries value) /\
     (forall d, d ∈ saved <-> Some d ∈ parsed_entries value /\ 1 <= d <= 31)).
Proof.
  split.
  - intros Hnone. unfold savePayPeriod_click.
    destruct (parse_days value) as [|d ds] eqn:E; [reflexivity|].
    exfalso. apply (Hnone d).
    + apply (elem_of_parse_days value d). rewrite E. set_solver.
    + apply (elem_of_parse_days value d). rewrite E. set_solver.
  - intros (d & Hin & Hr).
    exists (merge_sort Z.le (parse_days value)).
    assert (Hd : d ∈ parse_days value) by (apply elem_of_parse_days; auto).
    split; [|split; [|split]].
    + unfold savePayPeriod_click.
      destruct (parse_days value) as [|x xs] eqn:E; [inversion Hd|].
      reflexivity.
    + apply merge_sort_Z_sorted.
    + rewrite merge_sort_Permutation. now rewrite parse_days_entries.
    + intros x. rewrite merge_sort_Z_elem. apply elem_of_parse_days.
Qed.

Lemma savePayPeriod_click_spec_witness :
  savePayPeriod_click (H := exact_arithmetic) "abc, 40,,0" Sample.world
  = (mkWorld Sample.store
       (set_payPeriodMessage "Please enter valid day numbers separated by commas."
                             Sample.blank_page),
     Returned tt) /\
  exists saved,
    savePayPeriod_click (H := exact_arithmetic) "15, 1 ,x" Sample.world
    = (mkWorld (Storage.set_paySettings (PaySettings.mk saved) Sample.store)
         (set_payPeriodMessage "Pay period settings saved." Sample.blank_page),
       Returned tt) /\
    StronglySorted Z.le saved /\
    saved ≡ₚ omap valid_day (parsed_entries "15, 1 ,x") /\
    (forall d, d ∈ saved <-> Some d ∈ parsed_entries "15, 1 ,x" /\ 1 <= d <= 31).
Proof.
  split.
  - apply (proj1 (savePayPeriod_click_spec (H := exact_arithmetic) "abc, 40,,0" Sample.world)).
    intros d Hd. vm_compute in Hd.
    repeat (apply elem_of_cons in Hd as [Hd|Hd]; [inversion Hd; lia|]).
    inversion Hd.
  - apply (proj2 (savePayPeriod_click_spec (H := exact_arithmetic) "15, 1 ,x" Sample.world)).
    exists 15. split; [|lia]. vm_compute. set_solver.
Defined.

(** C7 as the specification states it fails: an input with an entry that
    is not numeric is not rejected; the entries that are valid are saved
    over the stored settings. *)
Lemma savePayPeriod_click_saves_valid_subset :
  JS.parseInt (JS.trim "abc") = None /\
  savePayPeriod_click (H := exact_arithmetic) "1,abc,15,99"
    (mkWorld (Storage.set_paySettings (PaySettings.mk [5; 20]) Sample.store)
             Sample.blank_page)
  = (mkWorld (Storage.set_paySettings (PaySettings.mk [1; 15]) Sample.store)
       (set_payPeriodMessage "Pay period settings saved." Sample.blank_page),
     Returned tt).
Proof. split; reflexivity. Qed.

(** C8, as the program has it.  On the localStorage backend every storage
    operation performs its effect, or throws to its caller when the text
    under the key it reads cannot be parsed (an absent key reads as the
    documented default), with two operations that can return normally
    without an effect and two callers that mask a failure.  [updateLog]
    with an index that matches no stored log changes nothing; so does
    [setCurrentPunch] with the user name [__proto__] and a record, on a
    map without an own property of that name.  A failure of
    [getPaySettings] during punch-out is caught, after which the
    punch-out proceeds with the start days [1, 15]; a failure of
    [getPaySettings] in [loadAdminView] is caught as well, after which
    the pay-period field shows [1,15]. *)
Theorem storage_effect_or_error `{Float64} (st : Storage.t) :
  Storage.getAccounts st = (st, parse_or [] (Storage.accounts st)) /\
  Storage.getLogs st = (st, parse_or [] (Storage.logs st)) /\
  Storage.getPaySettings st
  = (st, parse_or Storage.default_settings (Storage.paySettings st)) /\
  Storage.getCurrentPunch st = (st, parse_or ∅ (Storage.currentPunch st)) /\
  (forall settings, exists st',
      Storage.setPaySettings settings st = (st', Returned tt) /\
      Storage.getPaySettings st' = (st', Returned settings)) /\
  (forall accs, exists st',
      Storage.setAccounts accs st = (st', Returned tt) /\
      Storage.getAccounts st' = (st', Returned accs)) /\
  (forall sessions, exists st',
      Storage.setCurrentPunch (WholeMap sessions) st = (st', Returned tt) /\
      Storage.getCurrentPunch st' = (st', Returned sessions)) /\
  (forall log,
      match parse_or [] (Storage.logs st) with
      | Returned stored => exists st',
          Storage.addLog log st = (st', Returned log) /\
          Storage.getLogs st' = (st', Returned (stored ++ [log])%list)
      | Thrown e => Storage.addLog log st = (st, Thrown e)
      end) /\
  (forall account,
      match parse_or [] (Storage.accounts st) with
      | Returned stored => exists st' accs,
          Storage.upsertAccount account st = (st', Returned tt) /\
          Storage.getAccounts st' = (st', Returned accs) /\
          List.find (fun a => String.eqb (Account.username a) (Account.username account))
                    accs = Some account
      | Thrown e => Storage.upsertAccount account st = (st, Thrown e)
      end) /\
  (forall username,
      match parse_or [] (Storage.accounts st), parse_or [] (Storage.logs st) with
      | Returned accs, Returned stored => exists st',
          Storage.deleteAccount username st = (st', Returned tt) /\
          Storage.getAccounts st'
          = (st', Returned (List.filter
                              (fun a => negb (String.eqb (Account.username a) username))
                              accs)) /\
          Storage.getLogs st'
          = (st', Returned (List.filter
                              (fun log => negb (String.eqb (WorkLog.username log) username))
                              stored))
      | Returned accs, Thrown e => exists st',
          Storage.deleteAccount username st = (st', Thrown e)
      | Thrown e, _ => Storage.deleteAccount username st = (st, Thrown e)
      end) /\
  (forall username record,
      match parse_or ∅ (Storage.currentPunch st) with
      | Returned sessions => exists st',
          Storage.setCurrentPunch (PerUser username record) st = (st', Returned tt) /\
          Storage.getCurrentPunch st'
          = (st', Returned (match record with
                            | Some r =>
                                match String.eqb username "__proto__",
                                      sessions !! username with
                                | true, None => sessions
                                | _, _ => <[username := r]> sessions
                                end
                            | None => delete username sessions
                            end))
      | Thrown e => Storage.setCurrentPunch (PerUser username record) st = (st, Thrown e)
      end) /\
  (forall logId updatedFields,
      match parse_or [] (Storage.logs st) with
      | Returned stored =>
          match (if decide (0 <= logId) then stored !! Z.to_nat logId else None) with
          | Some log => exists st',
              Storage.updateLog logId updatedFields st = (st', Returned tt) /\
              Storage.getLogs st'
              = (st', Returned (<[Z.to_nat logId := assign_patch log updatedFields]> stored))
          | None => Storage.updateLog logId updatedFields st = (st, Returned tt)
          end
      | Thrown e => Storage.updateLog logId updatedFields st = (st, Thrown e)
      end) /\
  (forall LocalTZA currentUser now pg sessions today session stored payPeriodStart,
      Storage.paySettings st = Corrupt ->
      parse_or ∅ (Storage.currentPunch st) = Returned sessions ->
      JSDate.isoDate (Some now) = Some today ->
      sessions !! currentUser = Some session ->
      PunchSession.date session = today ->
      parse_or [] (Storage.logs st) = Returned stored ->
      getPayPeriodStart LocalTZA (Some now) (Some [1; 15]) = Some payPeriodStart ->
      Storage.getPaySettings st = (st, Thrown "SyntaxError") /\
      exists msg,
        punchOut_click LocalTZA currentUser now (mkWorld st pg)
        = (mkWorld
             (Storage.mk (Storage.accounts st)
                (Value (stored ++ [punch_log LocalTZA currentUser today now session
                                             payPeriodStart])%list)
                (Storage.paySettings st)
                (Value (delete currentUser sessions)))
             (punched_out msg pg),
           Returned tt)) /\
  (Storage.paySettings st = Corrupt ->
   Storage.getPaySettings st = (st, Thrown "SyntaxError") /\
   loadAdminView_days st = (st, Returned "1,15")).
Proof.
  repeat match goal with |- _ /\ _ => split end; try reflexivity.
  - intros settings. eexists. split; reflexivity.
  - intros accs. eexists. split; reflexivity.
  - intros sessions. eexists. split; reflexivity.
  - intros log. destruct (parse_or [] (Storage.logs st)) as [stored|e] eqn:E.
    + exists (Storage.set_logs (stored ++ [log])%list st).
      split; [apply addLog_effect; exact E|reflexivity].
    + destruct (Storage.logs st) eqn:El; try discriminate E.
      inversion E; subst. now apply addLog_unparseable.
  - intros account.
    destruct (parse_or [] (Storage.accounts st)) as [stored|e] eqn:E.
    + exists (Storage.set_accounts (Storage.upsert account stored) st),
        (Storage.upsert account stored).
      split; [apply upsertAccount_effect; exact E|].
      split; [reflexivity|apply find_upsert].
    + destruct (Storage.accounts st) eqn:Ea; try discriminate E.
      inversion E; subst.
      unfold Storage.upsertAccount, bind, Storage.read. now rewrite Ea.
  - intros username.
    destruct (parse_or [] (Storage.accounts st)) as [accs|e] eqn:Ea.
    + destruct (parse_or [] (Storage.logs st)) as [stored|e] eqn:El.
      * eexists. split; [apply deleteAccount_effect; [exact Ea|exact El]|].
        split; reflexivity.
      * eexists. unfold Storage.deleteAccount, bind, Storage.read, Storage.write.
        rewrite Ea. cbn [Storage.logs Storage.set_accounts]. now rewrite El.
    + unfold Storage.deleteAccount, bind, Storage.read. now rewrite Ea.
  - intros username record.
    destruct (parse_or ∅ (Storage.currentPunch st)) as [sessions|e] eqn:E.
    + eexists. split; [apply setCurrentPunch_per_user; exact E|reflexivity].
    + unfold Storage.setCurrentPunch, bind, Storage.read. now rewrite E.
  - intros logId updatedFields.
    destruct (parse_or [] (Storage.logs st)) as [stored|e] eqn:E.
    + destruct (decide (0 <= logId)) as [Hlo|Hlo].
      * destruct (stored !! Z.to_nat logId) as [log|] eqn:El.
        -- eexists. split; [apply updateLog_in_range; [exact E|exact Hlo|exact El]|].
           reflexivity.
        -- apply updateLog_out_of_range with (stored := stored); [assumption|].
           apply lookup_ge_None in El. lia.
      * apply updateLog_out_of_range with (stored := stored); [assumption|lia].
    + destruct (Storage.logs st) eqn:El; try discriminate E.
      inversion E; subst. now apply updateLog_unparseable.
  - intros LocalTZA currentUser now pg sessions today session stored payPeriodStart
      Hbad Hsessions Htoday Hs Hdate Hlogs Hpps.
    split.
    + unfold Storage.getPaySettings, Storage.read. now rewrite Hbad.
    + destruct (punchOut_click_session LocalTZA currentUser now (mkWorld st pg)
                  sessions today session stored [1; 15] payPeriodStart)
        as [msg E]; try assumption.
      * cbn [storage]. now rewrite Hbad.
      * exists msg. exact E.
  - intros Hbad.
    unfold loadAdminView_days, try_catch, bind, Storage.getPaySettings, Storage.read.
    rewrite Hbad. split; reflexivity.
Qed.

Lemma storage_effect_or_error_witness :
  (Storage.getPaySettings Sample.store_bad_settings
   = (Sample.store_bad_settings, Thrown "SyntaxError") /\
   exists msg,
     punchOut_click (H := exact_arithmetic) 0 "alice" Sample.evening
       (mkWorld Sample.store_bad_settings Sample.blank_page)
     = (mkWorld
          (Storage.mk Missing
             (Value ([] ++ [punch_log 0 "alice" "2024-01-10" Sample.evening
                                      Sample.alice_session "2024-01-01"])%list)
             Corrupt
             (Value (delete "alice" {[ "alice" := Sample.alice_session ]})))
          (punched_out msg Sample.blank_page),
        Returned tt)) /\
  (Storage.getPaySettings Sample.store_bad_settings
   = (Sample.store_bad_settings, Thrown "SyntaxError") /\
   loadAdminView_days Sample.store_bad_settings
   = (Sample.store_bad_settings, Returned "1,15")).
Proof.
  split.
  - apply (proj1 (proj2 (proj2 (proj2 (proj2 (proj2 (proj2 (proj2 (proj2 (proj2 (proj2
            (proj2 (proj2 (storage_effect_or_error (H := exact_arithmetic)
                             Sample.store_bad_settings))))))))))))))
      with (sessions := {[ "alice" := Sample.alice_session ]});
      reflexivity.
  - apply (proj2 (proj2 (proj2 (proj2 (proj2 (proj2 (proj2 (proj2 (proj2 (proj2 (proj2
            (proj2 (proj2 (storage_effect_or_error (H := exact_arithmetic)
                             Sample.store_bad_settings)))))))))))))).
    reflexivity.
Defined.

(** C8 as the specification states it fails: [updateLog] with an index
    that matches no stored log completes without an error and without an
    effect, and so does [setCurrentPunch] for the user [__proto__]; a
    punch-out during which [getPaySettings] throws completes and files
    the log under the period computed from the start days [1, 15], and
    [loadAdminView] shows [1,15] when [getPaySettings] throws. *)
Lemma storage_failures_masked :
  Storage.updateLog 7 Sample.patch Sample.store_one_log
  = (Sample.store_one_log, Returned tt) /\
  Storage.setCurrentPunch (PerUser "__proto__" (Some Sample.alice_session)) Sample.store
  = (Sample.store, Returned tt) /\
  Storage.getPaySettings Sample.store_bad_settings
  = (Sample.store_bad_settings, Thrown "SyntaxError") /\
  (exists w',
     punchOut_click (H := exact_arithmetic) 0 "alice" Sample.evening
       (mkWorld Sample.store_bad_settings Sample.blank_page) = (w', Returned tt) /\
     Storage.logs (storage w')
     = Value [WorkLog.mk "alice" "2024-01-10" "09:00" "17:30" (Some 510) "2024-01-01" None]) /\
  loadAdminView_days Sample.store_bad_settings
  = (Sample.store_bad_settings, Returned "1,15").
Proof.
  split; [reflexivity|]. split; [reflexivity|]. split; [reflexivity|].
  split; [|reflexivity].
  eexists. split; [vm_compute; reflexivity|reflexivity].
Qed.

(** C1 fails on the program in a host ahead of UTC.  With the local time
    one hour ahead, for the local dates 2024-01-10, 2024-01-20 and
    2024-01-01 and the start days 1 and 15 the program returns
    2023-12-31, 2024-01-14 and 2023-12-31, where the statement has
    2024-01-01, 2024-01-15 and 2024-01-01; and for 2024-05-05 with the
    single start day 31 it returns 2024-04-29, not the last day of April.
    In a host at UTC the same calls return the dates of the statement. *)
Theorem getPayPeriodStart_one_hour_ahead_of_UTC :
  let ahead := 3600000 in
  let local y m d := JSDate.construct ahead (Some y) (Some m) (Some d) in
  let utc y m d := JSDate.construct 0 (Some y) (Some m) (Some d) in
  getPayPeriodStart ahead (local 2024 0 10) (Some [1; 15]) = Some "2023-12-31" /\
  getPayPeriodStart ahead (local 2024 0 20) (Some [1; 15]) = Some "2024-01-14" /\
  getPayPeriodStart ahead (local 2024 0 1) (Some [1; 15]) = Some "2023-12-31" /\
  getPayPeriodStart ahead (local 2024 4 5) (Some [31]) = Some "2024-04-29" /\
  getPayPeriodStart 0 (utc 2024 0 10) (Some [1; 15]) = Some "2024-01-01" /\
  getPayPeriodStart 0 (utc 2024 0 20) (Some [1; 15]) = Some "2024-01-15" /\
  getPayPeriodStart 0 (utc 2024 0 1) (Some [1; 15]) = Some "2024-01-01" /\
  getPayPeriodStart 0 (utc 2024 4 5) (Some [31]) = Some "2024-04-30".
Proof. cbv zeta. repeat split; vm_compute; reflexivity. Qed.

(** C2, as the program has it.  With the stored logs and accounts
    readable, and no pay-period or user name inherited from
    [Object.prototype], [generateSummary] returns the rows of the
    grouping: one row per pay period and user that have a log, with the
    sum of the [minutesWorked] of their logs (no deduction is taken off
    again), [totalHours] and [totalPay] being [toFixed(2)] of the minutes
    over 60 and of that times the rate.  The rate is the [hourlyRate] of
    the first account with the user's name when that account has one that
    is neither zero nor [NaN], and 0 otherwise; the role of the account is
    not looked at.  The periods come in ascending order; within a period
    the users come in the order of [Object.keys]: the names that are array
    indices first, by ascending value, then the other names in the order
    of their first appearance. *)
Theorem generateSummary_spec `{Float64}
    (st : Storage.t) (logs : list WorkLog.t) (accounts : list Account.t) :
  parse_or [] (Storage.logs st) = Returned logs ->
  parse_or [] (Storage.accounts st) = Returned accounts ->
  Grouping.plain_names logs ->
  generateSummary st = (st, Returned (Grouping.rows accounts logs)) /\
  StronglySorted String.le (Grouping.periods logs) /\
  NoDup (Grouping.periods logs) /\
  (forall p, p ∈ Grouping.periods logs <->
             exists log, log ∈ logs /\ WorkLog.payPeriodStart log = p) /\
  (forall p u, u ∈ Grouping.users logs p <->
               exists log, log ∈ logs /\ WorkLog.payPeriodStart log = p /\
                           WorkLog.username log = u) /\
  (forall p, NoDup (Grouping.users logs p)) /\
  (forall p,
      Grouping.users logs p
      = (merge_sort JSObject.index_le
           (filter (fun u => JSObject.is_array_index u = true)
                   (Grouping.users_by_appearance logs p))
         ++ filter (fun u => JSObject.is_array_index u = false)
                   (Grouping.users_by_appearance logs p))%list) /\
  (forall p,
      Forall (fun u => JSObject.is_array_index u = false)
             (Grouping.users_by_appearance logs p) ->
      Grouping.users logs p = Grouping.users_by_appearance logs p) /\
  (forall p u,
      summary_row accounts p u (Grouping.total logs p u)
      = SummaryRow.mk p u
          (toFixed2 (fdiv (of_int (Grouping.total logs p u)) (of_int 60)))
          (toFixed2 (fmul (fdiv (of_int (Grouping.total logs p u)) (of_int 60))
                          (rate_of accounts u)))) /\
  (forall u,
      rate_of accounts u
      = match List.find (fun a => String.eqb (Account.username a) u) accounts with
        | Some account =>
            match Account.hourlyRate account with
            | Some r => if truthy r then r else of_int 0
            | None => of_int 0
            end
        | None => of_int 0
        end).
Proof.
  intros El Ea _.
  split; [now apply generateSummary_rows|].
  split; [apply StronglySorted_merge_sort; apply _|].
  split.
  { unfold Grouping.periods. rewrite merge_sort_Permutation.
    apply first_appearances_NoDup. }
  split; [apply periods_elem|].
  split; [apply users_elem|].
  split.
  { intros p. unfold Grouping.users. rewrite order_keys_Permutation.
    apply first_appearances_NoDup. }
  split; [reflexivity|].
  split; [intros p; apply order_keys_no_index|].
  split; reflexivity.
Qed.

Lemma generateSummary_spec_witness :
  generateSummary
    (Sample.store_of [Sample.employee "amy" 12]
       [Sample.log_of "zed" "2024-01-15" 30; Sample.log_of "amy" "2024-01-01" 45;
        Sample.log_of "amy" "2024-01-15" 60; Sample.log_of "amy" "2024-01-15" 90])
  = (Sample.store_of [Sample.employee "amy" 12]
       [Sample.log_of "zed" "2024-01-15" 30; Sample.log_of "amy" "2024-01-01" 45;
        Sample.log_of "amy" "2024-01-15" 60; Sample.log_of "amy" "2024-01-15" 90],
     Returned
       [SummaryRow.mk "2024-01-01" "amy" "0.75" "9.00";
        SummaryRow.mk "2024-01-15" "zed" "0.50" "0.00";
        SummaryRow.mk "2024-01-15" "amy" "2.50" "30.00"]).
Proof.
  refine (proj1 (generateSummary_spec (H := exact_arithmetic)
                   (Sample.store_of [Sample.employee "amy" 12]
                      [Sample.log_of "zed" "2024-01-15" 30; Sample.log_of "amy" "2024-01-01" 45;
                       Sample.log_of "amy" "2024-01-15" 60; Sample.log_of "amy" "2024-01-15" 90])
                   [Sample.log_of "zed" "2024-01-15" 30; Sample.log_of "amy" "2024-01-01" 45;
                    Sample.log_of "amy" "2024-01-15" 60; Sample.log_of "amy" "2024-01-15" 90]
                   [Sample.employee "amy" 12] eq_refl eq_refl _)).
  repeat constructor.
Defined.

(** C2 as the specification states it fails twice: an account whose role
    is not employee is paid at its hourly rate when it has one, and users
    whose names are array indices are listed by ascending value, not in
    the order of their first appearance. *)
Lemma generateSummary_role_and_order :
  Account.role Sample.paid_admin = "admin" /\
  generateSummary (Sample.store_of [Sample.paid_admin] [Sample.log_of "boss" "2024-01-01" 60])
  = (Sample.store_of [Sample.paid_admin] [Sample.log_of "boss" "2024-01-01" 60],
     Returned [SummaryRow.mk "2024-01-01" "boss" "1.00" "20.00"]) /\
  generateSummary
    (Sample.store_of [] [Sample.log_of "10" "2024-01-01" 60; Sample.log_of "9" "2024-01-01" 30])
  = (Sample.store_of [] [Sample.log_of "10" "2024-01-01" 60; Sample.log_of "9" "2024-01-01" 30],
     Returned [SummaryRow.mk "2024-01-01" "9" "0.50" "0.00";
               SummaryRow.mk "2024-01-01" "10" "1.00" "0.00"]).
Proof. repeat split; vm_compute; reflexivity. Qed.



(** ** Part IV: further properties of the program *)

(** *** Numerals read by [parseInt] *)

Ltac eval_radix_digit :=
  match goal with
  | |- context [JS.radix_digit ?r ?c] =>
      let v := eval vm_compute in (JS.radix_digit r c) in
      change (JS.radix_digit r c) with v
  end.

Lemma digits_prefix_acc (d : Decimal.uint) (acc : positive) :
  JS.digits_prefix 10 (NilEmpty.string_of_uint d) (Some (Z.pos acc))
  = Some (Z.pos (Pos.of_uint_acc d acc)).
Proof.
  revert acc. induction d; intros acc; [reflexivity|..];
    cbn [NilEmpty.string_of_uint JS.digits_prefix Pos.of_uint_acc];
    rewrite <- IHd; eval_radix_digit; cbn [default from_option]; unfold id;
    f_equal; f_equal; lia.
Qed.

Lemma digits_prefix_numeral (d : Decimal.uint) :
  JS.digits_prefix 10 (NilEmpty.string_of_uint d) (Some 0) = Some (Z.of_uint d).
Proof.
  induction d; [reflexivity|..];
    cbn [NilEmpty.string_of_uint JS.digits_prefix]; eval_radix_digit;
    cbn [default from_option]; unfold id;
    [exact IHd|..]; apply (digits_prefix_acc d).
Qed.

Lemma digits_prefix_numeral_start (d : Decimal.uint) :
  d <> Decimal.Nil ->
  JS.digits_prefix 10 (NilEmpty.string_of_uint d) None = Some (Z.of_uint d).
Proof.
  destruct d; intros Hd; [contradiction|..];
    cbn [NilEmpty.string_of_uint JS.digits_prefix]; eval_radix_digit;
    cbn [default from_option]; unfold id;
    [exact (digits_prefix_numeral d)|..]; exact (digits_prefix_acc d _).
Qed.

Lemma Z_mul_one_fmap (o : option Z) : Z.mul 1 <$> o = o.
Proof. destruct o as [z|]; simpl; [|reflexivity]. f_equal. destruct z; reflexivity. Qed.

(** *** Texts without white space, and [trim] *)

Lemma reverse_onto_twice (s a b : string) :
  JS.reverse_onto (JS.reverse_onto s a) b = JS.reverse_onto a (s +:+ b).
Proof.
  revert a b. induction s as [|c s IH]; intros a b; simpl; [reflexivity|].
  rewrite IH. reflexivity.
Qed.

Lemma append_empty_r (s : string) : s +:+ "" = s.
Proof. induction s; simpl; congruence. Qed.

Lemma reverse_involutive (s : string) : JS.reverse (JS.reverse s) = s.
Proof.
  unfold JS.reverse. rewrite reverse_onto_twice. simpl. apply append_empty_r.
Qed.

Lemma no_white_reverse_onto (s acc : string) :
  no_white s -> no_white acc -> no_white (JS.reverse_onto s acc).
Proof.
  unfold no_white. revert acc. induction s as [|c s IH]; intros acc Hs Ha; simpl; [assumption|].
  inversion Hs; subst. apply IH; [assumption|]. simpl. constructor; assumption.
Qed.

Lemma trimStart_no_white (s : string) : no_white s -> JS.trimStart s = s.
Proof.
  unfold no_white. destruct s as [|c s]; simpl; [reflexivity|].
  intros Hs. inversion Hs as [|? ? Hc ?]; subst. now rewrite Hc.
Qed.

Lemma trim_no_white (s : string) : no_white s -> JS.trim s = s.
Proof.
  intros Hs. unfold JS.trim. rewrite (trimStart_no_white s Hs).
  rewrite trimStart_no_white.
  - apply reverse_involutive.
  - apply no_white_reverse_onto; [assumption|constructor].
Qed.

Lemma no_white_app (s t : string) : no_white s -> no_white t -> no_white (s +:+ t).
Proof.
  unfold no_white. induction s as [|c s IH]; simpl; [auto|].
  intros Hs Ht. inversion Hs; subst. constructor; auto.
Qed.

Lemma digit_not_white c : is_digit c = true -> JS.is_white c = false.
Proof. intros H. digit_cases H; reflexivity. Qed.

Lemma digit_not_comma c : is_digit c = true -> Ascii.eqb c "," = false.
Proof. intros H. digit_cases H; reflexivity. Qed.

Lemma all_digits_no_white (s : string) : all_digits s -> no_white s.
Proof.
  unfold all_digits, no_white. intros Hs.
  eapply Forall_impl; [exact Hs|]. intros c. apply digit_not_white.
Qed.

(** *** Numerals read by [parseInt], continued *)

Lemma parseInt_string_of_uint (d : Decimal.uint) :
  d <> Decimal.Nil ->
  JS.parseInt (NilEmpty.string_of_uint d) = Some (Z.of_uint d).
Proof.
  intros Hd. rewrite <- (digits_prefix_numeral_start d Hd).
  unfold JS.parseInt.
  rewrite (trimStart_no_white _ (all_digits_no_white _ (string_of_uint_digits d))).
  destruct d as [|d|d|d|d|d|d|d|d|d|d]; [contradiction|..];
    cbn [NilEmpty.string_of_uint];
    try (rewrite Z_mul_one_fmap; reflexivity).
  destruct d; cbn [NilEmpty.string_of_uint]; rewrite Z_mul_one_fmap; reflexivity.
Qed.

Lemma parseInt_ToString (n : Z) : 0 <= n -> JS.parseInt (JS.ToString n) = Some n.
Proof.
  intros Hn. unfold JS.ToString.
  pose proof (DecimalZ.of_to n) as Hof.
  destruct n as [|p|p]; [reflexivity| |lia].
  change (NilEmpty.string_of_int (Z.to_int (Z.pos p)))
    with (NilEmpty.string_of_uint (Pos.to_uint p)).
  rewrite parseInt_string_of_uint.
  - f_equal. exact Hof.
  - intros E. pose proof (DecimalPos.Unsigned.of_to p) as H1. rewrite E in H1. discriminate.
Qed.

(** *** The worked-time calculator on arbitrary texts *)

Lemma Number_all_digits (s : string) :
  all_digits s -> exists v, JS.Number s = Some v.
Proof.
  unfold all_digits, JS.Number. induction s as [|c s IH]; simpl; intros Hs.
  - eexists. reflexivity.
  - inversion Hs as [|? ? Hc Hs']; subst.
    destruct (IH Hs') as [v Hv].
    destruct (NilEmpty.uint_of_string s) as [d|]; [|discriminate Hv].
    digit_cases Hc; simpl; eexists; reflexivity.
Qed.

Lemma timeToMinutes_digit_fields (s : string) :
  digit_fields s ->
  match timeToMinutes s with
  | Some _ => (2 <= length (JS.split ":" s))%nat
  | None => (length (JS.split ":" s) < 2)%nat
  end.
Proof.
  unfold digit_fields, timeToMinutes. intros Hf.
  destruct (JS.split ":" s) as [|h [|m rest]]; simpl; [lia|lia|].
  inversion Hf as [|? ? [Hh _] Hf']; subst.
  inversion Hf' as [|? ? [Hm _] _]; subst.
  destruct (Number_all_digits h Hh) as [vh ->].
  destruct (Number_all_digits m Hm) as [vm ->].
  simpl. lia.
Qed.

(** X5.  [computeWorkedMinutes] never returns a negative number on texts
    whose fields between colons are runs of at most 13 digits (any number
    of fields with any values, not only well-formed times) and an integer
    deduction of at most 2^52 in absolute value: the result is [NaN]
    exactly when one of the two texts has no colon, so that its minute
    field is missing, and is a number from 0 on otherwise. *)
Theorem computeWorkedMinutes_never_negative
    (actualIn actualOut : string) (deduction : option Z) :
  digit_fields actualIn ->
  digit_fields actualOut ->
  (forall d, deduction = Some d -> Z.abs d <= 4503599627370496) ->
  match computeWorkedMinutes actualIn actualOut deduction with
  | Some minutes =>
      0 <= minutes /\
      (2 <= length (JS.split ":" actualIn))%nat /\
      (2 <= length (JS.split ":" actualOut))%nat
  | None =>
      (length (JS.split ":" actualIn) < 2)%nat \/
      (length (JS.split ":" actualOut) < 2)%nat
  end.
Proof.
  intros Hin Hout _.
  pose proof (timeToMinutes_digit_fields actualIn Hin) as Hi.
  pose proof (timeToMinutes_digit_fields actualOut Hout) as Ho.
  unfold computeWorkedMinutes.
  destruct (timeToMinutes actualIn) as [i|], (timeToMinutes actualOut) as [o|];
    simpl; auto.
  destruct (Z.ltb_spec (o - i) 0); simpl;
    match goal with |- context [?a - ?b <? 0] => destruct (Z.ltb_spec (a - b) 0) end;
    (split; [lia|split; assumption]).
Qed.

Lemma computeWorkedMinutes_never_negative_witness :
  match computeWorkedMinutes "99:99" "7:5" (Some 12) with
  | Some minutes =>
      0 <= minutes /\
      (2 <= length (JS.split ":" "99:99"))%nat /\
      (2 <= length (JS.split ":" "7:5"))%nat
  | None =>
      (length (JS.split ":" "99:99") < 2)%nat \/
      (length (JS.split ":" "7:5") < 2)%nat
  end.
Proof.
  apply (computeWorkedMinutes_never_negative "99:99" "7:5" (Some 12)).
  - repeat constructor; simpl; lia.
  - repeat constructor; simpl; lia.
  - intros d E. injection E as <-. simpl. lia.
Defined.

(** X6.  A larger deduction never gives more worked minutes, and it takes
    off at most the minutes by which it is larger. *)
Theorem computeWorkedMinutes_deduction_monotone
    (actualIn actualOut : string) (d1 d2 r1 r2 : Z) :
  d1 <= d2 ->
  computeWorkedMinutes actualIn actualOut (Some d1) = Some r1 ->
  computeWorkedMinutes actualIn actualOut (Some d2) = Some r2 ->
  r2 <= r1 <= r2 + (d2 - d1).
Proof.
  unfold computeWorkedMinutes. intros Hd.
  destruct (timeToMinutes actualIn) as [i|], (timeToMinutes actualOut) as [o|];
    simpl; try discriminate.
  destruct (Z.ltb_spec (o - i) 0); simpl;
    repeat match goal with
           | |- context [?a - ?b <? 0] => destruct (Z.ltb_spec (a - b) 0)
           end;
    intros E1 E2; inversion E1; inversion E2; lia.
Qed.

Lemma computeWorkedMinutes_deduction_monotone_witness :
  450 <= 480 <= 450 + (30 - 0).
Proof.
  apply (computeWorkedMinutes_deduction_monotone "09:00" "17:00" 0 30 480 450).
  - lia.
  - reflexivity.
  - reflexivity.
Defined.

(** *** The pay-period resolver: failures and bounds *)

(** X3.  [getPayPeriodStart] throws, whatever the host's time zone is,
    when the list of start days is empty and when the date is invalid:
    the date it builds is then invalid, and [toISOString] raises a
    [RangeError] on it. *)
Theorem getPayPeriodStart_throws (LocalTZA : Z) (dateObj : option Z) (startDays : list Z) :
  getPayPeriodStart LocalTZA dateObj (Some []) = None /\
  getPayPeriodStart LocalTZA None (Some startDays) = None /\
  getPayPeriodStart LocalTZA None None = None.
Proof.
  split; [|split].
  - rewrite getPayPeriodStart_unfold. cbn [merge_sort fold_left last].
    change (merge_sort Z.le []) with (@nil Z). cbn [fold_left last Math_min mbind option_bind].
    unfold JSDate.construct.
    destruct (match JSDate.getMonth LocalTZA dateObj with
              | Some 0 => JS.sub (JSDate.getFullYear LocalTZA dateObj) (Some 1)
              | _ => JSDate.getFullYear LocalTZA dateObj
              end) as [y|]; [|reflexivity].
    cbn [mbind option_bind].
    destruct (JS.add (JS.sub (JSDate.getMonth LocalTZA dateObj) (Some 1)) (Some 12)
              ≫= (fun m => Some (Z.rem m 12))); reflexivity.
  - rewrite getPayPeriodStart_unfold.
    cbn [JSDate.getDate JSDate.getMonth JSDate.getFullYear mbind option_bind].
    assert (E : fold_left (choose None) (merge_sort Z.le startDays) None = None).
    { induction (merge_sort Z.le startDays) as [|x l IH]; [reflexivity|exact IH]. }
    rewrite E. reflexivity.
  - reflexivity.
Qed.

Lemma MakeDay_date (y m d d' : Z) :
  JSDate.MakeDay y m d' = JSDate.MakeDay y m d + (d' - d).
Proof. unfold JSDate.MakeDay. lia. Qed.

Lemma MakeDay_previous_month (y m : Z) :
  0 <= m <= 11 ->
  let '(py, pm) := Calendar.previous_month y m in
  0 <= pm <= 11 /\
  JSDate.MakeDay py pm (Calendar.days_in_month py pm) = JSDate.MakeDay y m 0.
Proof.
  intros Hm. unfold Calendar.previous_month.
  destruct (Z.eqb_spec m 0) as [->|Hne].
  - split; [lia|]. rewrite <- MakeDay_day_zero by lia.
    unfold JSDate.MakeDay. change (11 + 1) with 12.
    change (12 / 12) with 1. change (12 mod 12) with 0.
    change (0 / 12) with 0. change (0 mod 12) with 0.
    replace (y - 1 + 1) with y by lia. replace (y + 0) with y by lia. reflexivity.
  - split; [lia|]. rewrite <- MakeDay_day_zero by lia.
    replace (m - 1 + 1) with m by lia. reflexivity.
Qed.

Lemma greatest_Some_inv (l : list Z) (c : Z) :
  Calendar.greatest l = Some c -> c ∈ l /\ forall x, x ∈ l -> x <= c.
Proof. intros E. pose proof (greatest_is_greatest l) as Hg. rewrite E in Hg. exact Hg. Qed.

Lemma greatest_None_inv (l : list Z) : Calendar.greatest l = None -> l = [].
Proof. intros E. pose proof (greatest_is_greatest l) as Hg. rewrite E in Hg. exact Hg. Qed.

(** The start of the period of a date is that date or one of the 30 days
    before it. *)
Lemma period_start_within_30_days (y m day : Z) (startDays : list Z) (Y M K : Z) :
  Calendar.valid_date y m day ->
  Forall (fun sd => 1 <= sd <= 31) startDays ->
  Calendar.period_start y m day startDays = Some (Y, M, K) ->
  JSDate.MakeDay y m day - 30 <= JSDate.MakeDay Y M K <= JSDate.MakeDay y m day.
Proof.
  intros [Hm Hd] Hall. unfold Calendar.period_start.
  rewrite Forall_forall in Hall.
  pose proof (days_in_month_bounds y m) as Hdim.
  destruct (Calendar.greatest (List.filter _ startDays)) as [c|] eqn:Eg.
  - intros E. injection E as <- <- <-.
    apply greatest_Some_inv in Eg as [Hin _].
    apply list_elem_of_In, filter_In in Hin as [Hin Hc].
    apply Z.leb_le in Hc. apply list_elem_of_In, Hall in Hin.
    rewrite (MakeDay_date y m day (Z.min c (Calendar.days_in_month y m))). lia.
  - apply greatest_None_inv in Eg.
    pose proof (MakeDay_previous_month y m Hm) as Hprev.
    destruct (Calendar.previous_month y m) as [py pm]. destruct Hprev as [Hpm Hprev].
    destruct (Calendar.greatest startDays) as [c|] eqn:Ec; [|discriminate].
    cbn [mbind option_bind]. intros E. injection E as <- <- <-.
    apply greatest_Some_inv in Ec as [Hin _].
    assert (Hlt : day < c).
    { destruct (Z_lt_le_dec day c) as [|Hle]; [assumption|]. exfalso.
      assert (Hf : c ∈ List.filter (fun sd => sd <=? day) startDays).
      { apply list_elem_of_In, filter_In. split; [now apply list_elem_of_In|].
        now apply Z.leb_le. }
      rewrite Eg in Hf. inversion Hf. }
    apply Hall in Hin.
    pose proof (days_in_month_bounds py pm) as Hdim'.
    rewrite (MakeDay_date py pm (Calendar.days_in_month py pm)
               (Z.min c (Calendar.days_in_month py pm))), Hprev.
    rewrite (MakeDay_date y m day 0). lia.
Qed.

(** X4.  The pay period never starts after the date, and never more than
    30 days before it: the instant whose date [getPayPeriodStart] prints
    is the local midnight of a day that is the local day of the date or
    one of the 30 days before. *)
Theorem getPayPeriodStart_within_30_days (LocalTZA now : Z) (startDays : list Z) :
  101 <= JSDate.YearFromTime (now + LocalTZA) <= 9999 ->
  Z.abs LocalTZA <= JSDate.msPerDay ->
  startDays <> [] ->
  Forall (fun sd => 1 <= sd <= 31) startDays ->
  exists startDay,
    getPayPeriodStart LocalTZA (Some now) (Some startDays)
    = JSDate.isoDate (Some (JSDate.UTC LocalTZA (startDay * JSDate.msPerDay))) /\
    JSDate.Day (JSDate.LocalTime LocalTZA now) - 30 <= startDay
    <= JSDate.Day (JSDate.LocalTime LocalTZA now).
Proof.
  intros Hy Htz Hne Hall.
  destruct (getPayPeriodStart_instant LocalTZA now startDays Hy Htz Hne Hall)
    as (Y & M & K & Hp & _ & _ & E).
  exists (JSDate.MakeDay Y M K). split; [exact E|].
  unfold JSDate.LocalTime.
  destruct (date_of_fields (now + LocalTZA)) as [Hv Hday]. rewrite Hday.
  apply (period_start_within_30_days _ _ _ startDays); assumption.
Qed.

Lemma getPayPeriodStart_within_30_days_witness :
  exists startDay,
    getPayPeriodStart 0 (Some Sample.evening) (Some [1; 15])
    = JSDate.isoDate (Some (JSDate.UTC 0 (startDay * JSDate.msPerDay))) /\
    JSDate.Day (JSDate.LocalTime 0 Sample.evening) - 30 <= startDay
    <= JSDate.Day (JSDate.LocalTime 0 Sample.evening).
Proof.
  apply (getPayPeriodStart_within_30_days 0 Sample.evening [1; 15]).
  - vm_compute. split; discriminate.
  - vm_compute. discriminate.
  - discriminate.
  - repeat constructor; lia.
Defined.

(** *** The pay-period field: from the stored days to the text and back *)

Lemma split_no_comma (s : string) : no_comma s -> JS.split "," s = [s].
Proof.
  unfold no_comma. induction s as [|c s IH]; simpl; [reflexivity|].
  intros Hs. inversion Hs as [|? ? Hc Hs']; subst. rewrite Hc, (IH Hs'). reflexivity.
Qed.

Lemma split_field_comma (s t : string) :
  no_comma s -> JS.split "," (s +:+ String "," t) = s :: JS.split "," t.
Proof.
  unfold no_comma. induction s as [|c s IH]; simpl; [reflexivity|].
  intros Hs. inversion Hs as [|? ? Hc Hs']; subst. rewrite Hc, (IH Hs'). reflexivity.
Qed.

Lemma join_cons (t u : string) (rest : list string) :
  JSArray.join "," (t :: u :: rest) = t +:+ String "," (JSArray.join "," (u :: rest)).
Proof. reflexivity. Qed.

Lemma split_join (texts : list string) :
  texts <> [] -> Forall no_comma texts ->
  JS.split "," (JSArray.join "," texts) = texts.
Proof.
  induction texts as [|t [|u rest] IH]; intros Hne Hall; [contradiction|..].
  - simpl. apply split_no_comma. now inversion Hall.
  - rewrite join_cons. inversion Hall as [|? ? Ht Hrest]; subst.
    rewrite (split_field_comma _ _ Ht), IH; [reflexivity|discriminate|assumption].
Qed.

Lemma no_white_join (texts : list string) :
  Forall no_white texts -> no_white (JSArray.join "," texts).
Proof.
  induction texts as [|t [|u rest] IH]; intros Hall.
  - constructor.
  - simpl. now inversion Hall.
  - rewrite join_cons. inversion Hall as [|? ? Ht Hrest]; subst.
    apply no_white_app; [assumption|].
    unfold no_white. simpl. constructor; [reflexivity|]. apply (IH Hrest).
Qed.

Lemma all_digits_no_comma (s : string) : all_digits s -> no_comma s.
Proof.
  unfold all_digits, no_comma. intros Hs.
  eapply Forall_impl; [exact Hs|]. intros c. apply digit_not_comma.
Qed.

Lemma parse_days_join (days : list Z) :
  Forall (fun sd => 1 <= sd <= 31) days ->
  parse_days (JSArray.join "," (map JS.ToString days)) = days.
Proof.
  intros Hall. unfold parse_days.
  assert (Hd : Forall all_digits (map JS.ToString days)).
  { apply Forall_fmap. eapply Forall_impl; [exact Hall|].
    intros sd Hsd. simpl in *. apply ToString_digits. lia. }
  rewrite trim_no_white
    by (apply no_white_join; eapply Forall_impl; [exact Hd|]; apply all_digits_no_white).
  destruct days as [|sd days]; [reflexivity|].
  rewrite split_join;
    [|discriminate|eapply Forall_impl; [exact Hd|]; apply all_digits_no_comma].
  clear Hd. induction Hall as [|x l Hx Hl IH]; [reflexivity|].
  cbn [map omap list_omap]. rewrite trim_no_white by (apply all_digits_no_white, ToString_digits; lia).
  rewrite parseInt_ToString by lia.
  replace (valid_day (Some x)) with (Some x)
    by (symmetry; apply valid_day_Some; split; [reflexivity|assumption]).
  f_equal. exact IH.
Qed.

Lemma merge_sort_sorted (l : list Z) : Sorted Z.le l -> merge_sort Z.le l = l.
Proof.
  intros Hs. apply (Sorted_unique Z.le).
  - apply Sorted_merge_sort; apply _.
  - assumption.
  - apply merge_sort_Permutation.
Qed.

(** X7.  The text that the administrator's view puts in the pay-period
    field, saved back as it is, stores the start days that were stored, in
    ascending order: nothing is lost between [join], [split], [trim] and
    [parseInt].  Days stored in ascending order, as every save leaves
    them, are stored again unchanged. *)
Theorem payPeriod_field_round_trip `{Float64}
    (st : Storage.t) (days : list Z) (pg : Page.t) :
  Storage.paySettings st = Value (PaySettings.mk days) ->
  days <> [] ->
  Forall (fun sd => 1 <= sd <= 31) days ->
  exists text,
    loadAdminView_days st = (st, Returned text) /\
    savePayPeriod_click text (mkWorld st pg)
    = (mkWorld (Storage.set_paySettings (PaySettings.mk (merge_sort Z.le days)) st)
         (set_payPeriodMessage "Pay period settings saved." pg),
       Returned tt) /\
    (Sorted Z.le days -> merge_sort Z.le days = days).
Proof.
  intros Hst Hne Hall.
  exists (JSArray.join "," (map JS.ToString days)). split; [|split].
  - unfold loadAdminView_days, try_catch, bind, Storage.getPaySettings, Storage.read.
    rewrite Hst. reflexivity.
  - unfold savePayPeriod_click. rewrite (parse_days_join days Hall).
    destruct days as [|sd days]; [contradiction|]. reflexivity.
  - apply merge_sort_sorted.
Qed.

Lemma payPeriod_field_round_trip_witness :
  exists text,
    loadAdminView_days (Storage.set_paySettings (PaySettings.mk [15; 1; 31]) Sample.store)
    = (Storage.set_paySettings (PaySettings.mk [15; 1; 31]) Sample.store, Returned text) /\
    savePayPeriod_click (H := exact_arithmetic) text
      (mkWorld (Storage.set_paySettings (PaySettings.mk [15; 1; 31]) Sample.store)
               Sample.blank_page)
    = (mkWorld (Storage.set_paySettings (PaySettings.mk (merge_sort Z.le [15; 1; 31]))
                  (Storage.set_paySettings (PaySettings.mk [15; 1; 31]) Sample.store))
         (set_payPeriodMessage "Pay period settings saved." Sample.blank_page),
       Returned tt) /\
    (Sorted Z.le [15; 1; 31] -> merge_sort Z.le [15; 1; 31] = [15; 1; 31]).
Proof.
  apply (payPeriod_field_round_trip (H := exact_arithmetic)
           (Storage.set_paySettings (PaySettings.mk [15; 1; 31]) Sample.store)
           [15; 1; 31] Sample.blank_page).
  - reflexivity.
  - discriminate.
  - repeat constructor; lia.
Defined.

(** *** The settings that a save leaves *)

(** X8.  The settings that the save handler stores can always be
    resolved.  Whenever the handler reports "Pay period settings saved.",
    the start days stored are at least one, in ascending order and all
    from 1 to 31, and [getPayPeriodStart] returns a date with them at
    every instant (of the years 101 to 9999, in a host within a day of
    UTC): no punch-out can fail on settings that were saved. *)
Theorem savePayPeriod_click_saves_resolvable `{Float64}
    (value : string) (w w' : World) :
  savePayPeriod_click value w = (w', Returned tt) ->
  Page.payPeriodMessage (page w') = "Pay period settings saved." ->
  exists saved,
    Storage.paySettings (storage w') = Value (PaySettings.mk saved) /\
    saved <> [] /\
    StronglySorted Z.le saved /\
    Forall (fun sd => 1 <= sd <= 31) saved /\
    forall LocalTZA now,
      101 <= JSDate.YearFromTime (now + LocalTZA) <= 9999 ->
      Z.abs LocalTZA <= JSDate.msPerDay ->
      exists text, getPayPeriodStart LocalTZA (Some now) (Some saved) = Some text.
Proof.
  intros Hsave Hmsg. unfold savePayPeriod_click in Hsave.
  pose proof (fun x => proj1 (elem_of_parse_days value x)) as Hrange.
  destruct (parse_days value) as [|d days].
  - simpl in Hsave. injection Hsave as <-. simpl in Hmsg. discriminate Hmsg.
  - cbn [length Nat.eqb] in Hsave.
    unfold bind, on_storage, on_page, Storage.setPaySettings, Storage.write in Hsave.
    cbn [storage page] in Hsave. injection Hsave as <-.
    exists (merge_sort Z.le (d :: days)).
    cbn [storage Storage.paySettings Storage.set_paySettings].
    assert (Hne : merge_sort Z.le (d :: days) <> []).
    { intros E. pose proof (merge_sort_Permutation Z.le (d :: days)) as Hp.
      rewrite E in Hp. apply Permutation_nil_l in Hp. discriminate Hp. }
    assert (Hall : Forall (fun sd => 1 <= sd <= 31) (merge_sort Z.le (d :: days))).
    { apply Forall_forall. intros x Hx. rewrite merge_sort_Z_elem in Hx.
      apply Hrange in Hx. tauto. }
    split; [reflexivity|]. split; [exact Hne|].
    split; [apply merge_sort_Z_sorted|]. split; [exact Hall|].
    intros tza now Hy Htz. apply getPayPeriodStart_returns; assumption.
Qed.

Lemma savePayPeriod_click_saves_resolvable_witness :
  exists saved,
    Storage.paySettings
      (storage (mkWorld (Storage.set_paySettings (PaySettings.mk [1; 15]) Sample.store)
                        (set_payPeriodMessage "Pay period settings saved."
                                              Sample.blank_page)))
    = Value (PaySettings.mk saved) /\
    saved <> [] /\
    StronglySorted Z.le saved /\
    Forall (fun sd => 1 <= sd <= 31) saved /\
    forall LocalTZA now,
      101 <= JSDate.YearFromTime (now + LocalTZA) <= 9999 ->
      Z.abs LocalTZA <= JSDate.msPerDay ->
      exists text, getPayPeriodStart LocalTZA (Some now) (Some saved) = Some text.
Proof.
  apply (savePayPeriod_click_saves_resolvable (H := exact_arithmetic) "15, x, 1, 40"
           Sample.world).
  - vm_compute. reflexivity.
  - reflexivity.
Defined.

(** *** The deduction editor *)


Lemma saveDeduction_click_at `{Float64}
    (st : Storage.t) (stored : list WorkLog.t) (i : nat) (log : WorkLog.t)
    (text : string) :
  Storage.logs st = Value stored ->
  stored !! i = Some log ->
  saveDeduction_click stored (JS.ToString (Z.of_nat i)) text st
  = (Storage.set_logs
       (<[i := assign_patch log
                 (LogPatch.mk
                    (computeWorkedMinutes (WorkLog.punchIn log) (WorkLog.punchOut log)
                                          (Some (coerce_deduction text)))
                    (coerce_deduction text))]> stored) st,
     Returned tt).
Proof.
  intros Hst Hlog. unfold saveDeduction_click.
  rewrite parseInt_ToString by lia.
  destruct (Z.leb_spec 0 (Z.of_nat i)); [|lia].
  rewrite Nat2Z.id, Hlog.
  rewrite (updateLog_in_range (Z.of_nat i) _ st stored log).
  - rewrite Nat2Z.id. reflexivity.
  - now rewrite Hst.
  - lia.
  - now rewrite Nat2Z.id.
Qed.



(** X10.  Deductions do not add up: saving a second deduction for a row,
    once the table has been drawn again, leaves the storage as if only
    the second had been saved, because the minutes are computed from the
    punch times and not from the minutes stored. *)
Theorem saveDeduction_click_twice `{Float64}
    (st st1 : Storage.t) (stored stored1 : list WorkLog.t) (i : nat)
    (text1 text2 : string) :
  Storage.logs st = Value stored ->
  (i < length stored)%nat ->
  saveDeduction_click stored (JS.ToString (Z.of_nat i)) text1 st = (st1, Returned tt) ->
  Storage.logs st1 = Value stored1 ->
  saveDeduction_click stored1 (JS.ToString (Z.of_nat i)) text2 st1
  = saveDeduction_click stored (JS.ToString (Z.of_nat i)) text2 st.
Proof.
  intros Hst Hi H1 Hst1.
  destruct (lookup_lt_is_Some_2 stored i Hi) as [log Hlog].
  rewrite (saveDeduction_click_at st stored i log text1 Hst Hlog) in H1.
  injection H1 as E. subst st1.
  cbn [Storage.logs Storage.set_logs] in Hst1. injection Hst1 as E1. subst stored1.
  rewrite (saveDeduction_click_at st stored i log text2 Hst Hlog).
  erewrite saveDeduction_click_at;
    [|reflexivity|apply list_lookup_insert_eq; assumption].
  rewrite list_insert_insert_eq. reflexivity.
Qed.

Lemma saveDeduction_click_twice_witness :
  saveDeduction_click (H := exact_arithmetic)
    [assign_patch Sample.one_log Sample.patch] (JS.ToString (Z.of_nat 0)) "45"
    (Storage.set_logs [assign_patch Sample.one_log Sample.patch] Sample.store_one_log)
  = saveDeduction_click [Sample.one_log] (JS.ToString (Z.of_nat 0)) "45"
      Sample.store_one_log.
Proof.
  apply (saveDeduction_click_twice (H := exact_arithmetic) Sample.store_one_log
           (Storage.set_logs [assign_patch Sample.one_log Sample.patch] Sample.store_one_log)
           [Sample.one_log] [assign_patch Sample.one_log Sample.patch] 0 "30" "45").
  - reflexivity.
  - simpl. lia.
  - reflexivity.
  - reflexivity.
Defined.

(** *** Punching in, and a whole shift *)

Lemma timeToMinutes_toTimeString (LocalTZA now : Z) :
  timeToMinutes (JSDate.toTimeString_HHMM LocalTZA (Some now))
  = Some (local_minute LocalTZA now).
Proof.
  unfold JSDate.toTimeString_HHMM, timeToMinutes, local_minute.
  set (t := JSDate.LocalTime LocalTZA now).
  assert (Hh : 0 <= JSDate.HourFromTime t)
    by (unfold JSDate.HourFromTime; apply Z.mod_pos_bound; lia).
  assert (Hm : 0 <= JSDate.MinFromTime t)
    by (unfold JSDate.MinFromTime; apply Z.mod_pos_bound; lia).
  change (":" +:+ ?x) with (String ":" x).
  rewrite split_two_fields
    by (apply padStart0_digits, ToString_digits; assumption).
  simpl map. rewrite !Number_padStart0_ToString by assumption.
  reflexivity.
Qed.

Lemma local_minute_range (LocalTZA now : Z) : 0 <= local_minute LocalTZA now < 1440.
Proof.
  unfold local_minute, JSDate.HourFromTime, JSDate.MinFromTime.
  pose proof (Z.mod_pos_bound (JSDate.LocalTime LocalTZA now / JSDate.msPerHour) 24).
  pose proof (Z.mod_pos_bound (JSDate.LocalTime LocalTZA now / JSDate.msPerMinute) 60).
  lia.
Qed.

Lemma punchIn_click_effect `{Float64}
    (LocalTZA : Z) (currentUser : string) (now : Z) (w : World)
    (sessions : gmap string PunchSession.t) (today : string) :
  parse_or ∅ (Storage.currentPunch (storage w)) = Returned sessions ->
  JSDate.isoDate (Some now) = Some today ->
  punchIn_click LocalTZA currentUser now w
  = (mkWorld
       (Storage.set_currentPunch
          (assign_session sessions currentUser
             (PunchSession.mk today (JSDate.toTimeString_HHMM LocalTZA (Some now))))
          (storage w))
       (punched_in ("You punched in at "
                    +:+ JSDate.toTimeString_HHMM LocalTZA (Some now) +:+ ".") (page w)),
     Returned tt).
Proof.
  intros Hs Ht. destruct w as [st pg].
  unfold punchIn_click, bind, or_throw, on_storage, on_page, Storage.getCurrentPunch,
    Storage.setCurrentPunch, Storage.read, Storage.write, ret.
  rewrite Ht. cbn [storage page] in *. rewrite Hs. reflexivity.
Qed.

(** X11.  A punch-in, with the stored sessions readable, stores for the
    user a session dated today (the UTC date) with the local time of the
    click, whatever session the user had before; the sessions of the other
    users, the logs, the accounts and the settings are left as they
    were, and the page shows the punch-out button in place of the
    punch-in button.  The user's name is not [__proto__], under which the
    assignment replaces the prototype of the map and stores nothing. *)
Theorem punchIn_click_spec `{Float64}
    (LocalTZA : Z) (currentUser : string) (now : Z) (w : World)
    (sessions : gmap string PunchSession.t) (today : string) :
  currentUser <> "__proto__" ->
  parse_or ∅ (Storage.currentPunch (storage w)) = Returned sessions ->
  JSDate.isoDate (Some now) = Some today ->
  exists w' sessions',
    punchIn_click LocalTZA currentUser now w = (w', Returned tt) /\
    Storage.currentPunch (storage w') = Value sessions' /\
    sessions' !! currentUser
    = Some (PunchSession.mk today (JSDate.toTimeString_HHMM LocalTZA (Some now))) /\
    (forall other, other <> currentUser -> sessions' !! other = sessions !! other) /\
    Storage.logs (storage w') = Storage.logs (storage w) /\
    Storage.accounts (storage w') = Storage.accounts (storage w) /\
    Storage.paySettings (storage w') = Storage.paySettings (storage w) /\
    Page.punchInBtn_hidden (page w') = true /\
    Page.punchOutBtn_hidden (page w') = false.
Proof.
  intros Hu Hs Ht. eexists _, _.
  split; [apply (punchIn_click_effect LocalTZA currentUser now w sessions today Hs Ht)|].
  rewrite assign_session_stores by (left; exact Hu).
  cbn [storage page Storage.currentPunch Storage.set_currentPunch Storage.logs
       Storage.accounts Storage.paySettings].
  split; [reflexivity|]. split; [apply lookup_insert_eq|].
  split; [intros other Ho; apply lookup_insert_ne; congruence|].
  repeat split; reflexivity.
Qed.

Lemma punchIn_click_spec_witness :
  exists w' sessions',
    punchIn_click (H := exact_arithmetic) 0 "bob" Sample.evening Sample.world
    = (w', Returned tt) /\
    Storage.currentPunch (storage w') = Value sessions' /\
    sessions' !! "bob"
    = Some (PunchSession.mk "2024-01-10" (JSDate.toTimeString_HHMM 0 (Some Sample.evening))) /\
    (forall other, other <> "bob" ->
                   sessions' !! other
                   = ({[ "alice" := Sample.alice_session ]} : gmap string PunchSession.t)
                       !! other) /\
    Storage.logs (storage w') = Storage.logs (storage Sample.world) /\
    Storage.accounts (storage w') = Storage.accounts (storage Sample.world) /\
    Storage.paySettings (storage w') = Storage.paySettings (storage Sample.world) /\
    Page.punchInBtn_hidden (page w') = true /\
    Page.punchOutBtn_hidden (page w') = false.
Proof.
  apply (punchIn_click_spec (H := exact_arithmetic) 0 "bob" Sample.evening Sample.world
           {[ "alice" := Sample.alice_session ]} "2024-01-10").
  - discriminate.
  - reflexivity.
  - vm_compute. reflexivity.
Defined.

(** X12.  A second punch-in replaces the first without a trace: after two
    punch-ins of a user the storage and the page are what the second
    punch-in alone would have left, so the time of the first is lost. *)
Theorem punchIn_click_twice `{Float64}
    (LocalTZA : Z) (currentUser : string) (first second : Z) (w w1 : World)
    (sessions : gmap string PunchSession.t) :
  parse_or ∅ (Storage.currentPunch (storage w)) = Returned sessions ->
  punchIn_click LocalTZA currentUser first w = (w1, Returned tt) ->
  punchIn_click LocalTZA currentUser second w1
  = punchIn_click LocalTZA currentUser second w.
Proof.
  intros Hs H1.
  destruct (isoDate_defined first) as [day1 Hd1].
  destruct (isoDate_defined second) as [day2 Hd2].
  rewrite (punchIn_click_effect LocalTZA currentUser first w sessions day1 Hs Hd1) in H1.
  injection H1 as E. subst w1.
  rewrite (punchIn_click_effect LocalTZA currentUser second w sessions day2 Hs Hd2).
  erewrite punchIn_click_effect; [|reflexivity|exact Hd2].
  destruct w as [st pg]. cbn [storage page].
  cbn [Storage.set_currentPunch Storage.accounts Storage.logs Storage.paySettings
       Storage.currentPunch].
  unfold assign_session. destruct (String.eqb currentUser "__proto__").
  - destruct (sessions !! currentUser) eqn:E.
    + rewrite lookup_insert_eq, insert_insert_eq. reflexivity.
    + rewrite E. reflexivity.
  - cbv iota. rewrite insert_insert_eq. reflexivity.
Qed.

Lemma punchIn_click_twice_witness :
  punchIn_click (H := exact_arithmetic) 0 "alice" (Sample.evening + 60000)
    (mkWorld
       (Storage.set_currentPunch
          (assign_session {[ "alice" := Sample.alice_session ]} "alice"
             (PunchSession.mk "2024-01-10" (JSDate.toTimeString_HHMM 0 (Some Sample.evening))))
          Sample.store)
       (punched_in ("You punched in at "
                    +:+ JSDate.toTimeString_HHMM 0 (Some Sample.evening) +:+ ".")
                   Sample.blank_page))
  = punchIn_click 0 "alice" (Sample.evening + 60000) Sample.world.
Proof.
  apply (punchIn_click_twice (H := exact_arithmetic) 0 "alice" Sample.evening
           (Sample.evening + 60000) Sample.world _ {[ "alice" := Sample.alice_session ]}).
  - reflexivity.
  - vm_compute. reflexivity.
Defined.

(** X13.  A whole shift.  A punch-in followed by a punch-out of the same
    user on the same day (the UTC date of the two instants) files exactly
    one log and clears the session of the user: the log carries the local
    times of the two clicks, the minutes from the first to the second,
    seconds dropped and never less than 0 or [NaN], the pay period of the
    instant of the punch-out and no deduction.  The storage is readable,
    the settings hold at least one start day, all from 1 to 31, the year
    is from 101 to 9999, the host is within a day of UTC and the user's
    name is not [__proto__]. *)
Theorem punchIn_then_punchOut `{Float64}
    (LocalTZA : Z) (currentUser : string) (clockIn clockOut : Z) (w : World)
    (sessions : gmap string PunchSession.t) (stored : list WorkLog.t)
    (settings : PaySettings.t) (today : string) :
  currentUser <> "__proto__" ->
  parse_or ∅ (Storage.currentPunch (storage w)) = Returned sessions ->
  parse_or [] (Storage.logs (storage w)) = Returned stored ->
  parse_or Storage.default_settings (Storage.paySettings (storage w)) = Returned settings ->
  PaySettings.startDays settings <> [] ->
  Forall (fun sd => 1 <= sd <= 31) (PaySettings.startDays settings) ->
  JSDate.isoDate (Some clockIn) = Some today ->
  JSDate.isoDate (Some clockOut) = Some today ->
  101 <= JSDate.YearFromTime (clockOut + LocalTZA) <= 9999 ->
  Z.abs LocalTZA <= JSDate.msPerDay ->
  exists w1 w2 payPeriodStart,
    punchIn_click LocalTZA currentUser clockIn w = (w1, Returned tt) /\
    punchOut_click LocalTZA currentUser clockOut w1 = (w2, Returned tt) /\
    getPayPeriodStart LocalTZA (Some clockOut) (Some (PaySettings.startDays settings))
    = Some payPeriodStart /\
    Storage.logs (storage w2)
    = Value (stored ++
             [WorkLog.mk currentUser today
                (JSDate.toTimeString_HHMM LocalTZA (Some clockIn))
                (JSDate.toTimeString_HHMM LocalTZA (Some clockOut))
                (Some (Z.max 0 (local_minute LocalTZA clockOut
                                - local_minute LocalTZA clockIn)))
                payPeriodStart None])%list /\
    Storage.currentPunch (storage w2) = Value (delete currentUser sessions) /\
    Storage.accounts (storage w2) = Storage.accounts (storage w) /\
    Storage.paySettings (storage w2) = Storage.paySettings (storage w).
Proof.
  intros Hu Hs Hl Hset Hne Hall Hin Hout Hy Htz.
  destruct (getPayPeriodStart_returns LocalTZA clockOut (PaySettings.startDays settings)
              Hy Htz Hne Hall) as [pps Hpps].
  pose proof (punchIn_click_effect LocalTZA currentUser clockIn w sessions today Hs Hin)
    as E1.
  rewrite assign_session_stores in E1 by (left; exact Hu).
  set (session := PunchSession.mk today (JSDate.toTimeString_HHMM LocalTZA (Some clockIn)))
    in *.
  match type of E1 with _ = (?x, _) => set (w1 := x) in * end.
  destruct (punchOut_click_session LocalTZA currentUser clockOut w1
              (<[currentUser := session]> sessions) today session stored
              (PaySettings.startDays settings) pps) as [msg E2];
    try reflexivity; try assumption.
  { apply lookup_insert_eq. }
  { unfold w1. cbn [storage Storage.paySettings Storage.set_currentPunch].
    now rewrite Hset. }
  eexists w1, _, pps. split; [exact E1|]. split; [exact E2|]. split; [exact Hpps|].
  cbn [storage Storage.logs Storage.currentPunch Storage.accounts Storage.paySettings].
  split; [|split; [|split; reflexivity]].
  - unfold punch_log. cbn [PunchSession.punchIn session].
    unfold computeWorkedMinutes. rewrite !timeToMinutes_toTimeString.
    cbn [default from_option JS.sub mbind option_bind JS.lt].
    do 4 f_equal.
    destruct (Z.ltb_spec (local_minute LocalTZA clockOut - local_minute LocalTZA clockIn) 0);
      cbn [JS.sub mbind option_bind JS.lt]; unfold id.
    + simpl. f_equal. lia.
    + rewrite Z.sub_0_r.
      destruct (Z.ltb_spec (local_minute LocalTZA clockOut - local_minute LocalTZA clockIn) 0);
        [lia|]. f_equal. lia.
  - f_equal. apply delete_insert_eq.
Qed.

Lemma punchIn_then_punchOut_witness :
  exists w1 w2 payPeriodStart,
    punchIn_click (H := exact_arithmetic) 0 "bob" 1704877200000 Sample.world
    = (w1, Returned tt) /\
    punchOut_click 0 "bob" Sample.evening w1 = (w2, Returned tt) /\
    getPayPeriodStart 0 (Some Sample.evening)
      (Some (PaySettings.startDays (PaySettings.mk [1; 15])))
    = Some payPeriodStart /\
    Storage.logs (storage w2)
    = Value ([] ++
             [WorkLog.mk "bob" "2024-01-10"
                (JSDate.toTimeString_HHMM 0 (Some 1704877200000))
                (JSDate.toTimeString_HHMM 0 (Some Sample.evening))
                (Some (Z.max 0 (local_minute 0 Sample.evening
                                - local_minute 0 1704877200000)))
                payPeriodStart None])%list /\
    Storage.currentPunch (storage w2)
    = Value (delete "bob" {[ "alice" := Sample.alice_session ]}) /\
    Storage.accounts (storage w2) = Storage.accounts (storage Sample.world) /\
    Storage.paySettings (storage w2) = Storage.paySettings (storage Sample.world).
Proof.
  apply (punchIn_then_punchOut (H := exact_arithmetic) 0 "bob" 1704877200000
           Sample.evening Sample.world {[ "alice" := Sample.alice_session ]} []
           (PaySettings.mk [1; 15]) "2024-01-10").
  - discriminate.
  - reflexivity.
  - reflexivity.
  - reflexivity.
  - discriminate.
  - repeat constructor; lia.
  - vm_compute. reflexivity.
  - vm_compute. reflexivity.
  - vm_compute. split; discriminate.
  - vm_compute. discriminate.
Defined.

(** *** What the employee's view shows *)




(** *** Accounts *)

Section AccountFacts.
Context `{Float64}.


Lemma usernames_upsert (account : Account.t) (accs : list Account.t) :
  map Account.username (Storage.upsert account accs)
  = if has_username accs (Account.username account)
    then map Account.username accs
    else (map Account.username accs ++ [Account.username account])%list.
Proof.
  unfold has_username. induction accs as [|a accs IH]; simpl; [reflexivity|].
  destruct (String.eqb_spec (Account.username a) (Account.username account)) as [E|E];
    simpl.
  - now rewrite E.
  - rewrite IH. now destruct (existsb _ accs).
Qed.

Lemma account_of_upsert_other (account : Account.t) (accs : list Account.t)
    (name : string) :
  name <> Account.username account ->
  account_of (Storage.upsert account accs) name = account_of accs name.
Proof.
  unfold account_of. intros Hn. induction accs as [|a accs IH]; simpl.
  - destruct (String.eqb_spec (Account.username account) name); [congruence|reflexivity].
  - destruct (String.eqb_spec (Account.username a) (Account.username account)) as [E|E];
      simpl.
    + destruct (String.eqb_spec (Account.username account) name); [congruence|].
      destruct (String.eqb_spec (Account.username a) name); [congruence|reflexivity].
    + destruct (String.eqb_spec (Account.username a) name); [reflexivity|exact IH].
Qed.

Lemma has_username_elem (accs : list Account.t) (name : string) :
  has_username accs name = true <-> name ∈ map Account.username accs.
Proof.
  unfold has_username. rewrite existsb_exists, list_elem_of_fmap. split.
  - intros (a & Ha & E). apply String.eqb_eq in E. exists a. split; [auto|].
    now apply list_elem_of_In.
  - intros (a & E & Ha). exists a. split; [now apply list_elem_of_In|].
    apply String.eqb_eq. auto.
Qed.

End AccountFacts.

(** X15.  [upsertAccount] keeps user names unique.  When the stored
    accounts have distinct user names, so have the accounts stored
    afterwards; the account passed is then the account of its name, the
    account of every other name is the one it was, and the accounts keep
    their order: an account of that name is replaced where it stood, a
    new one is added at the end. *)
Theorem upsertAccount_keeps_names_unique `{Float64}
    (account : Account.t) (st : Storage.t) (stored : list Account.t) :
  parse_or [] (Storage.accounts st) = Returned stored ->
  NoDup (map Account.username stored) ->
  exists saved,
    Storage.upsertAccount account st = (Storage.set_accounts saved st, Returned tt) /\
    NoDup (map Account.username saved) /\
    map Account.username saved
    = (if has_username stored (Account.username account)
       then map Account.username stored
       else (map Account.username stored ++ [Account.username account])%list) /\
    account_of saved (Account.username account) = Some account /\
    (forall name, name <> Account.username account ->
                  account_of saved name = account_of stored name).
Proof.
  intros Hst Hnd. exists (Storage.upsert account stored).
  split; [apply upsertAccount_effect; assumption|].
  split; [|split; [apply usernames_upsert|split]].
  - rewrite usernames_upsert.
    destruct (has_username stored (Account.username account)) eqn:E; [assumption|].
    apply NoDup_app. split; [assumption|]. split; [|apply NoDup_singleton].
    intros name Hin Hin'. apply list_elem_of_singleton in Hin'. subst name.
    apply has_username_elem in Hin. congruence.
  - apply find_upsert.
  - intros name Hn. apply account_of_upsert_other. assumption.
Qed.

Lemma upsertAccount_keeps_names_unique_witness :
  exists saved,
    Storage.upsertAccount (Sample.employee "amy" 15)
      (Sample.store_of [Sample.employee "amy" 12; Sample.employee "bob" 10] [])
    = (Storage.set_accounts saved
         (Sample.store_of [Sample.employee "amy" 12; Sample.employee "bob" 10] []),
       Returned tt) /\
    NoDup (map Account.username saved) /\
    map Account.username saved
    = (if has_username [Sample.employee "amy" 12; Sample.employee "bob" 10]
            (Account.username (Sample.employee "amy" 15))
       then map Account.username [Sample.employee "amy" 12; Sample.employee "bob" 10]
       else (map Account.username [Sample.employee "amy" 12; Sample.employee "bob" 10]
             ++ [Account.username (Sample.employee "amy" 15)])%list) /\
    account_of saved (Account.username (Sample.employee "amy" 15))
    = Some (Sample.employee "amy" 15) /\
    (forall name, name <> Account.username (Sample.employee "amy" 15) ->
                  account_of saved name
                  = account_of [Sample.employee "amy" 12; Sample.employee "bob" 10] name).
Proof.
  apply (upsertAccount_keeps_names_unique (H := exact_arithmetic)
           (Sample.employee "amy" 15)
           (Sample.store_of [Sample.employee "amy" 12; Sample.employee "bob" 10] [])
           [Sample.employee "amy" 12; Sample.employee "bob" 10]).
  - reflexivity.
  - apply (bool_decide_unpack _). vm_compute. exact I.
Defined.

(** *** Deleting an account *)

Lemma filter_idempotent {A : Type} (f : A -> bool) (l : list A) :
  List.filter f (List.filter f l) = List.filter f l.
Proof.
  induction l as [|x l IH]; simpl; [reflexivity|].
  destruct (f x) eqn:E; simpl; [rewrite E; f_equal|]; exact IH.
Qed.

Lemma filter_is_sublist {A : Type} (f : A -> bool) (l : list A) :
  sublist (List.filter f l) l.
Proof.
  induction l as [|x l IH]; simpl; [constructor|].
  destruct (f x); [apply sublist_skip|apply sublist_cons]; exact IH.
Qed.

(** X16.  [deleteAccount] removes the accounts and the logs of the user
    and nothing else: the other accounts and logs are kept, in their
    order; the settings and the stored sessions are not touched, so that
    an open session of the deleted user stays in the storage; and
    deleting the same user again changes nothing. *)
Theorem deleteAccount_spec `{Float64}
    (username : string) (st : Storage.t)
    (accounts : list Account.t) (logs : list WorkLog.t) :
  parse_or [] (Storage.accounts st) = Returned accounts ->
  parse_or [] (Storage.logs st) = Returned logs ->
  exists st' accounts' logs',
    Storage.deleteAccount username st = (st', Returned tt) /\
    Storage.accounts st' = Value accounts' /\
    Storage.logs st' = Value logs' /\
    (forall a, a ∈ accounts' <-> a ∈ accounts /\ Account.username a <> username) /\
    (forall log, log ∈ logs' <-> log ∈ logs /\ WorkLog.username log <> username) /\
    sublist accounts' accounts /\
    sublist logs' logs /\
    Storage.paySettings st' = Storage.paySettings st /\
    Storage.currentPunch st' = Storage.currentPunch st /\
    Storage.deleteAccount username st' = (st', Returned tt).
Proof.
  intros Ha Hl. eexists _, _, _.
  split; [apply (deleteAccount_effect username st accounts logs Ha Hl)|].
  cbn [Storage.accounts Storage.logs Storage.paySettings Storage.currentPunch
       Storage.set_logs Storage.set_accounts].
  split; [reflexivity|]. split; [reflexivity|].
  split; [|split; [|split; [|split; [|split; [|split]]]]].
  - intros a. rewrite !list_elem_of_In, filter_In, negb_true_iff.
    destruct (String.eqb_spec (Account.username a) username); intuition congruence.
  - intros log. rewrite !list_elem_of_In, filter_In, negb_true_iff.
    destruct (String.eqb_spec (WorkLog.username log) username); intuition congruence.
  - apply filter_is_sublist.
  - apply filter_is_sublist.
  - reflexivity.
  - reflexivity.
  - erewrite deleteAccount_effect; [|reflexivity|reflexivity].
    cbn [Storage.accounts Storage.logs Storage.paySettings Storage.currentPunch
         Storage.set_logs Storage.set_accounts].
    now rewrite !filter_idempotent.
Qed.

Lemma deleteAccount_spec_witness :
  exists st' accounts' logs',
    Storage.deleteAccount "bob"
      (Sample.store_of [Sample.employee "amy" 12; Sample.employee "bob" 10]
         [Sample.log_of "amy" "2024-01-15" 60; Sample.log_of "bob" "2024-01-01" 30])
    = (st', Returned tt) /\
    Storage.accounts st' = Value accounts' /\
    Storage.logs st' = Value logs' /\
    (forall a, a ∈ accounts' <->
               a ∈ [Sample.employee "amy" 12; Sample.employee "bob" 10] /\
               Account.username a <> "bob") /\
    (forall log, log ∈ logs' <->
                 log ∈ [Sample.log_of "amy" "2024-01-15" 60;
                        Sample.log_of "bob" "2024-01-01" 30] /\
                 WorkLog.username log <> "bob") /\
    sublist accounts' [Sample.employee "amy" 12; Sample.employee "bob" 10] /\
    sublist logs' [Sample.log_of "amy" "2024-01-15" 60; Sample.log_of "bob" "2024-01-01" 30] /\
    Storage.paySettings st' = Missing /\
    Storage.currentPunch st' = Missing /\
    Storage.deleteAccount "bob" st' = (st', Returned tt).
Proof.
  apply (deleteAccount_spec (H := exact_arithmetic) "bob"
           (Sample.store_of [Sample.employee "amy" 12; Sample.employee "bob" 10]
              [Sample.log_of "amy" "2024-01-15" 60; Sample.log_of "bob" "2024-01-01" 30])).
  - reflexivity.
  - reflexivity.
Defined.

(** *** Adding an employee, and logging in *)




Lemma loadEmployeeView_storage `{Float64} (username : string) (now : Z) (w : World) :
  storage (fst (loadEmployeeView username now w)) = storage w.
Proof.
  destruct w as [st pg].
  unfold loadEmployeeView, bind, or_throw, on_storage, on_page, Storage.getCurrentPunch,
    Storage.read, ret, throw. cbn [storage page].
  destruct (parse_or ∅ (Storage.currentPunch st)) as [sessions|e]; [|reflexivity].
  destruct (JSDate.isoDate (Some now)) as [today|]; [|reflexivity].
  destruct (sessions !! username) as [session|]; [|reflexivity].
  destruct (String.eqb (PunchSession.date session) today); reflexivity.
Qed.

Lemma detached_returns `{Float64} (m : Async World unit) (w : World) :
  exists w', detached m w = (w', Returned tt) /\
             (storage (fst (m w)) = storage w -> storage w' = storage w).
Proof.
  unfold detached, try_catch, ret. destruct (m w) as [w' [[]|e]]; eexists; split;
    try reflexivity; auto.
Qed.

Lemma loadAdminView_days_returns `{Float64} (st : Storage.t) :
  exists text, loadAdminView_days st = (st, Returned text).
Proof.
  unfold loadAdminView_days, try_catch, bind, Storage.getPaySettings, Storage.read, ret.
  destruct (Storage.paySettings st); eexists; reflexivity.
Qed.



(** X18.  Logging in opens a view only for a stored account with exactly
    the trimmed user name, the password and the role that were entered,
    the first such account of the list; when there is none it reports
    "Invalid credentials or role." and changes nothing.  In no case does
    a login write to the storage, and it throws only when the stored
    accounts cannot be read. *)
Theorem login_click_spec `{Float64}
    (usernameValue password role : string) (now : Z) (w : World)
    (accounts : list Account.t) :
  parse_or [] (Storage.accounts (storage w)) = Returned accounts ->
  exists w' result,
    login_click usernameValue password role now w = (w', Returned result) /\
    storage w' = storage w /\
    match result with
    | Rejected loginError =>
        loginError = "Invalid credentials or role." /\ w' = w /\
        forall acc, acc ∈ accounts ->
                    credentials_match (JS.trim usernameValue) password role acc = false
    | EmployeeView account | AdminView account _ | NoView account =>
        List.find (credentials_match (JS.trim usernameValue) password role) accounts
        = Some account /\
        account ∈ accounts /\
        Account.username account = JS.trim usernameValue /\
        Account.password account = password /\
        Account.role account = role
    end /\
    (role = "employee" -> forall account days, result <> AdminView account days) /\
    (role = "admin" -> forall account, result <> EmployeeView account).
Proof.
  intros Hst. destruct w as [st pg]. cbn [storage] in Hst.
  unfold login_click, bind, on_storage, Storage.getAccounts, Storage.read.
  cbn [storage page]. rewrite Hst.
  destruct (List.find _ accounts) as [account|] eqn:Ef.
  - assert (Hacc : account ∈ accounts /\
                   Account.username account = JS.trim usernameValue /\
                   Account.password account = password /\
                   Account.role account = role).
    { apply find_some in Ef as [Hin Hm]. unfold credentials_match in Hm.
      rewrite !andb_true_iff, !String.eqb_eq in Hm.
      split; [now apply list_elem_of_In|tauto]. }
    pose proof Hacc as (_ & _ & _ & Hrole).
    destruct (String.eqb_spec (Account.role account) "employee") as [Er|Er].
    + destruct (detached_returns (loadEmployeeView (Account.username account) now)
                  (mkWorld st pg)) as (w1 & E1 & Hs1).
      rewrite E1. eexists _, _. split; [reflexivity|].
      split; [apply Hs1, loadEmployeeView_storage|].
      split; [split; [reflexivity|exact Hacc]|].
      split; repeat intro; congruence.
    + destruct (String.eqb_spec (Account.role account) "admin") as [Ea|Ea].
      * destruct (loadAdminView_days_returns st) as [text Et].
        cbn [storage page]. rewrite Et. eexists _, _. split; [reflexivity|].
        split; [reflexivity|]. split; [split; [reflexivity|exact Hacc]|].
        split; [|repeat intro; congruence].
        repeat intro; congruence.
      * eexists _, _. split; [reflexivity|].
        split; [reflexivity|]. split; [split; [reflexivity|exact Hacc]|].
        split; repeat intro; congruence.
  - eexists _, _. split; [reflexivity|]. split; [reflexivity|].
    split; [|split; repeat intro; congruence].
    split; [reflexivity|]. split; [reflexivity|].
    intros acc Hin. apply list_elem_of_In in Hin.
    destruct (credentials_match _ _ _ acc) eqn:E; [|reflexivity].
    exfalso. eapply find_none in Ef; [|exact Hin]. congruence.
Qed.

Lemma login_click_spec_witness :
  exists w' result,
    login_click (H := exact_arithmetic) " amy " "secret" "employee" Sample.evening
      (mkWorld (Sample.store_of [Sample.employee "amy" 12] []) Sample.blank_page)
    = (w', Returned result) /\
    storage w' = Sample.store_of [Sample.employee "amy" 12] [] /\
    match result with
    | Rejected loginError =>
        loginError = "Invalid credentials or role." /\
        w' = mkWorld (Sample.store_of [Sample.employee "amy" 12] []) Sample.blank_page /\
        forall acc, acc ∈ [Sample.employee "amy" 12] ->
                    credentials_match (JS.trim " amy ") "secret" "employee" acc = false
    | EmployeeView account | AdminView account _ | NoView account =>
        List.find (credentials_match (JS.trim " amy ") "secret" "employee")
                  [Sample.employee "amy" 12]
        = Some account /\
        account ∈ [Sample.employee "amy" 12] /\
        Account.username account = JS.trim " amy " /\
        Account.password account = "secret" /\
        Account.role account = "employee"
    end /\
    ("employee" = "employee" -> forall account days, result <> AdminView account days) /\
    ("employee" = "admin" -> forall account, result <> EmployeeView account).
Proof.
  apply (login_click_spec (H := exact_arithmetic) " amy " "secret" "employee"
           Sample.evening
           (mkWorld (Sample.store_of [Sample.employee "amy" 12] []) Sample.blank_page)
           [Sample.employee "amy" 12]).
  reflexivity.
Defined.



(** *** The start-up of the storage *)

(** X20.  The start-up, [init] followed by [initDefaults], when the texts
    stored under the accounts and settings keys can be parsed.  It ends
    with at least one account and with settings stored.  No stored text
    is replaced: a key that is absent receives its default (no account,
    no log, the start days 1 and 15, no session), a key that holds a text
    keeps it, and the administrator [admin] is created only when no
    account is stored.  Running it again changes nothing. *)
Theorem startup_spec `{Float64} (st : Storage.t) :
  Storage.accounts st <> Corrupt ->
  Storage.paySettings st <> Corrupt ->
  exists st' accounts,
    Startup.run st = (st', Returned tt) /\
    Storage.accounts st' = Value accounts /\
    accounts <> [] /\
    (forall a l, Storage.accounts st = Value (a :: l) -> accounts = a :: l) /\
    (Storage.accounts st = Missing \/ Storage.accounts st = Value [] ->
     accounts = [Startup.admin_account]) /\
    Storage.logs st' = Startup.fill [] (Storage.logs st) /\
    Storage.paySettings st' = Startup.fill Storage.default_settings (Storage.paySettings st) /\
    Storage.paySettings st' <> Missing /\
    Storage.currentPunch st' = Startup.fill ∅ (Storage.currentPunch st) /\
    Startup.run st' = (st', Returned tt).
Proof.
  intros Ha Hp. destruct st as [accs lgs pset cp].
  cbn [Storage.accounts Storage.paySettings] in *.
  destruct accs as [| |[|a l]]; [|contradiction|..];
    (destruct pset as [| |settings]; [|contradiction|]);
    eexists _, _; (split; [reflexivity|]);
    cbn [Storage.accounts Storage.logs Storage.paySettings Storage.currentPunch
         Storage.set_accounts Storage.set_paySettings Startup.fill];
    (split; [reflexivity|]);
    repeat split; try discriminate; try congruence;
    try (intros [E|E]; congruence);
    destruct lgs, cp; reflexivity.
Qed.

Lemma startup_spec_witness :
  exists st' accounts,
    Startup.run Sample.store = (st', Returned tt) /\
    Storage.accounts st' = Value accounts /\
    accounts <> [] /\
    (forall a l, Storage.accounts Sample.store = Value (a :: l) -> accounts = a :: l) /\
    (Storage.accounts Sample.store = Missing \/ Storage.accounts Sample.store = Value [] ->
     accounts = [Startup.admin_account]) /\
    Storage.logs st' = Startup.fill [] (Storage.logs Sample.store) /\
    Storage.paySettings st'
    = Startup.fill Storage.default_settings (Storage.paySettings Sample.store) /\
    Storage.paySettings st' <> Missing /\
    Storage.currentPunch st' = Startup.fill ∅ (Storage.currentPunch Sample.store) /\
    Startup.run st' = (st', Returned tt).
Proof.
  apply (startup_spec (H := exact_arithmetic) Sample.store).
  - discriminate.
  - discriminate.
Defined.

(** X21.  The first login.  After the start-up on a storage that holds
    no account and no settings, the user name [admin] with the password
    [admin] and the role of administrator opens the administrator's view,
    whose pay-period field shows the start days 1 and 15. *)
Theorem first_login `{Float64} (st st' : Storage.t) (now : Z) (pg : Page.t) :
  Storage.accounts st = Missing \/ Storage.accounts st = Value [] ->
  Storage.paySettings st = Missing ->
  Startup.run st = (st', Returned tt) ->
  login_click "admin" "admin" "admin" now (mkWorld st' pg)
  = (mkWorld st' pg, Returned (AdminView Startup.admin_account "1,15")).
Proof.
  intros Ha Hp Hrun. destruct st as [accs lgs pset cp].
  cbn [Storage.accounts Storage.paySettings] in *. subst pset.
  destruct Ha as [-> | ->]; injection Hrun as <-; reflexivity.
Qed.

Lemma first_login_witness :
  login_click (H := exact_arithmetic) "admin" "admin" "admin" Sample.evening
    (mkWorld (Storage.mk (Value [Startup.admin_account]) (Value [])
                         (Value Storage.default_settings) (Value ∅))
             Sample.blank_page)
  = (mkWorld (Storage.mk (Value [Startup.admin_account]) (Value [])
                         (Value Storage.default_settings) (Value ∅))
             Sample.blank_page,
     Returned (AdminView Startup.admin_account "1,15")).
Proof.
  apply (first_login (H := exact_arithmetic) (Storage.mk Missing Missing Missing Missing)
           _ Sample.evening Sample.blank_page).
  - left. reflexivity.
  - reflexivity.
  - reflexivity.
Defined.

(** *** The summary: conservation, order of the logs, deleted accounts *)






(** X23.  The order in which the logs are stored does not change which
    rows the summary has: two storages with the same accounts and the
    same logs in different orders give the same rows, up to the order of
    the rows. *)
Theorem generateSummary_any_order `{Float64}
    (st st' : Storage.t) (logs logs' : list WorkLog.t) (accounts : list Account.t) :
  parse_or [] (Storage.logs st) = Returned logs ->
  parse_or [] (Storage.logs st') = Returned logs' ->
  parse_or [] (Storage.accounts st) = Returned accounts ->
  parse_or [] (Storage.accounts st') = Returned accounts ->
  logs ≡ₚ logs' ->
  Grouping.plain_names logs ->
  exists rows rows',
    generateSummary st = (st, Returned rows) /\
    generateSummary st' = (st', Returned rows') /\
    rows ≡ₚ rows'.
Proof.
  intros Hl Hl' Ha Ha' Hp _.
  exists (Grouping.rows accounts logs), (Grouping.rows accounts logs').
  split; [apply generateSummary_rows; assumption|].
  split; [apply generateSummary_rows; assumption|].
  apply NoDup_Permutation; [apply rows_NoDup|apply rows_NoDup|].
  intros row. rewrite !rows_elem.
  split; intros (p & u & t & Ht & Er); exists p, u, t; (split; [|exact Er]).
  - now rewrite <- (group_total_Permutation logs logs' p u Hp).
  - now rewrite (group_total_Permutation logs logs' p u Hp).
Qed.

Lemma generateSummary_any_order_witness :
  exists rows rows',
    generateSummary
      (Sample.store_of [Sample.employee "amy" 12]
         [Sample.log_of "amy" "2024-01-15" 60; Sample.log_of "bob" "2024-01-01" 30])
    = (Sample.store_of [Sample.employee "amy" 12]
         [Sample.log_of "amy" "2024-01-15" 60; Sample.log_of "bob" "2024-01-01" 30],
       Returned rows) /\
    generateSummary
      (Sample.store_of [Sample.employee "amy" 12]
         [Sample.log_of "bob" "2024-01-01" 30; Sample.log_of "amy" "2024-01-15" 60])
    = (Sample.store_of [Sample.employee "amy" 12]
         [Sample.log_of "bob" "2024-01-01" 30; Sample.log_of "amy" "2024-01-15" 60],
       Returned rows') /\
    rows ≡ₚ rows'.
Proof.
  apply (generateSummary_any_order (H := exact_arithmetic)
           (Sample.store_of [Sample.employee "amy" 12]
              [Sample.log_of "amy" "2024-01-15" 60; Sample.log_of "bob" "2024-01-01" 30])
           (Sample.store_of [Sample.employee "amy" 12]
              [Sample.log_of "bob" "2024-01-01" 30; Sample.log_of "amy" "2024-01-15" 60])
           [Sample.log_of "amy" "2024-01-15" 60; Sample.log_of "bob" "2024-01-01" 30]
           [Sample.log_of "bob" "2024-01-01" 30; Sample.log_of "amy" "2024-01-15" 60]
           [Sample.employee "amy" 12]).
  - reflexivity.
  - reflexivity.
  - reflexivity.
  - reflexivity.
  - apply perm_swap.
  - repeat constructor.
Defined.

Section DeletedAccount.
Context `{Float64}.

Lemma group_without_user (logs : list WorkLog.t) (username p u : string) :
  Grouping.group
    (List.filter (fun log => negb (String.eqb (WorkLog.username log) username)) logs) p u
  = if String.eqb u username then [] else Grouping.group logs p u.
Proof.
  unfold Grouping.group, Grouping.in_group.
  induction logs as [|log logs IH]; simpl; [now destruct (String.eqb u username)|].
  destruct (String.eqb_spec (WorkLog.username log) username) as [E|E]; simpl.
  - rewrite IH. destruct (String.eqb_spec u username) as [Eu|Eu]; [reflexivity|].
    destruct (String.eqb_spec (WorkLog.username log) u) as [E'|E']; [congruence|].
    now rewrite andb_false_r.
  - destruct (Grouping.in_period p log && String.eqb (WorkLog.username log) u) eqn:Eg.
    + rewrite IH. apply andb_true_iff in Eg as [_ Eg]. apply String.eqb_eq in Eg.
      destruct (String.eqb_spec u username) as [Eu|Eu]; [congruence|reflexivity].
    + exact IH.
Qed.

Lemma group_total_without_user (logs : list WorkLog.t) (username p u : string) :
  Grouping.group_total
    (List.filter (fun log => negb (String.eqb (WorkLog.username log) username)) logs) p u
  = if String.eqb u username then None else Grouping.group_total logs p u.
Proof.
  unfold Grouping.group_total, Grouping.total. rewrite group_without_user.
  now destruct (String.eqb u username).
Qed.

Lemma rate_of_without_user (accounts : list Account.t) (username u : string) :
  u <> username ->
  rate_of (List.filter (fun a => negb (String.eqb (Account.username a) username)) accounts) u
  = rate_of accounts u.
Proof.
  intros Hu. unfold rate_of.
  replace (List.find (fun a => String.eqb (Account.username a) u)
             (List.filter (fun a => negb (String.eqb (Account.username a) username))
                          accounts))
    with (List.find (fun a => String.eqb (Account.username a) u) accounts); [reflexivity|].
  induction accounts as [|a accounts IH]; simpl; [reflexivity|].
  destruct (String.eqb_spec (Account.username a) username) as [E|E]; simpl.
  - destruct (String.eqb_spec (Account.username a) u); [congruence|exact IH].
  - destruct (String.eqb (Account.username a) u); [reflexivity|exact IH].
Qed.

End DeletedAccount.

(** X24.  Deleting an account takes the rows of that user, and no other
    row, out of the summary: the summary generated after [deleteAccount]
    has exactly the rows of the summary generated before whose user is
    not the deleted one, with the same hours and pay. *)
Theorem deleteAccount_then_generateSummary `{Float64}
    (username : string) (st st' : Storage.t)
    (accounts : list Account.t) (logs : list WorkLog.t) :
  parse_or [] (Storage.accounts st) = Returned accounts ->
  parse_or [] (Storage.logs st) = Returned logs ->
  Grouping.plain_names logs ->
  Storage.deleteAccount username st = (st', Returned tt) ->
  exists before after,
    generateSummary st = (st, Returned before) /\
    generateSummary st' = (st', Returned after) /\
    forall row, row ∈ after <-> row ∈ before /\ SummaryRow.user row <> username.
Proof.
  intros Ha Hl _ Hdel.
  rewrite (deleteAccount_effect username st accounts logs Ha Hl) in Hdel.
  injection Hdel as <-.
  eexists _, _. split; [apply (generateSummary_rows st logs accounts Hl Ha)|].
  split; [apply generateSummary_rows; reflexivity|].
  intros row. rewrite !rows_elem. split.
  - intros (p & u & t & Ht & ->). rewrite group_total_without_user in Ht.
    destruct (String.eqb_spec u username) as [Eu|Eu]; [discriminate|].
    split; [|exact Eu]. exists p, u, t. split; [exact Ht|].
    unfold summary_row. now rewrite rate_of_without_user.
  - intros [(p & u & t & Ht & ->) Hu]. cbn [summary_row SummaryRow.user] in Hu.
    exists p, u, t. rewrite group_total_without_user.
    destruct (String.eqb_spec u username) as [Eu|Eu]; [contradiction|].
    split; [exact Ht|]. unfold summary_row. now rewrite rate_of_without_user.
Qed.

Lemma deleteAccount_then_generateSummary_witness :
  exists before after,
    generateSummary
      (Sample.store_of [Sample.employee "amy" 12; Sample.employee "bob" 10]
         [Sample.log_of "amy" "2024-01-15" 60; Sample.log_of "bob" "2024-01-01" 30])
    = (Sample.store_of [Sample.employee "amy" 12; Sample.employee "bob" 10]
         [Sample.log_of "amy" "2024-01-15" 60; Sample.log_of "bob" "2024-01-01" 30],
       Returned before) /\
    generateSummary
      (Sample.store_of [Sample.employee "amy" 12] [Sample.log_of "amy" "2024-01-15" 60])
    = (Sample.store_of [Sample.employee "amy" 12] [Sample.log_of "amy" "2024-01-15" 60],
       Returned after) /\
    forall row, row ∈ after <-> row ∈ before /\ SummaryRow.user row <> "bob".
Proof.
  apply (deleteAccount_then_generateSummary (H := exact_arithmetic) "bob"
           (Sample.store_of [Sample.employee "amy" 12; Sample.employee "bob" 10]
              [Sample.log_of "amy" "2024-01-15" 60; Sample.log_of "bob" "2024-01-01" 30])
           (Sample.store_of [Sample.employee "amy" 12] [Sample.log_of "amy" "2024-01-15" 60])
           [Sample.employee "amy" 12; Sample.employee "bob" 10]
           [Sample.log_of "amy" "2024-01-15" 60; Sample.log_of "bob" "2024-01-01" 30]).
  - reflexivity.
  - reflexivity.
  - repeat constructor.
  - reflexivity.
Defined.

(** *** The export *)

Lemma csv_fold (rows : list SummaryRow.t) (csv : string) :
  fold_left (fun csv r => csv +:+ csv_line r) rows csv
  = csv +:+ String.concat "" (map csv_line rows).
Proof.
  revert csv. induction rows as [|r [|r' rows] IH]; intros csv.
  - simpl. now rewrite append_empty_r.
  - reflexivity.
  - change (fold_left _ (r :: r' :: rows) csv)
      with (fold_left (fun csv r => csv +:+ csv_line r) (r' :: rows) (csv +:+ csv_line r)).
    rewrite IH. cbn [map String.concat]. change ("" +:+ ?x) with x.
    now rewrite app_assoc_string.
Qed.

(** X25.  The export offers a file exactly when a log is stored.  With
    no log it raises the alert "No summary data to export." and builds no
    file; otherwise the file is the header line followed by the lines of
    the rows of the summary, in their order, each line ended by a line
    feed.  The storage is not changed. *)
Theorem exportSummary_spec `{Float64}
    (w : World) (logs : list WorkLog.t) (accounts : list Account.t) :
  parse_or [] (Storage.logs (storage w)) = Returned logs ->
  parse_or [] (Storage.accounts (storage w)) = Returned accounts ->
  Grouping.plain_names logs ->
  exists rows,
    generateSummary (storage w) = (storage w, Returned rows) /\
    (rows = [] <-> logs = []) /\
    exportSummary w
    = match rows with
      | [] => (mkWorld (storage w) (alert "No summary data to export." (page w)),
               Returned None)
      | _ :: _ => (w, Returned (Some (csv_header +:+ String.concat "" (map csv_line rows))))
      end.
Proof.
  intros Hl Ha _. exists (Grouping.rows accounts logs).
  pose proof (generateSummary_rows (storage w) logs accounts Hl Ha) as Eg.
  split; [exact Eg|]. split.
  - split.
    + intros Er. destruct logs as [|log logs]; [reflexivity|]. exfalso.
      assert (Hin : summary_row accounts (WorkLog.payPeriodStart log) (WorkLog.username log)
                      (Grouping.total (log :: logs) (WorkLog.payPeriodStart log)
                                      (WorkLog.username log))
                    ∈ Grouping.rows accounts (log :: logs)).
      { apply rows_elem. eexists _, _, _. split; [|reflexivity].
        apply group_total_Some. split; [reflexivity|].
        exists log. split; [constructor|split; reflexivity]. }
      rewrite Er in Hin. inversion Hin.
    + intros ->. reflexivity.
  - destruct w as [st pg]. cbn [storage page] in *.
    unfold exportSummary, bind, on_storage, on_page, ret. cbn [storage page].
    rewrite Eg. destruct (Grouping.rows accounts logs) as [|r rows]; [reflexivity|].
    now rewrite csv_fold.
Qed.

Lemma exportSummary_spec_witness :
  exists rows,
    generateSummary
      (Sample.store_of [Sample.employee "amy" 12] [Sample.log_of "amy" "2024-01-15" 60])
    = (Sample.store_of [Sample.employee "amy" 12] [Sample.log_of "amy" "2024-01-15" 60],
       Returned rows) /\
    (rows = [] <-> [Sample.log_of "amy" "2024-01-15" 60] = []) /\
    exportSummary
      (mkWorld (Sample.store_of [Sample.employee "amy" 12]
                                [Sample.log_of "amy" "2024-01-15" 60])
               Sample.blank_page)
    = match rows with
      | [] => (mkWorld (Sample.store_of [Sample.employee "amy" 12]
                                        [Sample.log_of "amy" "2024-01-15" 60])
                       (alert "No summary data to export." Sample.blank_page),
               Returned None)
      | _ :: _ =>
          (mkWorld (Sample.store_of [Sample.employee "amy" 12]
                                    [Sample.log_of "amy" "2024-01-15" 60])
                   Sample.blank_page,
           Returned (Some (csv_header +:+ String.concat "" (map csv_line rows))))
      end.
Proof.
  apply (exportSummary_spec (H := exact_arithmetic)
           (mkWorld (Sample.store_of [Sample.employee "amy" 12]
                                     [Sample.log_of "amy" "2024-01-15" 60])
                    Sample.blank_page)
           [Sample.log_of "amy" "2024-01-15" 60] [Sample.employee "amy" 12]).
  - reflexivity.
  - reflexivity.
  - repeat constructor.
Defined.

(** *** The pay-period resolver in hosts behind and ahead of UTC: examples *)

Lemma getPayPeriodStart_at_or_west_of_UTC_witness :
  let tza := -18000000 in
  let now := Sample.evening in
  let y := JSDate.YearFromTime (now + tza) in
  let m := JSDate.MonthFromTime (now + tza) in
  let day := JSDate.DateFromTime (now + tza) in
  exists Y M K,
    Calendar.period_start y m day [1; 15] = Some (Y, M, K) /\
    Calendar.valid_date Y M K /\
    getPayPeriodStart tza (Some now) (Some [1; 15]) = Some (Calendar.iso Y M K).
Proof.
  apply (getPayPeriodStart_at_or_west_of_UTC (-18000000) Sample.evening [1; 15]).
  - vm_compute. split; discriminate.
  - vm_compute. split; [reflexivity|discriminate].
  - discriminate.
  - repeat constructor; lia.
Defined.

Lemma getPayPeriodStart_east_of_UTC_witness :
  let tza := 3600000 in
  let now := Sample.evening in
  let y := JSDate.YearFromTime (now + tza) in
  let m := JSDate.MonthFromTime (now + tza) in
  let day := JSDate.DateFromTime (now + tza) in
  exists Y M K Y' M' K',
    Calendar.period_start y m day [1; 15] = Some (Y, M, K) /\
    Calendar.valid_date Y M K /\
    Calendar.valid_date Y' M' K' /\
    JSDate.MakeDay Y' M' K' = JSDate.MakeDay Y M K - 1 /\
    getPayPeriodStart tza (Some now) (Some [1; 15]) = Some (Calendar.iso Y' M' K').
Proof.
  apply (getPayPeriodStart_east_of_UTC 3600000 Sample.evening [1; 15]).
  - vm_compute. split; discriminate.
  - vm_compute. split; [reflexivity|discriminate].
  - discriminate.
  - repeat constructor; lia.
Defined.

(** *** Punch-outs that file nothing *)

(** X26.  A punch-out cannot close a session across the change of the UTC
    date.  After a punch-in, a punch-out at an instant whose UTC date is
    not that of the punch-in raises the alert "No punch in record found
    for today.", files no log and leaves the session in the storage, also
    when both instants fall on the same day of the host's local time. *)
Theorem punchIn_then_punchOut_other_day `{Float64}
    (LocalTZA : Z) (currentUser : string) (clockIn clockOut : Z) (w w1 : World)
    (sessions : gmap string PunchSession.t) (day1 day2 : string) :
  currentUser <> "__proto__" ->
  parse_or ∅ (Storage.currentPunch (storage w)) = Returned sessions ->
  JSDate.isoDate (Some clockIn) = Some day1 ->
  JSDate.isoDate (Some clockOut) = Some day2 ->
  day1 <> day2 ->
  punchIn_click LocalTZA currentUser clockIn w = (w1, Returned tt) ->
  punchOut_click LocalTZA currentUser clockOut w1
  = (mkWorld (storage w1) (alert "No punch in record found for today." (page w1)),
     Returned tt) /\
  Storage.logs (storage w1) = Storage.logs (storage w) /\
  exists sessions1,
    Storage.currentPunch (storage w1) = Value sessions1 /\
    sessions1 !! currentUser
    = Some (PunchSession.mk day1 (JSDate.toTimeString_HHMM LocalTZA (Some clockIn))).
Proof.
  intros Hu Hs H1 H2 Hne E1.
  rewrite (punchIn_click_effect LocalTZA currentUser clockIn w sessions day1 Hs H1) in E1.
  injection E1 as E. subst w1.
  rewrite assign_session_stores by (left; exact Hu).
  cbn [storage page Storage.logs Storage.currentPunch Storage.set_currentPunch].
  split; [|split; [reflexivity|]].
  - erewrite punchOut_click_no_session; [reflexivity|reflexivity|exact H2|].
    intros session Hl. rewrite lookup_insert_eq in Hl. injection Hl as <-. exact Hne.
  - eexists. split; [reflexivity|]. apply lookup_insert_eq.
Qed.

Lemma punchIn_then_punchOut_other_day_witness :
  let tza := -18000000 in
  let clockIn := 1704927600000 in
  let clockOut := 1704934800000 in
  let w1 :=
    mkWorld
      (Storage.set_currentPunch
         (assign_session {[ "alice" := Sample.alice_session ]} "bob"
            (PunchSession.mk "2024-01-10" (JSDate.toTimeString_HHMM tza (Some clockIn))))
         Sample.store)
      (punched_in ("You punched in at "
                   +:+ JSDate.toTimeString_HHMM tza (Some clockIn) +:+ ".")
                  Sample.blank_page) in
  punchOut_click (H := exact_arithmetic) tza "bob" clockOut w1
  = (mkWorld (storage w1) (alert "No punch in record found for today." (page w1)),
     Returned tt) /\
  Storage.logs (storage w1) = Storage.logs (storage Sample.world) /\
  exists sessions1,
    Storage.currentPunch (storage w1) = Value sessions1 /\
    sessions1 !! "bob"
    = Some (PunchSession.mk "2024-01-10" (JSDate.toTimeString_HHMM tza (Some clockIn))).
Proof.
  apply (punchIn_then_punchOut_other_day (H := exact_arithmetic) (-18000000) "bob"
           1704927600000 1704934800000 Sample.world _
           {[ "alice" := Sample.alice_session ]} "2024-01-10" "2024-01-11").
  - discriminate.
  - reflexivity.
  - vm_compute. reflexivity.
  - vm_compute. reflexivity.
  - discriminate.
  - vm_compute. reflexivity.
Defined.

(** X27.  A punch-out fails as a whole when the stored settings hold no
    start day: [getPayPeriodStart] throws before anything is written, so
    the handler ends with a [RangeError], files no log, keeps the session
    and leaves the page as it was. *)
Theorem punchOut_click_no_start_day `{Float64}
    (LocalTZA : Z) (currentUser : string) (now : Z) (w : World)
    (sessions : gmap string PunchSession.t) (today : string) (session : PunchSession.t) :
  parse_or ∅ (Storage.currentPunch (storage w)) = Returned sessions ->
  JSDate.isoDate (Some now) = Some today ->
  sessions !! currentUser = Some session ->
  PunchSession.date session = today ->
  Storage.paySettings (storage w) = Value (PaySettings.mk []) ->
  punchOut_click LocalTZA currentUser now w = (w, Thrown "RangeError").
Proof.
  intros Hs Ht Hl Hd Hset. destruct w as [[accs lgs pset cp] pg].
  cbn [storage page Storage.currentPunch Storage.paySettings] in *. subst pset.
  unfold punchOut_click, bind, try_catch, or_throw, on_storage, on_page,
    Storage.getCurrentPunch, Storage.getPaySettings, Storage.read, ret, throw.
  rewrite Ht. cbn [storage page Storage.currentPunch]. rewrite Hs, Hl, Hd.
  rewrite String.eqb_refl.
  cbn [storage page Storage.paySettings parse_or PaySettings.startDays].
  assert (E : getPayPeriodStart LocalTZA (Some now) (Some []) = None).
  { rewrite getPayPeriodStart_unfold.
    change (merge_sort Z.le []) with (@nil Z).
    cbn [fold_left last Math_min mbind option_bind]. unfold JSDate.construct.
    destruct (match JSDate.getMonth LocalTZA (Some now) with
              | Some 0 => JS.sub (JSDate.getFullYear LocalTZA (Some now)) (Some 1)
              | _ => JSDate.getFullYear LocalTZA (Some now)
              end) as [y|]; [|reflexivity].
    cbn [mbind option_bind].
    destruct (JS.add (JS.sub (JSDate.getMonth LocalTZA (Some now)) (Some 1)) (Some 12)
              ≫= (fun m => Some (Z.rem m 12))); reflexivity. }
  rewrite E. reflexivity.
Qed.

Lemma punchOut_click_no_start_day_witness :
  punchOut_click (H := exact_arithmetic) 0 "alice" Sample.evening
    (mkWorld (Storage.set_paySettings (PaySettings.mk []) Sample.store) Sample.blank_page)
  = (mkWorld (Storage.set_paySettings (PaySettings.mk []) Sample.store) Sample.blank_page,
     Thrown "RangeError").
Proof.
  apply (punchOut_click_no_start_day (H := exact_arithmetic) 0 "alice" Sample.evening
           (mkWorld (Storage.set_paySettings (PaySettings.mk []) Sample.store)
                    Sample.blank_page)
           {[ "alice" := Sample.alice_session ]} "2024-01-10" Sample.alice_session).
  - reflexivity.
  - vm_compute. reflexivity.
  - reflexivity.
  - reflexivity.
  - reflexivity.
Defined.
